(** * Looker-to-Dataplex ingestion scripts: a shallow embedding

    The scripts of this repository are one-shot batch jobs written in Python.
    This development embeds the parts of them that carry behaviour:

    - [ingest_views_only.py] / [ingest_dashboards_only.py]: the idempotent
      entry-creation routine and the regular-expression LookML extractor;
    - [create_structural_links.py]: the relationship linker;
    - [dataplex_lineage_api.py]: the lineage client, the deterministic
      process identifier and the run constructor;
    - [config.py]: the settings read from the [.env] file and the
      environment.

    Conventions.  A Python [str] is a [string] holding the UTF-8 bytes of the
    text; the character classes [\s] and [\w] are the ASCII ones.  Everything
    the scripts obtain from outside (sub-processes, HTTP, the clock, random
    identifiers, temporary file names) comes from an environment oracle, and
    every effect is recorded in a trace, so that "no create call was issued"
    is a statement about that trace. *)

From Stdlib Require Import ZArith Ascii String List Lia Bool DecimalString.
From stdpp Require Import base tactics option list gmap strings.

Local Open Scope string_scope.
Local Open Scope list_scope.

(* ===================================================================== *)
(** ** Python string operations used by the scripts *)
(* ===================================================================== *)

Module pystr.

(** [c in s] for a one-character needle. *)
Fixpoint contains_chr (c : ascii) (s : string) : bool :=
  match s with
  | EmptyString => false
  | String a s' => if Ascii.eqb a c then true else contains_chr c s'
  end.

(** [s.split(c)] for a one-character separator: the list is never empty. *)
Fixpoint split_chr (c : ascii) (s : string) : list string :=
  match s with
  | EmptyString => [ EmptyString ]
  | String a s' =>
      if Ascii.eqb a c then EmptyString :: split_chr c s'
      else match split_chr c s' with
           | x :: xs => String a x :: xs
           | [] => [ String a EmptyString ]
           end
  end.

(** [l[-1]]; the scripts only index lists produced by [split]. *)
Definition last_item (l : list string) : string := List.last l EmptyString.

(** [s.replace(a, b)] for one-character [a] and [b]. *)
Fixpoint replace_chr (a b : ascii) (s : string) : string :=
  match s with
  | EmptyString => EmptyString
  | String x s' => String (if Ascii.eqb x a then b else x) (replace_chr a b s')
  end.

(** [str.isspace] on ASCII: TAB, LF, VT, FF, CR, FS, GS, RS, US, SPACE. *)
Definition is_space (c : ascii) : bool :=
  let n := nat_of_ascii c in
  (((9 <=? n) && (n <=? 13)) || ((28 <=? n) && (n <=? 32)))%nat.

(** [\w] on ASCII: letters, digits and the underscore. *)
Definition is_word (c : ascii) : bool :=
  let n := nat_of_ascii c in
  (((48 <=? n) && (n <=? 57)) || ((65 <=? n) && (n <=? 90))
   || ((97 <=? n) && (n <=? 122)) || (n =? 95))%nat.

Fixpoint lstrip (s : string) : string :=
  match s with
  | EmptyString => EmptyString
  | String a s' => if is_space a then lstrip s' else s
  end.

Fixpoint rstrip (s : string) : string :=
  match s with
  | EmptyString => EmptyString
  | String a s' =>
      match rstrip s' with
      | EmptyString => if is_space a then EmptyString else String a EmptyString
      | r => String a r
      end
  end.

(** [s.strip()] *)
Definition strip (s : string) : string := rstrip (lstrip s).

(** [sep.join(l)] *)
Fixpoint join (sep : string) (l : list string) : string :=
  match l with
  | [] => EmptyString
  | [x] => x
  | x :: xs => x +:+ sep +:+ join sep xs
  end.

(** [s[:n]] *)
Definition take (n : nat) (s : string) : string := String.substring 0 n s.

(** Truthiness of a string: [if s:] *)
Definition nonempty (s : string) : bool :=
  match s with EmptyString => false | _ => true end.

(** [needle in s] for any needle. *)
Fixpoint contains_str (needle s : string) : bool :=
  String.prefix needle s
  || match s with
     | EmptyString => false
     | String _ s' => contains_str needle s'
     end.

(** [s.startswith(c)] for a one-character prefix. *)
Definition startswith_chr (c : ascii) (s : string) : bool :=
  match s with
  | String a _ => Ascii.eqb a c
  | EmptyString => false
  end.

(** [s.split(c, 1)] on a text that holds [c]: what is before the first [c]
    and what is after it. *)
Fixpoint split_once (c : ascii) (s : string) : string * string :=
  match s with
  | EmptyString => (EmptyString, EmptyString)
  | String a s' =>
      if Ascii.eqb a c then (EmptyString, s')
      else let '(k, v) := split_once c s' in (String a k, v)
  end.

(** [s.lower()] on ASCII letters. *)
Fixpoint lower (s : string) : string :=
  match s with
  | EmptyString => EmptyString
  | String a s' =>
      let n := nat_of_ascii a in
      String (if ((65 <=? n) && (n <=? 90))%nat then ascii_of_nat (n + 32) else a)
        (lower s')
  end.

End pystr.

(* ===================================================================== *)
(** ** The fragment of Python's [re] the extractor uses

    A backtracking matcher with Python's priorities: leftmost match, greedy
    repetition, groups numbered by their opening parenthesis.  The patterns
    of the scripts contain no unescaped dot, so [re.DOTALL] changes nothing;
    every repeated sub-pattern consumes at least one character. *)
(* ===================================================================== *)

Module re.

Inductive regex : Type :=
| Chr (c : ascii)                  (* a literal character           *)
| Cls (p : ascii -> bool)          (* a character class             *)
| Cat (r1 r2 : regex)              (* concatenation                 *)
| Star (r : regex)                 (* greedy [r*]                   *)
| Group (n : nat) (r : regex)      (* capturing group number [n]    *)
| Eps.                             (* the empty pattern             *)

(** [r+] is [r r*]; a non-capturing group [(?:r)] is [r] itself. *)
Definition Plus (r : regex) : regex := Cat r (Star r).

(** A literal word, character by character. *)
Fixpoint Str (s : string) : regex :=
  match s with
  | EmptyString => Eps
  | String a s' => Cat (Chr a) (Str s')
  end.

Definition dquote : ascii := "034"%char.                 (* the double quote *)
Definition ws : regex := Cls pystr.is_space.             (* \s    *)
Definition word : regex := Cls pystr.is_word.            (* \w    *)
Definition Not (c : ascii) : regex :=                    (* [^c]  *)
  Cls (fun a => negb (Ascii.eqb a c)).

(** The text consumed between the suffix [s] and its suffix [s']. *)
Definition consumed (s s' : string) : string :=
  String.substring 0 (String.length s - String.length s') s.

Abbreviation groups := (gmap nat string).

(** The matcher is written with continuations: [k] is what remains to be
    matched after the current sub-pattern, and a [None] from it makes the
    matcher backtrack into the last choice point. *)
Definition cont (A : Type) : Type := string -> groups -> option A.

(** Greedy repetition of [body]: one more round if it can be matched and
    the rest of the pattern then succeeds, otherwise stop here.  A round
    has to consume text; [fuel] bounds the number of rounds. *)
Fixpoint star_loop {A : Type} (body : string -> groups -> cont A -> option A)
    (k : cont A) (fuel : nat) (s : string) (gs : groups) : option A :=
  match fuel with
  | O => k s gs
  | S fuel' =>
      match body s gs
              (fun s' gs' =>
                 if (String.length s' <? String.length s)%nat
                 then star_loop body k fuel' s' gs' else None) with
      | Some a => Some a
      | None => k s gs
      end
  end.

(** [exec r s gs k]: match [r] at the head of [s], then continue with [k]
    on what is left. *)
Fixpoint exec {A : Type} (r : regex) (s : string) (gs : groups) (k : cont A)
    {struct r} : option A :=
  match r with
  | Eps => k s gs
  | Chr c =>
      match s with
      | String a s' => if Ascii.eqb a c then k s' gs else None
      | EmptyString => None
      end
  | Cls p =>
      match s with
      | String a s' => if p a then k s' gs else None
      | EmptyString => None
      end
  | Cat r1 r2 => exec r1 s gs (fun s' gs' => exec r2 s' gs' k)
  | Star r1 => star_loop (exec r1) k (String.length s) s gs
  | Group n r1 =>
      exec r1 s gs (fun s' gs' => k s' (<[n := consumed s s']> gs'))
  end.

(** A match at the head of [s]: the remaining text and the groups. *)
Definition match_here (r : regex) (s : string) : option (string * groups) :=
  exec r s ∅ (fun s' gs => Some (s', gs)).

(** [re.search(r, s)]: the groups of the leftmost match. *)
Fixpoint search (r : regex) (s : string) : option groups :=
  match match_here r s with
  | Some (_, gs) => Some gs
  | None =>
      match s with
      | EmptyString => None
      | String _ s' => search r s'
      end
  end.

(** [m.group(n)]; a group that took no part in the match reads as empty
    here (the scripts only read groups that every match sets). *)
Definition group (n : nat) (gs : groups) : string := default EmptyString (gs !! n).

Fixpoint findall_from (fuel : nat) (r : regex) (s : string) : list groups :=
  match fuel with
  | O => []
  | S fuel' =>
      match match_here r s with
      | Some (s', gs) =>
          if (String.length s' <? String.length s)%nat
          then gs :: findall_from fuel' r s'
          else match s with
               | EmptyString => [gs]
               | String _ s1 => gs :: findall_from fuel' r s1
               end
      | None =>
          match s with
          | EmptyString => []
          | String _ s1 => findall_from fuel' r s1
          end
      end
  end.

(** [re.findall(r, s)] for a pattern with two groups: the non-overlapping
    matches from left to right, each as the pair of its groups. *)
Definition findall2 (r : regex) (s : string) : list (string * string) :=
  (fun gs => (group 1 gs, group 2 gs)) <$> findall_from (S (String.length s)) r s.

End re.

(* ===================================================================== *)
(** ** [ingest_views_only.py]: the LookML extractor *)
(* ===================================================================== *)

Module lookml.
Import re.

Record FieldLineage := mkFieldLineage {
  field_name : string;
  field_type : string;
  source_table : option string;
  source_column : option string;
  sql_definition : option string
}.

Record ViewMetadata := mkViewMetadata {
  name : string;
  sql_table_name : option string;
  dimensions : list FieldLineage;
  measures : list FieldLineage;
  description : option string
}.

(** The pattern "sql:\s*([^;]+);" *)
Definition sql_re : regex :=
  Cat (Str "sql:") (Cat (Star ws) (Cat (Group 1 (Plus (Not ";"))) (Chr ";"))).

(** The pattern "type:\s*(\w+)" *)
Definition type_re : regex :=
  Cat (Str "type:") (Cat (Star ws) (Group 1 (Plus word))).

(** The pattern "\$\{TABLE\}\.(\w+)" *)
Definition table_column_re : regex :=
  Cat (Str "${TABLE}.") (Group 1 (Plus word)).

(** The pattern "view:\s*(\w+)" *)
Definition view_name_re : regex :=
  Cat (Str "view:") (Cat (Star ws) (Group 1 (Plus word))).

(** The pattern "sql_table_name:\s*`([^`]+)`" *)
Definition sql_table_name_re : regex :=
  Cat (Str "sql_table_name:")
    (Cat (Star ws) (Cat (Chr "`") (Cat (Group 1 (Plus (Not "`"))) (Chr "`")))).

(** The pattern "description:\s*Q([^Q]+)Q" with the double quote for Q. *)
Definition description_re : regex :=
  Cat (Str "description:")
    (Cat (Star ws)
       (Cat (Chr dquote) (Cat (Group 1 (Plus (Not dquote))) (Chr dquote)))).

(** The block pattern, written with a blank between its tokens:
    [KEYWORD: \s* (\w+) \s* \{ ( [^}]+ (?: \{ [^}]* \} [^}]* )* ) \}]
    with KEYWORD either [dimension] or [measure]. *)
Definition block_re (keyword : string) : regex :=
  Cat (Str keyword)
    (Cat (Chr ":")
       (Cat (Star ws)
          (Cat (Group 1 (Plus word))
             (Cat (Star ws)
                (Cat (Chr "{")
                   (Cat (Group 2
                           (Cat (Plus (Not "}"))
                              (Star (Cat (Chr "{")
                                       (Cat (Star (Not "}"))
                                          (Cat (Chr "}") (Star (Not "}"))))))))
                      (Chr "}"))))))).

Definition parse_field_definition (field_block field_name field_type : string)
    : FieldLineage :=
  let sql_match := search sql_re field_block in
  let sql_definition := (fun m => pystr.strip (group 1 m)) <$> sql_match in
  let type_match := search type_re field_block in
  let detected_type :=
    match type_match with Some m => group 1 m | None => field_type end in
  let source_column :=
    match sql_definition with
    | Some sql =>
        if pystr.nonempty sql
        then (group 1) <$> search table_column_re sql
        else None
    | None => None
    end in
  {| field_name := field_name;
     field_type := detected_type;
     source_table := None;
     source_column := source_column;
     sql_definition := sql_definition |}.

(** [field_lineage.source_table = sql_table_name] *)
Definition set_source_table (t : option string) (f : FieldLineage) : FieldLineage :=
  {| field_name := field_name f;
     field_type := field_type f;
     source_table := t;
     source_column := source_column f;
     sql_definition := sql_definition f |}.

(** [parse_view_file], given the text read from the file and
    [Path(file_path).stem]. *)
Definition parse_view_file (stem content : string) : ViewMetadata :=
  let view_name :=
    match search view_name_re content with
    | Some m => group 1 m
    | None => stem
    end in
  let sql_table_name := (group 1) <$> search sql_table_name_re content in
  let description := (group 1) <$> search description_re content in
  let dimensions :=
    (fun '(dim_name, dim_block) =>
       set_source_table sql_table_name
         (parse_field_definition dim_block dim_name "dimension"))
      <$> findall2 (block_re "dimension") content in
  let measures :=
    (fun '(measure_name, measure_block) =>
       set_source_table sql_table_name
         (parse_field_definition measure_block measure_name "measure"))
      <$> findall2 (block_re "measure") content in
  {| name := view_name;
     sql_table_name := sql_table_name;
     dimensions := dimensions;
     measures := measures;
     description := description |}.

End lookml.

(* ===================================================================== *)
(** ** [hashlib.md5]: the MD5 message digest (RFC 1321) on 32-bit words *)
(* ===================================================================== *)

Module hashlib.
Local Open Scope Z_scope.

Definition mask32 : Z := 0xffffffff.
Definition add32 (x y : Z) : Z := Z.land (x + y) mask32.
Definition not32 (x : Z) : Z := Z.lxor x mask32.
Definition rotl32 (x n : Z) : Z :=
  Z.land (Z.lor (Z.shiftl x n) (Z.shiftr x (32 - n))) mask32.

(** floor(2^32 * abs(sin(i + 1))) for i = 0 .. 63 *)
Definition K : list Z :=
  [
    0xd76aa478; 0xe8c7b756; 0x242070db; 0xc1bdceee; 0xf57c0faf; 0x4787c62a; 0xa8304613; 0xfd469501;
    0x698098d8; 0x8b44f7af; 0xffff5bb1; 0x895cd7be; 0x6b901122; 0xfd987193; 0xa679438e; 0x49b40821;
    0xf61e2562; 0xc040b340; 0x265e5a51; 0xe9b6c7aa; 0xd62f105d; 0x02441453; 0xd8a1e681; 0xe7d3fbc8;
    0x21e1cde6; 0xc33707d6; 0xf4d50d87; 0x455a14ed; 0xa9e3e905; 0xfcefa3f8; 0x676f02d9; 0x8d2a4c8a;
    0xfffa3942; 0x8771f681; 0x6d9d6122; 0xfde5380c; 0xa4beea44; 0x4bdecfa9; 0xf6bb4b60; 0xbebfbc70;
    0x289b7ec6; 0xeaa127fa; 0xd4ef3085; 0x04881d05; 0xd9d4d039; 0xe6db99e5; 0x1fa27cf8; 0xc4ac5665;
    0xf4292244; 0x432aff97; 0xab9423a7; 0xfc93a039; 0x655b59c3; 0x8f0ccc92; 0xffeff47d; 0x85845dd1;
    0x6fa87e4f; 0xfe2ce6e0; 0xa3014314; 0x4e0811a1; 0xf7537e82; 0xbd3af235; 0x2ad7d2bb; 0xeb86d391
  ].

(** The per-round rotation amounts. *)
Definition shifts : list Z :=
  [ 7; 12; 17; 22; 7; 12; 17; 22; 7; 12; 17; 22; 7; 12; 17; 22;
    5; 9; 14; 20; 5; 9; 14; 20; 5; 9; 14; 20; 5; 9; 14; 20;
    4; 11; 16; 23; 4; 11; 16; 23; 4; 11; 16; 23; 4; 11; 16; 23;
    6; 10; 15; 21; 6; 10; 15; 21; 6; 10; 15; 21; 6; 10; 15; 21 ].

Definition state : Type := Z * Z * Z * Z.
Definition init : state := (0x67452301, 0xefcdab89, 0x98badcfe, 0x10325476).

(** [content.encode()]: the bytes of the text. *)
Fixpoint encode (s : string) : list Z :=
  match s with
  | EmptyString => []
  | String a s' => Z.of_nat (nat_of_ascii a) :: encode s'
  end.

(** Padding: a 1 bit, zeros up to 56 modulo 64, then the bit length as a
    64-bit little-endian integer. *)
Definition le_bytes (n : nat) (x : Z) : list Z :=
  (fun i => Z.land (Z.shiftr x (8 * Z.of_nat i)) 0xff) <$> seq 0 n.

Definition pad (msg : list Z) : list Z :=
  let len := Z.of_nat (length msg) in
  let zeros := Z.to_nat ((55 - len) mod 64) in
  msg ++ [0x80] ++ replicate zeros 0 ++ le_bytes 8 (Z.land (8 * len) 0xffffffffffffffff).

Fixpoint le_word (bs : list Z) : Z :=
  match bs with
  | [] => 0
  | b :: bs' => b + 256 * le_word bs'
  end.

(** The sixteen little-endian words of a 64-byte block. *)
Definition words (block : list Z) : list Z :=
  (fun i => le_word (take 4 (drop (4 * i) block))) <$> seq 0 16.

Definition step (M : list Z) (st : state) (i : nat) : state :=
  let '(a, b, c, d) := st in
  let zi := Z.of_nat i in
  let '(f, g) :=
    if zi <? 16 then (Z.lor (Z.land b c) (Z.land (not32 b) d), zi)
    else if zi <? 32 then (Z.lor (Z.land d b) (Z.land (not32 d) c), (5 * zi + 1) mod 16)
    else if zi <? 48 then (Z.lxor (Z.lxor b c) d, (3 * zi + 5) mod 16)
    else (Z.lxor c (Z.lor b (not32 d)), (7 * zi) mod 16) in
  let f' := add32 (add32 (add32 f a) (nth i K 0)) (nth (Z.to_nat g) M 0) in
  (d, add32 b (rotl32 f' (nth i shifts 0)), b, c).

Definition compress (st : state) (block : list Z) : state :=
  let '(a0, b0, c0, d0) := st in
  let '(a, b, c, d) := foldl (step (words block)) st (seq 0 64) in
  (add32 a0 a, add32 b0 b, add32 c0 c, add32 d0 d).

Fixpoint blocks (n : nat) (bytes : list Z) : list (list Z) :=
  match n with
  | O => []
  | S n' => take 64 bytes :: blocks n' (drop 64 bytes)
  end.

Definition digest_state (msg : list Z) : state :=
  let p := pad msg in
  foldl compress init (blocks (length p / 64) p).

Definition hex_digit (n : Z) : ascii :=
  nth (Z.to_nat n)
    [ "0"; "1"; "2"; "3"; "4"; "5"; "6"; "7";
      "8"; "9"; "a"; "b"; "c"; "d"; "e"; "f" ]%char "0"%char.

Definition hex_byte (b : Z) (rest : string) : string :=
  String (hex_digit (b / 16)) (String (hex_digit (b mod 16)) rest).

Definition hex_word (w : Z) (rest : string) : string :=
  hex_byte (Z.land w 0xff)
    (hex_byte (Z.land (Z.shiftr w 8) 0xff)
       (hex_byte (Z.land (Z.shiftr w 16) 0xff)
          (hex_byte (Z.land (Z.shiftr w 24) 0xff) rest))).

(** [hashlib.md5(bytes).hexdigest()] *)
Definition md5_hexdigest (msg : list Z) : string :=
  let '(a, b, c, d) := digest_state msg in
  hex_word a (hex_word b (hex_word c (hex_word d EmptyString))).

End hashlib.

(* ===================================================================== *)
(** ** Exceptions, results and the effect monad *)
(* ===================================================================== *)

Module py.

(** The exceptions that reach the scripts.  [KeyboardInterrupt] stands for
    the ones that are not subclasses of [Exception]; [JSONDecodeError] is
    the one of [requests], a subclass of [RequestException]. *)
Inductive exn : Type :=
| CalledProcessError (returncode : Z) (stderr : string)
| OSError (msg : string)
| RequestException (msg : string)
| JSONDecodeError (msg : string)
| ValueError (msg : string)
| OverflowError (msg : string)
| AttributeError (msg : string)
| KeyboardInterrupt.

(** [except Exception] *)
Definition is_Exception (e : exn) : bool :=
  match e with KeyboardInterrupt => false | _ => true end.

(** [except subprocess.CalledProcessError] *)
Definition is_CalledProcessError (e : exn) : bool :=
  match e with CalledProcessError _ _ => true | _ => false end.

(** [except requests.exceptions.RequestException] *)
Definition is_RequestException (e : exn) : bool :=
  match e with RequestException _ | JSONDecodeError _ => true | _ => false end.

Definition str_of_Z (z : Z) : string :=
  DecimalString.NilEmpty.string_of_int (Z.to_int z).

(** [e.stderr] of a [CalledProcessError] *)
Definition stderr_of (e : exn) : string :=
  match e with CalledProcessError _ err => err | _ => "" end.

(** What a call yields: a value, or an exception on its way up. *)
Inductive res (A : Type) : Type :=
| Ret (a : A)
| Raise (e : exn).
Arguments Ret {A} a.
Arguments Raise {A} e.

(** JSON documents; an object keeps the insertion order of a [dict]. *)
#[local] Unset Elimination Schemes.
Inductive json : Type :=
| JNull
| JBool (b : bool)
| JNum (n : Z)
| JStr (s : string)
| JList (l : list json)
| JObj (d : list (string * json)).
#[local] Set Elimination Schemes.

(** [d[k] = v] on an insertion-ordered dictionary. *)
Fixpoint dict_set {V : Type} (k : string) (v : V) (d : list (string * V))
    : list (string * V) :=
  match d with
  | [] => [(k, v)]
  | (k', v') :: d' =>
      if String.eqb k' k then (k, v) :: d' else (k', v') :: dict_set k v d'
  end.

(** [d.get(k)] *)
Fixpoint dict_get {V : Type} (k : string) (d : list (string * V)) : option V :=
  match d with
  | [] => None
  | (k', v) :: d' => if String.eqb k' k then Some v else dict_get k d'
  end.

(** [k in d] *)
Definition dict_has {V : Type} (k : string) (d : list (string * V)) : bool :=
  match dict_get k d with Some _ => true | None => false end.

(** Truthiness of a decoded JSON value: [if existing:] *)
Definition truthy (j : json) : bool :=
  match j with
  | JNull => false
  | JBool b => b
  | JNum n => negb (n =? 0)%Z
  | JStr s => pystr.nonempty s
  | JList l => match l with [] => false | _ => true end
  | JObj d => match d with [] => false | _ => true end
  end.

(** An HTTP response: [status_code], [text], and what [json()] decodes
    ([None] when the body is not a JSON document). *)
Record Response := mkResponse {
  status_code : Z;
  text : string;
  json_body : option json
}.

(** Every interaction with the outside world, in the order it happened;
    a call to the outside is recorded with the answer it got, a file
    operation when it has taken effect. *)
Inductive event : Type :=
| Subprocess (args : list string) (answer : res string)
| HttpRequest (method url : string)
    (params headers : list (string * string)) (body : option json)
    (answer : res Response)
| Print (line : string)
| PrintValue (label : string) (value : json)   (* [print(f"label{value}")] *)
| PrintExn (label : string) (e : exn)          (* [print(f"label{e}")]     *)
| FileWrite (name : string) (content : json)
| FileRemove (name : string).

(** The outside world as an oracle: each call consumes and returns the
    oracle's state, so answers may depend on everything done before. *)
Class Env (E : Type) := {
  (** [subprocess.run(args, capture_output=True, text=True, check=True)]:
      the standard output, or the exception raised *)
  env_subprocess : list string -> E -> res string * E;
  (** [requests.get/post/patch/delete] *)
  env_request : string -> string -> list (string * string) ->
                list (string * string) -> option json -> E -> res Response * E;
  (** [uuid.uuid4().hex] *)
  env_uuid4_hex : E -> string * E;
  (** [datetime.now(timezone.utc)], in microseconds since 0001-01-01 *)
  env_now : E -> Z * E;
  (** the name [tempfile.NamedTemporaryFile] picks for a given suffix *)
  env_tmpname : string -> E -> string * E;
  (** the exception, if any, with which creating the file of that name
      fails *)
  env_create_error : string -> E -> option exn;
  (** the exception, if any, with which writing to the created file (or
      closing it) fails *)
  env_dump_error : string -> E -> option exn
}.

(** [files] holds the temporary files on disk: [Some] document for a file
    that was written and closed, [None] for a file that was created but
    whose text is not complete. *)
Record World (E : Type) := mkWorld {
  env : E;
  files : gmap string (option json);
  trace : list event
}.
Arguments mkWorld {E} _ _ _.
Arguments env {E} _.
Arguments files {E} _.
Arguments trace {E} _.

(** A computation: from a world to a result and the world after it. *)
Definition M (E A : Type) : Type := World E -> res A * World E.

Definition ret {E A} (a : A) : M E A := fun w => (Ret a, w).
Definition raise {E A} (e : exn) : M E A := fun w => (Raise e, w).
Definition bind {E A B} (m : M E A) (f : A -> M E B) : M E B :=
  fun w => match m w with
           | (Ret a, w') => f a w'
           | (Raise e, w') => (Raise e, w')
           end.

#[global] Instance M_ret {E} : MRet (M E) := fun A => @ret E A.
#[global] Instance M_bind {E} : MBind (M E) := fun A B f m => bind m f.

Definition log {E} (ev : event) (w : World E) : World E :=
  mkWorld (env w) (files w) (trace w ++ [ev]).

(** [try: body  except <catches> as e: handler e] *)
Definition try_except {E A} (body : M E A) (catches : exn -> bool)
    (handler : exn -> M E A) : M E A :=
  fun w => match body w with
           | (Raise e, w') => if catches e then handler e w' else (Raise e, w')
           | r => r
           end.

(** [try: body  finally: cleanup]; an exception of the cleanup replaces
    the outcome of the body. *)
Definition try_finally {E A} (body : M E A) (cleanup : M E unit) : M E A :=
  fun w => let '(r, w1) := body w in
           match cleanup w1 with
           | (Ret _, w2) => (r, w2)
           | (Raise e, w2) => (Raise e, w2)
           end.

(** [for x in l: acc = body x acc] *)
Fixpoint for_each {E A S} (l : list A) (body : A -> S -> M E S) (acc : S)
    : M E S :=
  match l with
  | [] => ret acc
  | x :: l' => bind (body x acc) (for_each l' body)
  end.

Section primitives.
Context {E : Type} `{!Env E}.

Definition print (line : string) : M E unit :=
  fun w => (Ret tt, log (Print line) w).

(** [print] of a label followed by the rendering of a dictionary, which
    is logged as the value itself. *)
Definition print_value (label : string) (value : json) : M E unit :=
  fun w => (Ret tt, log (PrintValue label value) w).

(** [print] of a label followed by [str(e)] for an exception [e], which is
    logged as the exception itself. *)
Definition print_exn (label : string) (e : exn) : M E unit :=
  fun w => (Ret tt, log (PrintExn label e) w).

Definition subprocess_run (args : list string) : M E string :=
  fun w => let '(r, e') := env_subprocess args (env w) in
           (r, mkWorld e' (files w) (trace w ++ [Subprocess args r])).

Definition request (method url : string) (params headers : list (string * string))
    (body : option json) : M E Response :=
  fun w => let '(r, e') := env_request method url params headers body (env w) in
           (r, mkWorld e' (files w)
                 (trace w ++ [HttpRequest method url params headers body r])).

Definition uuid4_hex : M E string :=
  fun w => let '(h, e') := env_uuid4_hex (env w) in
           (Ret h, mkWorld e' (files w) (trace w)).

Definition now_utc : M E Z :=
  fun w => let '(t, e') := env_now (env w) in
           (Ret t, mkWorld e' (files w) (trace w)).

(** [with tempfile.NamedTemporaryFile(mode='w', delete=False, suffix=..)
    as tmp: json.dump(content, tmp, indent=2)]: yields [tmp.name].  When
    the file cannot be created the exception leaves no file; when the
    document cannot be written the exception leaves the file on disk, as
    [delete=False] asks.  Otherwise the file holds the document; its text
    layout is not modelled. *)
Definition named_temporary_file (suffix : string) (content : json) : M E string :=
  fun w => let '(n, e') := env_tmpname suffix (env w) in
           match env_create_error n e' with
           | Some ex => (Raise ex, mkWorld e' (files w) (trace w))
           | None =>
               match env_dump_error n e' with
               | Some ex => (Raise ex, mkWorld e' (<[n := None]> (files w)) (trace w))
               | None =>
                   (Ret n, mkWorld e' (<[n := Some content]> (files w))
                             (trace w ++ [FileWrite n content]))
               end
           end.

(** [os.remove(name)] *)
Definition os_remove (name : string) : M E unit :=
  fun w => match files w !! name with
           | Some _ =>
               (Ret tt, mkWorld (env w) (delete name (files w))
                          (trace w ++ [FileRemove name]))
           | None => (Raise (OSError ("No such file or directory: " +:+ name)), w)
           end.
End primitives.

End py.

(* ===================================================================== *)
(** ** [config.py]: the process-wide settings *)
(* ===================================================================== *)

Record Config := mkConfig {
  PROJECT_ID : string;
  LOCATION : string;
  ENTRY_GROUP : string;
  LOOKER_INSTANCE_ID : string
}.

(** The module [config.py] itself: run at import, it reads the optional
    [.env] file into the environment, then the settings out of it. *)
Module config.
Import py.

(** [os.environ[key] = value] *)
Definition setenv (key value : string) (environ : gmap string string)
    : res (gmap string string) :=
  if pystr.contains_chr "000" key || pystr.contains_chr "000" value
  then Raise (ValueError "embedded null byte")
  else if negb (pystr.nonempty key)
  then Raise (OSError "[Errno 22] Invalid argument")
  else Ret (<[key := value]> environ).

(** One round of the loop of [load_env_file]. *)
Definition load_env_line (line : string) (environ : gmap string string)
    : res (gmap string string) :=
  let line := pystr.strip line in
  if pystr.nonempty line && negb (pystr.startswith_chr "#" line)
     && pystr.contains_chr "=" line
  then
    let '(key, value) := pystr.split_once "=" line in
    setenv (pystr.strip key) (pystr.strip value) environ
  else Ret environ.

Fixpoint load_env_lines (lines : list string) (environ : gmap string string)
    : res (gmap string string) :=
  match lines with
  | [] => Ret environ
  | line :: lines' =>
      match load_env_line line environ with
      | Ret environ' => load_env_lines lines' environ'
      | Raise e => Raise e
      end
  end.

(** [load_env_file], given the lines of the [.env] file, or [None] when
    there is no such file. *)
Definition load_env_file (dotenv : option (list string))
    (environ : gmap string string) : res (gmap string string) :=
  match dotenv with
  | Some lines => load_env_lines lines environ
  | None => Ret environ
  end.

Definition get_env_var (var_name : string) (default : option string)
    (required : bool) (environ : gmap string string) : res (option string) :=
  let value :=
    match environ !! var_name with
    | Some v => Some v
    | None => default
    end in
  let falsy := match value with Some v => negb (pystr.nonempty v) | None => true end in
  if required && falsy then
    Raise (ValueError ("Required environment variable '" +:+ var_name
                       +:+ "' is not set. Please set it in your .env file or environment."))
  else Ret value.

(** The settings computed when the module is imported: the four of
    [Config], then [BQ_DATASET] and [DEBUG]. *)
Definition load (dotenv : option (list string)) (environ : gmap string string)
    : res (Config * string * bool) :=
  match load_env_file dotenv environ with
  | Raise e => Raise e
  | Ret environ =>
      let required name fallback :=
        match get_env_var name fallback true environ with
        | Ret v => Ret (default EmptyString v)
        | Raise e => Raise e
        end in
      match required "GCP_PROJECT_ID" None with
      | Raise e => Raise e
      | Ret project_id =>
      match required "GCP_LOCATION" (Some "eu") with
      | Raise e => Raise e
      | Ret location =>
      match required "DATAPLEX_ENTRY_GROUP" (Some "looker") with
      | Raise e => Raise e
      | Ret entry_group =>
      match required "LOOKER_INSTANCE_ID" (Some "mylooker") with
      | Raise e => Raise e
      | Ret looker_instance_id =>
      match required "BQ_DATASET" (Some "retail_banking") with
      | Raise e => Raise e
      | Ret bq_dataset =>
      match get_env_var "DEBUG" (Some "false") false environ with
      | Raise e => Raise e
      | Ret debug =>
          Ret (mkConfig project_id location entry_group looker_instance_id,
               bq_dataset,
               String.eqb (pystr.lower (default EmptyString debug)) "true")
      end end end end end end
  end.

End config.

(* ===================================================================== *)
(** ** [ingest_views_only.py]: idempotent entry creation *)
(* ===================================================================== *)

Module ingest_views_only.
Import py.

Section script.
Context {E : Type} `{!Env E} (cfg : Config).

Definition run_gcloud_command (command_args : list string) : M E (option string) :=
  try_except
    (stdout ← subprocess_run command_args;
     mret (Some stdout))
    is_CalledProcessError
    (fun e =>
       print ("Error running command: " +:+ pystr.join " " command_args);;
       print ("Stderr: " +:+ stderr_of e);;
       mret None).

Definition describe_args (entry_id : string) : list string :=
  [ "gcloud"; "dataplex"; "entries"; "describe"; entry_id;
    "--project=" +:+ PROJECT_ID cfg;
    "--location=" +:+ LOCATION cfg;
    "--entry-group=" +:+ ENTRY_GROUP cfg;
    "--format=json" ].

Definition entry_exists (entry_id : string) : M E bool :=
  let command_args := describe_args entry_id in
  try_except
    (_ ← subprocess_run command_args;
     mret true)
    is_CalledProcessError
    (fun _ => mret false).

(** Lines 77-80: the entry identifier taken from the FQN. *)
Definition entry_id_of_fqn (entry_fqn : string) : string :=
  if pystr.contains_chr ":" entry_fqn
  then pystr.replace_chr "." "-" (pystr.last_item (pystr.split_chr ":" entry_fqn))
  else pystr.replace_chr "." "-" entry_fqn.

Definition create_args (entry_id entry_type tmp_file_name entry_fqn : string)
    : list string :=
  [ "gcloud"; "dataplex"; "entries"; "create"; entry_id;
    "--project=" +:+ PROJECT_ID cfg;
    "--location=" +:+ LOCATION cfg;
    "--entry-group=" +:+ ENTRY_GROUP cfg;
    "--entry-type=" +:+ entry_type;
    "--entry-type-project=" +:+ PROJECT_ID cfg;
    "--entry-type-location=" +:+ LOCATION cfg;
    "--aspects=" +:+ tmp_file_name;
    "--fully-qualified-name=" +:+ entry_fqn ].

(** Lines 89-95: one key per aspect type, each wrapping its payload. *)
Definition format_aspects (aspect_data : list (string * json))
    : list (string * json) :=
  foldl (fun formatted_aspects '(aspect_type_id, aspect_payload) =>
           let aspect_key :=
             PROJECT_ID cfg +:+ "." +:+ LOCATION cfg +:+ "." +:+ aspect_type_id in
           dict_set aspect_key (JObj [("data", aspect_payload)]) formatted_aspects)
    [] aspect_data.

Definition create_dataplex_entry_with_aspects
    (entry_fqn entry_type : string) (aspect_data : list (string * json))
    : M E bool :=
  let entry_id := entry_id_of_fqn entry_fqn in
  exists_ ← entry_exists entry_id;
  if (exists_ : bool) then
    print ("  ⚠️  Entry " +:+ entry_id +:+ " already exists, skipping...");;
    mret true
  else
    print ("  ➕ Creating entry: " +:+ entry_id +:+ " (FQN: " +:+ entry_fqn +:+ ")");;
    let formatted_aspects := format_aspects aspect_data in
    tmp_file_name ← named_temporary_file ".json" (JObj formatted_aspects);
    let command_args := create_args entry_id entry_type tmp_file_name entry_fqn in
    try_finally
      (try_except
         (result ← run_gcloud_command command_args;
          let success := bool_decide (is_Some result) in
          (if success then print ("  ✅ Created " +:+ entry_id) else mret tt);;
          mret success)
         is_Exception
         (fun e =>
            print_exn ("  ❌ Error creating entry " +:+ entry_id +:+ ": ") e;;
            mret false))
      (os_remove tmp_file_name).

(** [generate_custom_fqn(entity_type, *args)]; unpacking [args] into three
    names raises when there are not three of them. *)
Definition generate_custom_fqn (entity_type : string) (args : list string) : res string :=
  if String.eqb entity_type "view" then
    match args with
    | [ instance_id; model_name; view_name ] =>
        Ret ("custom:looker.view:" +:+ instance_id +:+ "." +:+ model_name
             +:+ "." +:+ view_name)
    | _ => Raise (ValueError "wrong number of values to unpack (expected 3)")
    end
  else Ret "".

End script.
End ingest_views_only.

(* ===================================================================== *)
(** ** [ingest_dashboards_only.py]: the same routine, as that script has it *)
(* ===================================================================== *)

Module ingest_dashboards_only.
Import py.

Section script.
Context {E : Type} `{!Env E} (cfg : Config).

Definition run_gcloud_command (command_args : list string) : M E (option string) :=
  try_except
    (stdout ← subprocess_run command_args;
     mret (Some stdout))
    is_CalledProcessError
    (fun e =>
       print ("Error running command: " +:+ pystr.join " " command_args);;
       print ("Stderr: " +:+ stderr_of e);;
       mret None).

Definition entry_exists (entry_id : string) : M E bool :=
  let command_args :=
    [ "gcloud"; "dataplex"; "entries"; "describe"; entry_id;
      "--project=" +:+ PROJECT_ID cfg;
      "--location=" +:+ LOCATION cfg;
      "--entry-group=" +:+ ENTRY_GROUP cfg;
      "--format=json" ] in
  try_except
    (_ ← subprocess_run command_args;
     mret true)
    is_CalledProcessError
    (fun _ => mret false).

Definition create_dataplex_entry_with_aspects
    (entry_fqn entry_type : string) (aspect_data : list (string * json))
    : M E bool :=
  let entry_id :=
    if pystr.contains_chr ":" entry_fqn
    then pystr.replace_chr "." "-" (pystr.last_item (pystr.split_chr ":" entry_fqn))
    else pystr.replace_chr "." "-" entry_fqn in
  exists_ ← entry_exists entry_id;
  if (exists_ : bool) then
    print ("  ⚠️  Entry " +:+ entry_id +:+ " already exists, skipping...");;
    mret true
  else
    print ("  ➕ Creating entry: " +:+ entry_id +:+ " (FQN: " +:+ entry_fqn +:+ ")");;
    let formatted_aspects :=
      foldl (fun formatted_aspects '(aspect_type_id, aspect_payload) =>
               let aspect_key :=
                 PROJECT_ID cfg +:+ "." +:+ LOCATION cfg +:+ "." +:+ aspect_type_id in
               dict_set aspect_key (JObj [("data", aspect_payload)]) formatted_aspects)
        [] aspect_data in
    tmp_file_name ← named_temporary_file ".json" (JObj formatted_aspects);
    let command_args :=
      [ "gcloud"; "dataplex"; "entries"; "create"; entry_id;
        "--project=" +:+ PROJECT_ID cfg;
        "--location=" +:+ LOCATION cfg;
        "--entry-group=" +:+ ENTRY_GROUP cfg;
        "--entry-type=" +:+ entry_type;
        "--entry-type-project=" +:+ PROJECT_ID cfg;
        "--entry-type-location=" +:+ LOCATION cfg;
        "--aspects=" +:+ tmp_file_name;
        "--fully-qualified-name=" +:+ entry_fqn ] in
    try_finally
      (try_except
         (result ← run_gcloud_command command_args;
          let success := bool_decide (is_Some result) in
          (if success then print ("  ✅ Created " +:+ entry_id) else mret tt);;
          mret success)
         is_Exception
         (fun e =>
            print_exn ("  ❌ Error creating entry " +:+ entry_id +:+ ": ") e;;
            mret false))
      (os_remove tmp_file_name).

End script.

(** The module constant of this script; it does not read the configuration. *)
Definition LOOKER_INSTANCE_ID : string := "mylooker".

Definition generate_looker_fqn (entity_type folder_id entity_id : string) : string :=
  if String.eqb entity_type "dashboard" then
    "looker:dashboard:" +:+ LOOKER_INSTANCE_ID +:+ "." +:+ folder_id +:+ "." +:+ entity_id
  else if String.eqb entity_type "explore" then
    "looker:explore:" +:+ LOOKER_INSTANCE_ID +:+ "." +:+ folder_id +:+ "." +:+ entity_id
  else if String.eqb entity_type "look" then
    "looker:look:" +:+ LOOKER_INSTANCE_ID +:+ "." +:+ folder_id +:+ "." +:+ entity_id
  else
    "custom:looker." +:+ entity_type +:+ ":" +:+ LOOKER_INSTANCE_ID +:+ "." +:+ entity_id.

End ingest_dashboards_only.

(* ===================================================================== *)
(** ** [create_structural_links.py]: the relationship linker *)
(* ===================================================================== *)

Module create_structural_links.
Import py.

(** An element of the lists [parse_entries_by_type] returns. *)
Record entry_ref := mkEntryRef { id : string; fqn : string }.

Section script.
Context {E : Type} `{!Env E} (cfg : Config).

Definition run_gcloud_command (command_args : list string)
    (description : string) (ignore_errors : bool) : M E (option string) :=
  (if pystr.nonempty description
   then print ("🔄 " +:+ description +:+ "...") else mret tt);;
  try_except
    (stdout ← subprocess_run command_args;
     (if pystr.nonempty description
      then print ("✅ " +:+ description) else mret tt);;
     mret (Some stdout))
    is_CalledProcessError
    (fun e =>
       if ignore_errors then
         print ("⚠️  " +:+ description +:+ " (may not exist)");;
         mret None
       else
         print ("❌ Error: " +:+ description);;
         print ("Error: " +:+ stderr_of e);;
         mret None).

Definition describe_args (entry_id : string) : list string :=
  [ "gcloud"; "dataplex"; "entries"; "describe"; entry_id;
    "--project=" +:+ PROJECT_ID cfg;
    "--location=" +:+ LOCATION cfg;
    "--entry-group=" +:+ ENTRY_GROUP cfg;
    "--format=json" ].

Definition verify_entry_exists (entry_id : string) : M E bool :=
  let command_args := describe_args entry_id in
  result ← run_gcloud_command command_args "" true;
  mret (bool_decide (is_Some result)).

Definition get_access_token : M E (option string) :=
  try_except
    (stdout ← subprocess_run [ "gcloud"; "auth"; "print-access-token" ];
     mret (Some (pystr.strip stdout)))
    is_CalledProcessError
    (fun e =>
       print_exn "❌ Failed to get access token: " e;;
       mret None).

Definition entry_link_type_mapping : gmap string string :=
  list_to_map
    [ ("uses", "projects/dataplex-types/locations/global/entryLinkTypes/related");
      ("maps_to", "projects/dataplex-types/locations/global/entryLinkTypes/definition");
      ("related", "projects/dataplex-types/locations/global/entryLinkTypes/related");
      ("definition", "projects/dataplex-types/locations/global/entryLinkTypes/definition") ].

Definition entry_name (entry_id : string) : string :=
  "projects/" +:+ PROJECT_ID cfg +:+ "/locations/" +:+ LOCATION cfg
  +:+ "/entryGroups/" +:+ ENTRY_GROUP cfg +:+ "/entries/" +:+ entry_id.

Definition create_entry_link
    (source_entry_id target_entry_id link_type description : string) : M E bool :=
  source_ok ← verify_entry_exists source_entry_id;
  if negb source_ok then
    print ("  ⚠️  Source entry " +:+ source_entry_id +:+ " does not exist, skipping link");;
    mret false
  else
  target_ok ← verify_entry_exists target_entry_id;
  if negb target_ok then
    print ("  ⚠️  Target entry " +:+ target_entry_id +:+ " does not exist, skipping link");;
    mret false
  else
  access_token ← get_access_token;
  match access_token with
  | None | Some EmptyString =>
      print "  ❌ Failed to get access token";;
      mret false
  | Some access_token =>
      hex ← uuid4_hex;
      let entry_link_id := "link-" +:+ pystr.take 8 hex in
      let parent :=
        "projects/" +:+ PROJECT_ID cfg +:+ "/locations/" +:+ LOCATION cfg
        +:+ "/entryGroups/" +:+ ENTRY_GROUP cfg in
      let url := "https://dataplex.googleapis.com/v1/" +:+ parent +:+ "/entryLinks" in
      let entry_link_type :=
        default "projects/dataplex-types/locations/global/entryLinkTypes/related"
          (entry_link_type_mapping !! link_type) in
      let request_body :=
        JObj [ ("entryLinkType", JStr entry_link_type);
               ("entryReferences",
                JList [ JObj [ ("name", JStr (entry_name source_entry_id));
                               ("type", JStr "UNSPECIFIED") ];
                        JObj [ ("name", JStr (entry_name target_entry_id));
                               ("type", JStr "UNSPECIFIED") ] ]) ] in
      let headers :=
        [ ("Authorization", "Bearer " +:+ access_token);
          ("Content-Type", "application/json") ] in
      let params := [ ("entryLinkId", entry_link_id) ] in
      try_except
        (print ("  🔄 Creating " +:+ link_type +:+ " link: "
                +:+ source_entry_id +:+ " → " +:+ target_entry_id);;
         response ← request "POST" url params headers (Some request_body);
         if (status_code response =? 200)%Z then
           print ("  ✅ Successfully created " +:+ link_type +:+ " link: "
                  +:+ source_entry_id +:+ " → " +:+ target_entry_id);;
           mret true
         else if (status_code response =? 409)%Z then
           print ("  ℹ️  Link already exists: " +:+ source_entry_id +:+ " → "
                  +:+ target_entry_id +:+ " (" +:+ link_type +:+ ")");;
           mret true
         else
           print ("  ❌ Failed to create link: " +:+ str_of_Z (status_code response)
                  +:+ " - " +:+ text response);;
           mret false)
        is_RequestException
        (fun e =>
           print_exn "  ❌ Request failed: " e;;
           mret false)
  end.

(** The table written inside [create_dashboard_to_explore_links]. *)
Definition dashboard_explore_relationships : list (string * list string) :=
  [ ("mylooker-retail_banking-credit_card_fraud_overview",
     [ "mylooker-retail_banking-card_transactions" ]);
    ("mylooker-retail_banking-customer_account",
     [ "mylooker-retail_banking-account"; "mylooker-retail_banking-card_transactions" ]);
    ("mylooker-retail_banking-merchant_deepdive",
     [ "mylooker-retail_banking-card_transactions" ]);
    ("mylooker-retail_banking-fraud_model_performance",
     [ "mylooker-retail_banking-card_transactions" ]);
    ("mylooker-retail_banking-location_analysis",
     [ "mylooker-retail_banking-account"; "mylooker-retail_banking-branches" ]);
    ("mylooker-retail_banking-branch_overview",
     [ "mylooker-retail_banking-account"; "mylooker-retail_banking-branches" ]);
    ("mylooker-retail_banking-brick_and_mortar_decision_dashboard",
     [ "mylooker-retail_banking-account"; "mylooker-retail_banking-branches" ]);
    ("mylooker-retail_banking-card_type_lookup",
     [ "mylooker-retail_banking-card_payments"; "mylooker-retail_banking-card_transactions" ]);
    ("mylooker-retail_banking-cc_customer_marketing",
     [ "mylooker-retail_banking-card_transactions"; "mylooker-retail_banking-card_payments" ]) ].

(** [{d["id"]: d for d in entries}]: a later entry replaces an earlier
    one with the same id. *)
Definition by_id (entries : list entry_ref) : gmap string entry_ref :=
  foldl (fun m d => <[id d := d]> m) ∅ entries.

(** The inner loop body, lines 217-226: one listed explore of a known
    dashboard. *)
Definition link_explore (explore_map : gmap string entry_ref)
    (dashboard_id explore_id : string) (links_created : nat) : M E nat :=
  match explore_map !! explore_id with
  | None => mret links_created
  | Some _ =>
      created ←
        create_entry_link dashboard_id explore_id "uses"
          ("Dashboard " +:+ pystr.last_item (pystr.split_chr "-" dashboard_id)
           +:+ " uses explore "
           +:+ pystr.last_item (pystr.split_chr "-" explore_id));
      mret (if (created : bool) then S links_created else links_created)
  end.

(** The outer loop body, lines 213-226: one row of the table. *)
Definition link_dashboard (dashboard_map explore_map : gmap string entry_ref)
    (row : string * list string) (links_created : nat) : M E nat :=
  let '(dashboard_id, explore_ids) := row in
  match dashboard_map !! dashboard_id with
  | None => mret links_created
  | Some _ => for_each explore_ids (link_explore explore_map dashboard_id) links_created
  end.

(** [create_dashboard_to_explore_links] from its comment line "Create
    lookup maps" on, for the relationship table [relationships]. *)
Definition link_dashboards_to_explores
    (relationships : list (string * list string))
    (dashboards explores : list entry_ref) : M E nat :=
  let dashboard_map := by_id dashboards in
  let explore_map := by_id explores in
  links_created ←
    for_each relationships (link_dashboard dashboard_map explore_map) 0;
  print ("  📊 Created " +:+ str_of_Z (Z.of_nat links_created)
         +:+ " dashboard → explore links");;
  mret links_created.

Definition create_dashboard_to_explore_links
    (dashboards explores : list entry_ref) : M E nat :=
  print (String "010" "📈 CREATING DASHBOARD → EXPLORE LINKS");;
  print "--------------------------------------------------";;
  link_dashboards_to_explores dashboard_explore_relationships dashboards explores.

(** [parse_entries_by_type], on the decoded listing: each entry a
    dictionary with text values, a missing key reading as the empty text. *)
Definition entry_field (key : string) (entry : list (string * string)) : string :=
  default EmptyString (dict_get key entry).

Definition parse_entries_by_type (entries : list (list (string * string)))
    : list entry_ref * list entry_ref * list entry_ref :=
  foldl
    (fun '(dashboards, explores, views) entry =>
       let entry_type := entry_field "entryType" entry in
       let entry_name := pystr.last_item (pystr.split_chr "/" (entry_field "name" entry)) in
       let fqn := entry_field "fullyQualifiedName" entry in
       if pystr.contains_str "looker-dashboard" entry_type then
         (dashboards ++ [ mkEntryRef entry_name fqn ], explores, views)
       else if pystr.contains_str "looker-explore" entry_type then
         (dashboards, explores ++ [ mkEntryRef entry_name fqn ], views)
       else if pystr.contains_str "looker-view" entry_type then
         (dashboards, explores, views ++ [ mkEntryRef entry_name fqn ])
       else (dashboards, explores, views))
    ([], [], []) entries.

(** The table written inside [create_explore_to_view_links]. *)
Definition explore_view_relationships : list (string * list string) :=
  [ ("mylooker-retail_banking-card_transactions",
     [ "mylooker-retail_banking-card"; "mylooker-retail_banking-disp";
       "mylooker-retail_banking-client"; "mylooker-retail_banking-merchant_fact";
       "mylooker-retail_banking-card_transactions_with_zip" ]);
    ("mylooker-retail_banking-account",
     [ "mylooker-retail_banking-district"; "mylooker-retail_banking-loan";
       "mylooker-retail_banking-disp"; "mylooker-retail_banking-card";
       "mylooker-retail_banking-client"; "mylooker-retail_banking-client_fact" ]);
    ("mylooker-retail_banking-trans",
     [ "mylooker-retail_banking-disp"; "mylooker-retail_banking-card";
       "mylooker-retail_banking-district"; "mylooker-retail_banking-client" ]);
    ("mylooker-retail_banking-card_payments",
     [ "mylooker-retail_banking-card_payment_dates"; "mylooker-retail_banking-card";
       "mylooker-retail_banking-card_type"; "mylooker-retail_banking-disp";
       "mylooker-retail_banking-client" ]);
    ("mylooker-retail_banking-balances_fact",
     [ "mylooker-retail_banking-account_fact"; "mylooker-retail_banking-district";
       "mylooker-retail_banking-client"; "mylooker-retail_banking-card" ]);
    ("mylooker-retail_banking-branches",
     [ "mylooker-retail_banking-district" ]) ].

(** The inner loop body of [create_explore_to_view_links], lines 275-285. *)
Definition link_view (view_map : gmap string entry_ref)
    (explore_id view_id : string) (links_created : nat) : M E nat :=
  match view_map !! view_id with
  | None => mret links_created
  | Some _ =>
      created ←
        create_entry_link explore_id view_id "uses"
          ("Explore " +:+ pystr.last_item (pystr.split_chr "-" explore_id)
           +:+ " uses view "
           +:+ pystr.last_item (pystr.split_chr "-" view_id));
      mret (if (created : bool) then S links_created else links_created)
  end.

(** The outer loop body, lines 271-285. *)
Definition link_explore_views (explore_map view_map : gmap string entry_ref)
    (row : string * list string) (links_created : nat) : M E nat :=
  let '(explore_id, view_ids) := row in
  match explore_map !! explore_id with
  | None => mret links_created
  | Some _ => for_each view_ids (link_view view_map explore_id) links_created
  end.

Definition create_explore_to_view_links (explores views : list entry_ref) : M E nat :=
  print (String "010" "🔍 CREATING EXPLORE → VIEW LINKS");;
  print "--------------------------------------------------";;
  let explore_map := by_id explores in
  let view_map := by_id views in
  links_created ←
    for_each explore_view_relationships (link_explore_views explore_map view_map) 0;
  print ("  📊 Created " +:+ str_of_Z (Z.of_nat links_created)
         +:+ " explore → view links");;
  mret links_created.

(** The table written inside [create_view_to_bigquery_links]. *)
Definition view_table_mappings : list (string * string) :=
  [ ("card_transactions", PROJECT_ID cfg +:+ ".retail_banking.card_transactions");
    ("card", PROJECT_ID cfg +:+ ".retail_banking.card");
    ("client", PROJECT_ID cfg +:+ ".retail_banking.client");
    ("account", PROJECT_ID cfg +:+ ".retail_banking.account");
    ("district", PROJECT_ID cfg +:+ ".retail_banking.district");
    ("disp", PROJECT_ID cfg +:+ ".retail_banking.disp");
    ("loan", PROJECT_ID cfg +:+ ".retail_banking.loan");
    ("trans", PROJECT_ID cfg +:+ ".retail_banking.trans");
    ("card_payments", PROJECT_ID cfg +:+ ".retail_banking.card_payments");
    ("merchant_fact", PROJECT_ID cfg +:+ ".retail_banking.merchant_fact");
    ("balances_fact", PROJECT_ID cfg +:+ ".retail_banking.balances_fact");
    ("account_fact", PROJECT_ID cfg +:+ ".retail_banking.account_fact");
    ("client_fact", PROJECT_ID cfg +:+ ".retail_banking.client_fact");
    ("card_type", PROJECT_ID cfg +:+ ".retail_banking.card_type");
    ("card_payment_dates", PROJECT_ID cfg +:+ ".retail_banking.card_payment_dates");
    ("card_order_sequence", PROJECT_ID cfg +:+ ".retail_banking.card_order_sequence");
    ("card_transactions_with_zip",
     PROJECT_ID cfg +:+ ".retail_banking.card_transactions_with_zip");
    ("order", PROJECT_ID cfg +:+ ".retail_banking.order") ].

(** The identifier under which line 323 looks a view up. *)
Definition view_id_of (view_name : string) : string :=
  LOOKER_INSTANCE_ID cfg +:+ "-retail_banking-" +:+ view_name.

(** The loop body of [create_view_to_bigquery_links], lines 322-337. *)
Definition link_table (view_map : gmap string entry_ref)
    (row : string * string) (links_created : nat) : M E nat :=
  let '(view_name, table_path) := row in
  let view_id := view_id_of view_name in
  match view_map !! view_id with
  | None => mret links_created
  | Some _ =>
      let bq_entry_id := pystr.replace_chr "." "-" table_path in
      created ←
        create_entry_link view_id bq_entry_id "maps_to"
          ("View " +:+ view_name +:+ " maps to BigQuery table " +:+ table_path);
      mret (if (created : bool) then S links_created else links_created)
  end.

Definition create_view_to_bigquery_links (views : list entry_ref) : M E nat :=
  print (String "010" "📊 CREATING VIEW → BIGQUERY LINKS");;
  print "--------------------------------------------------";;
  let view_map := by_id views in
  links_created ← for_each view_table_mappings (link_table view_map) 0;
  print ("  📊 Created " +:+ str_of_Z (Z.of_nat links_created)
         +:+ " view → BigQuery links");;
  mret links_created.

End script.
End create_structural_links.

(* ===================================================================== *)
(** ** [datetime]: aware UTC datetimes, [timedelta] addition, [isoformat] *)
(* ===================================================================== *)

Module datetime.
Import py.
Local Open Scope Z_scope.

(** A datetime is the number of microseconds since 0001-01-01T00:00:00;
    the representable ones end with 9999-12-31T23:59:59.999999. *)
Definition US_PER_SECOND : Z := 1000000.
Definition US_PER_DAY : Z := 86400 * US_PER_SECOND.
Definition MAX_ORDINAL : Z := 3652059.
Definition max : Z := MAX_ORDINAL * US_PER_DAY - 1.

Definition representable (t : Z) : bool := (0 <=? t) && (t <=? max).

(** [t + timedelta(seconds=n)] *)
Definition add_seconds (t n : Z) : res Z :=
  let t' := t + n * US_PER_SECOND in
  if representable t' then Ret t' else Raise (OverflowError "date value out of range").

Definition DAYS_IN_MONTH : list Z := [ -1; 31; 28; 31; 30; 31; 30; 31; 31; 30; 31; 30; 31 ].
Definition DAYS_BEFORE_MONTH : list Z :=
  [ -1; 0; 31; 59; 90; 120; 151; 181; 212; 243; 273; 304; 334 ].

(** [_ord2ymd]: the proleptic Gregorian date of an ordinal (1 = 0001-01-01). *)
Definition ord2ymd (ordinal : Z) : Z * Z * Z :=
  let n := ordinal - 1 in
  let n400 := n / 146097 in
  let n := n mod 146097 in
  let year := n400 * 400 + 1 in
  let n100 := n / 36524 in
  let n := n mod 36524 in
  let n4 := n / 1461 in
  let n := n mod 1461 in
  let n1 := n / 365 in
  let n := n mod 365 in
  let year := year + n100 * 100 + n4 * 4 + n1 in
  if (n1 =? 4) || (n100 =? 4) then (year - 1, 12, 31)
  else
    let leapyear := (n1 =? 3) && (negb (n4 =? 24) || (n100 =? 3)) in
    let month := Z.shiftr (n + 50) 5 in
    let preceding :=
      nth (Z.to_nat month) DAYS_BEFORE_MONTH 0
      + (if (2 <? month) && leapyear then 1 else 0) in
    if n <? preceding then
      let month := month - 1 in
      let preceding :=
        preceding
        - (nth (Z.to_nat month) DAYS_IN_MONTH 0
           + (if (month =? 2) && leapyear then 1 else 0)) in
      (year, month, n - preceding + 1)
    else (year, month, n - preceding + 1).

(** The [width] low decimal digits of [n], most significant first. *)
Fixpoint digits (width : nat) (n : Z) (rest : string) : string :=
  match width with
  | O => rest
  | S w => digits w (n / 10) (String (ascii_of_nat (48 + Z.to_nat (n mod 10))) rest)
  end.

(** [t.isoformat()] of an aware UTC datetime:
    YYYY-MM-DDTHH:MM:SS[.ffffff]+00:00 *)
Definition isoformat (t : Z) : string :=
  let '(year, month, day) := ord2ymd (t / US_PER_DAY + 1) in
  let r := t mod US_PER_DAY in
  let hour := r / (3600 * US_PER_SECOND) in
  let minute := (r / (60 * US_PER_SECOND)) mod 60 in
  let second := (r / US_PER_SECOND) mod 60 in
  let microsecond := r mod US_PER_SECOND in
  digits 4 year
    (String "-" (digits 2 month
       (String "-" (digits 2 day
          (String "T" (digits 2 hour
             (String ":" (digits 2 minute
                (String ":" (digits 2 second
                   ((if microsecond =? 0 then EmptyString
                     else String "." (digits 6 microsecond EmptyString))
                    +:+ "+00:00"))))))))))).

End datetime.

(* ===================================================================== *)
(** ** [dataplex_lineage_api.py]: the lineage client *)
(* ===================================================================== *)

Module dataplex_lineage_api.
Import py.

Definition LINEAGE_API_BASE : string := "https://datalineage.googleapis.com/v1".

Record LineageProcess := mkLineageProcess {
  process_name : string;                        (* [name] *)
  process_display_name : string;                (* [display_name] *)
  process_description : string;                 (* [description] *)
  process_attributes : list (string * string)   (* [attributes] *)
}.

Record LineageRun := mkLineageRun {
  name : string;
  display_name : string;
  state : string;
  start_time : string;
  end_time : string;
  attributes : list (string * string)
}.

(** The fields of a [DataLineageAPI] object. *)
Record DataLineageAPI := mkDataLineageAPI {
  project_id : string;
  location : string;
  base_url : string;
  access_token : string
}.

Definition json_of_attributes (a : list (string * string)) : json :=
  JObj ((fun '(k, v) => (k, JStr v)) <$> a).

(** [obj.get('name')] on a decoded response. *)
Definition get_name {E} (j : json) : M E (option json) :=
  match j with
  | JObj d => ret (dict_get "name" d)
  | _ => raise (AttributeError "object has no attribute 'get'")
  end.

(** Lines 160-169: the body of the run-creation request. *)
Definition run_data (run : LineageRun) : list (string * json) :=
  let run_data :=
    [ ("displayName", JStr (display_name run));
      ("state", JStr (state run));
      ("startTime", JStr (start_time run));
      ("attributes", json_of_attributes (attributes run)) ] in
  if String.eqb (state run) "COMPLETED" && pystr.nonempty (end_time run)
  then dict_set "endTime" (JStr (end_time run)) run_data
  else run_data.

(** [generate_deterministic_process_id] *)
Definition type_prefix : gmap string string :=
  list_to_map
    [ ("view_transformation", "bq-view");
      ("explore_transformation", "view-explore");
      ("dashboard_visualization", "explore-dash") ].

Definition generate_deterministic_process_id
    (display_name transformation_type : string) : string :=
  let content := display_name +:+ ":" +:+ transformation_type in
  let hash_hex := hashlib.md5_hexdigest (hashlib.encode content) in
  let type_prefix := default "transform" (type_prefix !! transformation_type) in
  type_prefix +:+ "-" +:+ pystr.take 8 hash_hex.

Section client.
Context {E : Type} `{!Env E} (cfg : Config).

Definition _make_request (self : DataLineageAPI) (method url : string)
    (data : option json) : M E (option json) :=
  let headers :=
    [ ("Authorization", "Bearer " +:+ access_token self);
      ("Content-Type", "application/json") ] in
  try_except
    (response ←
       (if String.eqb method "GET" then request "GET" url [] headers None
        else if String.eqb method "POST" then request "POST" url [] headers data
        else if String.eqb method "PATCH" then request "PATCH" url [] headers data
        else if String.eqb method "DELETE" then request "DELETE" url [] headers None
        else raise (ValueError ("Unsupported HTTP method: " +:+ method)));
     let status := status_code response in
     if (status =? 200)%Z || (status =? 201)%Z then
       if pystr.nonempty (text response) then
         match json_body response with
         | Some JNull => mret None           (* [json()] gives [None] *)
         | Some j => mret (Some j)
         | None => raise (JSONDecodeError "Expecting value")
         end
       else mret (Some (JObj []))
     else if (status =? 404)%Z then mret None
     else if (status =? 400)%Z then
       print ("⚠️  API Error 400 (Bad Request): " +:+ text response);;
       print "   This might be due to Data Lineage API not being enabled or permissions issues";;
       mret None
     else if (status =? 403)%Z then
       print "⚠️  API Error 403 (Forbidden): Data Lineage API may not be enabled";;
       print "   Enable it at: https://console.cloud.google.com/apis/library/datalineage.googleapis.com";;
       mret None
     else
       print ("API Error " +:+ str_of_Z status +:+ ": " +:+ text response);;
       mret None)
    is_RequestException
    (fun e =>
       print_exn "Request failed: " e;;
       mret None).

(** [if existing:] on what [_make_request] returned. *)
Definition found (r : option json) : option json :=
  match r with
  | Some j => if truthy j then Some j else None
  | None => None
  end.

Definition create_process (self : DataLineageAPI) (process : LineageProcess)
    : M E (option json) :=
  let url := base_url self +:+ "/processes" in
  let process_id := pystr.last_item (pystr.split_chr "/" (process_name process)) in
  existing ← _make_request self "GET" (url +:+ "/" +:+ process_id) None;
  match found existing with
  | Some existing =>
      print ("  🔄 Process already exists: " +:+ process_display_name process);;
      get_name existing
  | None =>
      let process_data :=
        JObj [ ("displayName", JStr (process_display_name process));
               ("attributes", json_of_attributes (process_attributes process));
               ("origin", JObj [ ("sourceType", JStr "CUSTOM");
                                 ("name", JStr "looker-dataplex-integration") ]) ] in
      print ("  📤 Making request to: " +:+ url);;
      print_value "  📋 Payload: " process_data;;
      result ← _make_request self "POST" url (Some process_data);
      match found result with
      | Some result =>
          print ("  ✅ Created process: " +:+ process_display_name process);;
          print_value "  📄 Response: " result;;
          get_name result
      | None =>
          print ("  ❌ Failed to create process: " +:+ process_display_name process);;
          mret None
      end
  end.

Definition create_run (self : DataLineageAPI) (process_name : string)
    (run : LineageRun) : M E (option json) :=
  let process_id := pystr.last_item (pystr.split_chr "/" process_name) in
  let url := base_url self +:+ "/processes/" +:+ process_id +:+ "/runs" in
  let run_id := pystr.last_item (pystr.split_chr "/" (name run)) in
  existing ← _make_request self "GET" (url +:+ "/" +:+ run_id) None;
  match found existing with
  | Some existing =>
      print ("  🔄 Run already exists: " +:+ display_name run);;
      get_name existing
  | None =>
      let run_data := run_data run in
      print ("  📤 Making request to: " +:+ url);;
      print_value "  📋 Payload: " (JObj run_data);;
      result ← _make_request self "POST" url (Some (JObj run_data));
      match found result with
      | Some result =>
          print ("  ✅ Created run: " +:+ display_name run);;
          print_value "  📄 Response: " result;;
          get_name result
      | None =>
          print ("  ❌ Failed to create run: " +:+ display_name run);;
          mret None
      end
  end.

(** [create_transformation_run]: the clock is read once. *)
Definition create_transformation_run (process_name run_id display_name : string)
    : M E LineageRun :=
  let run_name := process_name +:+ "/runs/" +:+ run_id in
  start_time ← now_utc;
  match datetime.add_seconds start_time 1 with
  | Raise e => raise e
  | Ret end_time =>
      mret {| name := run_name;
              display_name := display_name;
              state := "COMPLETED";
              start_time := datetime.isoformat start_time;
              end_time := datetime.isoformat end_time;
              attributes :=
                [ ("execution_time", datetime.isoformat start_time);
                  ("status", "success") ] |}
  end.

(** [create_lineage_event]; the body does not use [event_type]. *)
Definition create_lineage_event (self : DataLineageAPI)
    (process_name run_name source_fqn target_fqn event_type : string) : M E bool :=
  let process_id := pystr.last_item (pystr.split_chr "/" process_name) in
  let run_id := pystr.last_item (pystr.split_chr "/" run_name) in
  let url :=
    base_url self +:+ "/processes/" +:+ process_id +:+ "/runs/" +:+ run_id
    +:+ "/lineageEvents" in
  now ← now_utc;
  let event_time := datetime.isoformat now in
  let event_data :=
    JObj [ ("links",
            JList [ JObj [ ("source", JObj [ ("fullyQualifiedName", JStr source_fqn) ]);
                           ("target", JObj [ ("fullyQualifiedName", JStr target_fqn) ]) ] ]);
           ("startTime", JStr event_time);
           ("endTime", JStr event_time) ] in
  print ("  📤 Making lineage event request to: " +:+ url);;
  print_value "  📋 Event payload: " event_data;;
  result ← _make_request self "POST" url (Some event_data);
  match found result with
  | Some result =>
      print ("  📊 Created lineage: "
             +:+ pystr.last_item (pystr.split_chr "/" source_fqn) +:+ " → "
             +:+ pystr.last_item (pystr.split_chr "/" target_fqn));;
      print_value "  📄 Response: " result;;
      mret true
  | None =>
      print ("  ❌ Failed to create lineage: "
             +:+ pystr.last_item (pystr.split_chr "/" source_fqn) +:+ " → "
             +:+ pystr.last_item (pystr.split_chr "/" target_fqn));;
      mret false
  end.

Definition search_links (self : DataLineageAPI) (asset_fqn : string) : M E json :=
  let url := base_url self +:+ ":searchLinks" in
  let search_data := JObj [ ("source", JObj [ ("fullyQualifiedName", JStr asset_fqn) ]) ] in
  result ← _make_request self "POST" url (Some search_data);
  mret (match found result with Some result => result | None => JObj [] end).

Definition delete_process (self : DataLineageAPI) (process_name : string) : M E bool :=
  let url := LINEAGE_API_BASE +:+ "/" +:+ process_name in
  result ← _make_request self "DELETE" url None;
  mret (bool_decide (is_Some result)).

End client.

(** The entry group is written in this module, not read from [config]. *)
Definition ENTRY_GROUP : string := "looker".

Section generators.
Context (cfg : Config).

Definition generate_dataplex_fqn (entry_type entry_name : string) : string :=
  if String.eqb entry_type "view" then
    "custom:looker.view:mylooker.retail_banking." +:+ entry_name
  else if String.eqb entry_type "explore" then
    "looker:explore:mylooker.retail_banking." +:+ entry_name
  else if String.eqb entry_type "dashboard" then
    "looker:dashboard:mylooker.retail_banking." +:+ entry_name
  else
    "dataplex:projects/" +:+ PROJECT_ID cfg +:+ "/locations/" +:+ LOCATION cfg
    +:+ "/entryGroups/" +:+ ENTRY_GROUP +:+ "/entries/" +:+ entry_type
    +:+ "-" +:+ entry_name.

Definition generate_bigquery_fqn (project dataset table : string) : string :=
  "bigquery:projects/" +:+ project +:+ "/datasets/" +:+ dataset
  +:+ "/tables/" +:+ table.

Definition create_transformation_process
    (process_id display_name description transformation_type : string)
    : LineageProcess :=
  let process_id :=
    if negb (pystr.nonempty process_id)
    then generate_deterministic_process_id display_name transformation_type
    else process_id in
  let process_name :=
    "projects/" +:+ PROJECT_ID cfg +:+ "/locations/" +:+ LOCATION cfg
    +:+ "/processes/" +:+ process_id in
  {| process_name := process_name;
     process_display_name := display_name;
     process_description := description;
     process_attributes :=
       [ ("transformation_type", transformation_type);
         ("system", "looker");
         ("created_by", "dataplex_lineage_api") ] |}.

End generators.
End dataplex_lineage_api.

(* ===================================================================== *)
(** ** A test double for the outside world

    A catalog that answers [describe] and [create] as an entry group does,
    a canned HTTP response, a fixed clock; each kind of call can be made to
    raise instead. *)
(* ===================================================================== *)

Module mock.
Import py.

Record t := mk {
  catalog : list string;              (* the entry ids in the entry group     *)
  gcloud_missing : bool;              (* no gcloud executable on the PATH     *)
  create_error : option exn;          (* what a create command raises, if set *)
  token : string;                     (* output of [gcloud auth print-access-token] *)
  http : res Response;                (* the answer to every HTTP request     *)
  clock : Z;                          (* the reading of the clock             *)
  tmp_counter : nat                   (* temporary files handed out so far    *)
}.

Definition set_catalog (c : list string) (m : t) : t :=
  mk c (gcloud_missing m) (create_error m) (token m) (http m) (clock m) (tmp_counter m).

Definition gcloud (args : list string) (m : t) : res string * t :=
  if gcloud_missing m
  then (Raise (OSError "[Errno 2] No such file or directory: 'gcloud'"), m)
  else
    match args with
    | "gcloud" :: "dataplex" :: "entries" :: "describe" :: entry_id :: _ =>
        if bool_decide (entry_id ∈ catalog m)
        then (Ret "{}", m)
        else (Raise (CalledProcessError 1 "ERROR: NOT_FOUND"), m)
    | "gcloud" :: "dataplex" :: "entries" :: "create" :: entry_id :: _ =>
        match create_error m with
        | Some e => (Raise e, m)
        | None =>
            if bool_decide (entry_id ∈ catalog m)
            then (Raise (CalledProcessError 1 "ERROR: ALREADY_EXISTS"), m)
            else (Ret "Created entry.", set_catalog (catalog m ++ [entry_id]) m)
        end
    | [ "gcloud"; "auth"; "print-access-token" ] =>
        (Ret (token m +:+ String "010" ""), m)
    | _ => (Raise (CalledProcessError 2 "ERROR: invalid choice"), m)
    end.

Definition tmpname (suffix : string) (m : t) : string * t :=
  ("/tmp/tmp" +:+ str_of_Z (Z.of_nat (tmp_counter m)) +:+ suffix,
   mk (catalog m) (gcloud_missing m) (create_error m) (token m) (http m)
      (clock m) (S (tmp_counter m))).

(** The same outside world on a machine where temporary files fail: the
    file cannot be created, or it is created and cannot be written. *)
Record faulty := with_faults {
  base : t;
  create_fault : option exn;
  dump_fault : option exn
}.

Definition lift {A : Type} (f : t -> A * t) (m : faulty) : A * faulty :=
  let '(a, b) := f (base m) in (a, with_faults b (create_fault m) (dump_fault m)).

#[global] Instance env_faulty : Env faulty := {
  env_subprocess := fun args => lift (gcloud args);
  env_request := fun _ _ _ _ _ => lift (fun m => (http m, m));
  env_uuid4_hex := lift (fun m => ("0123456789abcdef0123456789abcdef", m));
  env_now := lift (fun m => (clock m, m));
  env_tmpname := fun suffix => lift (tmpname suffix);
  env_create_error := fun _ m => create_fault m;
  env_dump_error := fun _ m => dump_fault m
}.

#[global] Instance env : Env t := {
  env_subprocess := gcloud;
  env_request := fun _ _ _ _ _ m => (http m, m);
  env_uuid4_hex := fun m => ("0123456789abcdef0123456789abcdef", m);
  env_now := fun m => (clock m, m);
  env_tmpname := tmpname;
  env_create_error := fun _ _ => None;
  env_dump_error := fun _ _ => None
}.

Definition world (m : t) : World t := mkWorld m ∅ [].

(** An entry group holding [catalog], everything else in working order. *)
Definition healthy (catalog : list string) : t :=
  mk catalog false None "ya29.token" (Ret (mkResponse 200 "{}" (Some (JObj [])))) 0 0.

End mock.

Definition sample_config : Config := mkConfig "my-project" "eu" "looker" "mylooker".

(* ===================================================================== *)
(** ** Observations on worlds and traces *)
(* ===================================================================== *)

Import py.

(** The events a computation added to the trace. *)
Definition added {E} (w w' : World E) : list event :=
  drop (length (trace w)) (trace w').

(** A [gcloud dataplex entries create] command. *)
Definition is_create_call (ev : event) : bool :=
  match ev with
  | Subprocess ("gcloud" :: "dataplex" :: "entries" :: "create" :: _) _ => true
  | _ => false
  end.

Definition create_calls (tr : list event) : nat :=
  length (filter (fun ev => is_create_call ev = true) tr).

(** Any HTTP request. *)
Definition is_http (ev : event) : bool :=
  match ev with
  | HttpRequest _ _ _ _ _ _ => true
  | _ => false
  end.

Definition is_print (ev : event) : bool :=
  match ev with
  | Print _ | PrintValue _ _ | PrintExn _ _ => true
  | _ => false
  end.

(** The text after the last [c] of [s], or [s] when it holds no [c]. *)
Fixpoint after_last (c : ascii) (s : string) : string :=
  match s with
  | EmptyString => EmptyString
  | String a s' =>
      if pystr.contains_chr c s' then after_last c s'
      else if Ascii.eqb a c then s' else s
  end.

(** Every character of [s] satisfies [p]. *)
Fixpoint all_chars (p : ascii -> bool) (s : string) : bool :=
  match s with
  | EmptyString => true
  | String a s' => p a && all_chars p s'
  end.

(** A character of the ASCII range.  On a text made of such characters the
    classes of blanks and of word characters are those of Python. *)
Definition is_ascii (c : ascii) : bool := (nat_of_ascii c <? 128)%nat.

(** A repetition of the class [p] cannot go on into [s]. *)
Definition stops (p : ascii -> bool) (s : string) : bool :=
  match s with
  | EmptyString => true
  | String a _ => negb (p a)
  end.

(** The two parts of a process identifier: the prefix of the transformation
    type and the first eight hexadecimal digits of the MD5 digest. *)
Definition prefix_of (transformation_type : string) : string :=
  default "transform" (dataplex_lineage_api.type_prefix !! transformation_type).

Definition hash8 (display_name transformation_type : string) : string :=
  pystr.take 8
    (hashlib.md5_hexdigest
       (hashlib.encode (display_name +:+ ":" +:+ transformation_type))).

Definition known_transformation_types : list string :=
  [ "view_transformation"; "explore_transformation"; "dashboard_visualization" ].

(** A lineage client and an HTTP 409 response to try things on. *)
Definition sample_api : dataplex_lineage_api.DataLineageAPI :=
  dataplex_lineage_api.mkDataLineageAPI "my-project" "eu"
    "https://datalineage.googleapis.com/v1/projects/my-project/locations/eu"
    "ya29.token".

Definition conflict : Response := mkResponse 409 "ALREADY_EXISTS" None.

Section answers.
Context {E : Type} `{!Env E} (cfg : Config).
Import ingest_views_only.

(** The line printed when an entry is skipped. *)
Definition skip_message (entry_id : string) : string :=
  "  ⚠️  Entry " +:+ entry_id +:+ " already exists, skipping...".

(** What the existence check of the entry-creation routine is answered
    when the routine starts in [w]. *)
Definition describe_answer (entry_fqn : string) (w : World E) : res string :=
  fst (env_subprocess (describe_args cfg (entry_id_of_fqn entry_fqn)) (env w)).

(** How the temporary file comes about, should the routine started in [w]
    come to write it: its name, or the exception with which creating or
    writing it fails. *)
Definition tmpfile_answer (entry_fqn : string) (w : World E) : res string :=
  let entry_id := entry_id_of_fqn entry_fqn in
  let e1 := snd (env_subprocess (describe_args cfg entry_id) (env w)) in
  let '(n, e2) := env_tmpname ".json" e1 in
  match env_create_error n e2 with
  | Some ex => Raise ex
  | None => match env_dump_error n e2 with Some ex => Raise ex | None => Ret n end
  end.

(** What the create step is answered, should the routine started in [w]
    come to it: the answer to the create command once the temporary file
    is written, and the exception of the temporary file, with no command
    run, when it is not. *)
Definition create_answer (entry_fqn entry_type : string) (w : World E) : res string :=
  let entry_id := entry_id_of_fqn entry_fqn in
  let e1 := snd (env_subprocess (describe_args cfg entry_id) (env w)) in
  let '(n, e2) := env_tmpname ".json" e1 in
  match tmpfile_answer entry_fqn w with
  | Ret _ => fst (env_subprocess (create_args cfg entry_id entry_type n entry_fqn) e2)
  | Raise ex => Raise ex
  end.

End answers.

Ltac unfold_M :=
  unfold mbind, mret, M_bind, M_ret, bind, ret, raise, try_except, try_finally,
    print, print_value, print_exn, subprocess_run, request, uuid4_hex, now_utc,
    named_temporary_file, os_remove, log in *; simpl in *.

(** Case analysis on [x ∈ [a; b; ...]] for an explicit list, keeping the
    cases where the two sides can be equal. *)
Ltac each_member H :=
  repeat (apply elem_of_cons in H as [H|H];
          [try discriminate H; try (injection H as H); subst|]);
  try (by apply elem_of_nil in H).


(** The value a setting takes: the one of the environment, or its default. *)
Definition setting (environ : gmap string string) (name fallback : string) : string :=
  default fallback (environ !! name).

(** The settings of [config.py] that have a default. *)
Definition defaulted_settings : list string :=
  [ "GCP_LOCATION"; "DATAPLEX_ENTRY_GROUP"; "LOOKER_INSTANCE_ID"; "BQ_DATASET" ].

(** The list under which [parse_entries_by_type] files an entry, going by
    its type: the first of the three kinds that the type names, if any. *)
Definition filed_as (entry_type : string) : string :=
  if pystr.contains_str "looker-dashboard" entry_type then "dashboard"
  else if pystr.contains_str "looker-explore" entry_type then "explore"
  else if pystr.contains_str "looker-view" entry_type then "view"
  else "".

(** The reference kept of an entry of the listing. *)
Definition ref_of (entry : list (string * string)) : create_structural_links.entry_ref :=
  create_structural_links.mkEntryRef
    (after_last "/" (create_structural_links.entry_field "name" entry))
    (create_structural_links.entry_field "fullyQualifiedName" entry).

Definition filed (kind : string) (entries : list (list (string * string)))
    : list create_structural_links.entry_ref :=
  ref_of <$>
    filter (fun entry =>
              filed_as (create_structural_links.entry_field "entryType" entry) = kind)
      entries.

(** A link request that the service took: a POST answered with status 200
    (created) or 409 (already there). *)
Definition is_accepted (ev : event) : bool :=
  match ev with
  | HttpRequest method _ _ _ _ (Ret response) =>
      String.eqb method "POST"
      && ((status_code response =? 200)%Z || (status_code response =? 409)%Z)
  | _ => false
  end.

(** How many events of a trace satisfy [p]. *)
Definition count_events (p : event -> bool) (tr : list event) : nat :=
  length (filter (fun ev => p ev = true) tr).

(** A computation that counts: started with [acc] links counted, it only
    adds events to the trace, and what it returns is [acc] plus the number
    of link requests taken among the events it added. *)
Definition counts {E} (m : M E nat) (acc : nat) : Prop :=
  forall w : World E,
    exists l,
      trace (snd (m w)) = trace w ++ l
      /\ forall n, fst (m w) = Ret n -> n = acc + count_events is_accepted l.

(** The methods [_make_request] knows, and the headers it sends. *)
Definition supported_methods : list string := [ "GET"; "POST"; "PATCH"; "DELETE" ].

Definition auth_headers (self : dataplex_lineage_api.DataLineageAPI)
    : list (string * string) :=
  [ ("Authorization", "Bearer " +:+ dataplex_lineage_api.access_token self);
    ("Content-Type", "application/json") ].

(** A status that [_make_request] takes for a success. *)
Definition is_success (response : Response) : bool :=
  ((status_code response =? 200) || (status_code response =? 201))%Z.

(** The document that the client reads out of an answer and finds true:
    the decoded body of a 200 or 201 response, unless the body is empty or
    decodes to an empty or otherwise false value. *)
Definition document (answer : res Response) : option json :=
  match answer with
  | Ret response =>
      if is_success response && pystr.nonempty (text response)
      then dataplex_lineage_api.found (json_body response)
      else None
  | Raise _ => None
  end.

(** An exception that [_make_request] lets through. *)
Definition passes (answer : res Response) : bool :=
  match answer with
  | Raise e => negb (is_RequestException e)
  | Ret _ => false
  end.

(** The body that goes with a request of [_make_request]. *)
Definition body_sent (method : string) (data : option json) : option json :=
  if bool_decide (method ∈ [ "POST"; "PATCH" ]) then data else None.

(** An answer out of which [_make_request] returns something other than
    [None]: a 200 or 201 response whose body is empty or decodes to
    something other than the JSON null. *)
Definition decodes (answer : res Response) : bool :=
  match answer with
  | Ret response =>
      is_success response
      && (negb (pystr.nonempty (text response))
          || match json_body response with
             | Some JNull | None => false
             | Some _ => true
             end)
  | Raise _ => false
  end.

(** The requests among the events of a trace. *)
Definition requests (tr : list event) : list event :=
  filter (fun ev => is_http ev = true) tr.

(** A computation that only adds events satisfying [Q] to the trace. *)
Definition emits {E A} (Q : event -> Prop) (m : M E A) : Prop :=
  forall w : World E, exists l, trace (snd (m w)) = trace w ++ l /\ Forall Q l.

(** The two kinds of entry link the linker asks for. *)
Definition related_link : string :=
  "projects/dataplex-types/locations/global/entryLinkTypes/related".
Definition definition_link : string :=
  "projects/dataplex-types/locations/global/entryLinkTypes/definition".

(** [ev], if it is a request, asks the entry group of the configuration
    for a link of type [entry_link_type] between two entries of that group
    that [allowed] relates, under a link id of at most eight characters
    after its prefix. *)
Definition links (cfg : Config) (entry_link_type : string)
    (allowed : string -> string -> Prop) (ev : event) : Prop :=
  is_http ev = true ->
  exists source target hex token answer,
    allowed source target
    /\ ev = HttpRequest "POST"
              ("https://dataplex.googleapis.com/v1/projects/" +:+ PROJECT_ID cfg
               +:+ "/locations/" +:+ LOCATION cfg +:+ "/entryGroups/"
               +:+ ENTRY_GROUP cfg +:+ "/entryLinks")
              [ ("entryLinkId", "link-" +:+ pystr.take 8 hex) ]
              [ ("Authorization", "Bearer " +:+ token);
                ("Content-Type", "application/json") ]
              (Some
                 (JObj
                    [ ("entryLinkType", JStr entry_link_type);
                      ("entryReferences",
                       JList
                         [ JObj [ ("name",
                                   JStr (create_structural_links.entry_name cfg source));
                                  ("type", JStr "UNSPECIFIED") ];
                           JObj [ ("name",
                                   JStr (create_structural_links.entry_name cfg target));
                                  ("type", JStr "UNSPECIFIED") ] ]) ]))
              answer.

Section link_answers.
Context {E : Type} `{!Env E} (cfg : Config).

(** What the catalog answers when the linker started in [w] asks it for
    the source entry, and then for the target entry. *)
Definition source_answer (source_entry_id : string) (w : World E) : res string :=
  fst (env_subprocess (create_structural_links.describe_args cfg source_entry_id) (env w)).

Definition target_answer (source_entry_id target_entry_id : string) (w : World E)
    : res string :=
  fst (env_subprocess (create_structural_links.describe_args cfg target_entry_id)
         (snd (env_subprocess
                 (create_structural_links.describe_args cfg source_entry_id) (env w)))).

End link_answers.
(* ===================================================================== *)
(** * Properties *)
(* ===================================================================== *)

Lemma added_app {E} (w : World E) env' files' l :
  added w (mkWorld env' files' (trace w ++ l)) = l.
Proof. unfold added. simpl. by rewrite drop_app_length. Qed.

Lemma added_same {E} (w : World E) : added w w = [].
Proof. unfold added. apply drop_all. Qed.

(** ** Entry creation, step by step *)

Section entry_creation.
Context {E : Type} `{!Env E} (cfg : Config).
Import ingest_views_only.

(** What the routine does, by the answers it gets: to the describe
    command, for the temporary file, and to the create command. *)
Lemma create_entry_run (entry_fqn entry_type : string) aspect_data (w : World E) :
  create_dataplex_entry_with_aspects cfg entry_fqn entry_type aspect_data w =
  let entry_id := entry_id_of_fqn entry_fqn in
  let describe := describe_args cfg entry_id in
  let '(d, e1) := env_subprocess describe (env w) in
  let t1 := trace w ++ [Subprocess describe d] in
  match d with
  | Ret _ => (Ret true, mkWorld e1 (files w) (t1 ++ [Print (skip_message entry_id)]))
  | Raise ex =>
      if is_CalledProcessError ex then
        let '(n, e2) := env_tmpname ".json" e1 in
        let doc := JObj (format_aspects cfg aspect_data) in
        let create := create_args cfg entry_id entry_type n entry_fqn in
        let t1' :=
          t1 ++ [ Print ("  ➕ Creating entry: " +:+ entry_id
                         +:+ " (FQN: " +:+ entry_fqn +:+ ")") ] in
        match env_create_error n e2 with
        | Some ex1 => (Raise ex1, mkWorld e2 (files w) t1')
        | None =>
        match env_dump_error n e2 with
        | Some ex1 => (Raise ex1, mkWorld e2 (<[n := None]> (files w)) t1')
        | None =>
        let '(c, e3) := env_subprocess create e2 in
        let t2 := t1' ++ [ FileWrite n doc; Subprocess create c ] in
        let fs := delete n (<[n := Some doc]> (files w)) in
        match c with
        | Ret _ =>
            (Ret true,
             mkWorld e3 fs (t2 ++ [Print ("  ✅ Created " +:+ entry_id); FileRemove n]))
        | Raise ex2 =>
            if is_CalledProcessError ex2 then
              (Ret false,
               mkWorld e3 fs
                 (t2 ++ [ Print ("Error running command: " +:+ pystr.join " " create);
                          Print ("Stderr: " +:+ stderr_of ex2);
                          FileRemove n ]))
            else if is_Exception ex2 then
              (Ret false,
               mkWorld e3 fs
                 (t2 ++ [ PrintExn ("  ❌ Error creating entry " +:+ entry_id +:+ ": ") ex2;
                          FileRemove n ]))
            else (Raise ex2, mkWorld e3 fs (t2 ++ [FileRemove n]))
        end
        end
        end
      else (Raise ex, mkWorld e1 (files w) t1)
  end.
Proof.
  unfold create_dataplex_entry_with_aspects, entry_exists, run_gcloud_command.
  unfold_M.
  destruct (env_subprocess _ (env w)) as [[out|ex] e1]; simpl.
  - by rewrite <- !app_assoc.
  - destruct (is_CalledProcessError ex) eqn:Hex; simpl; [|done].
    destruct (env_tmpname ".json" e1) as [n e2]; simpl.
    destruct (env_create_error n e2) as [ex1|]; simpl; [done|].
    destruct (env_dump_error n e2) as [ex1|]; simpl; [done|].
    destruct (env_subprocess _ e2) as [[out|ex2] e3]; simpl.
    + rewrite lookup_insert_eq. by rewrite <- !app_assoc.
    + destruct (is_CalledProcessError ex2) eqn:Hex2; simpl.
      * rewrite lookup_insert_eq. by rewrite <- !app_assoc.
      * destruct (is_Exception ex2) eqn:Hex3; simpl;
          rewrite lookup_insert_eq; by rewrite <- !app_assoc.
Qed.

(** The script for dashboards carries the same routine. *)
Lemma dashboards_routine_same :
  ingest_dashboards_only.create_dataplex_entry_with_aspects cfg
  = create_dataplex_entry_with_aspects cfg.
Proof. reflexivity. Qed.

End entry_creation.

(** ** The entry identifier *)

Section entry_id.
Import pystr.

Lemma after_last_none c s : contains_chr c s = false -> after_last c s = s.
Proof.
  destruct s as [|a s]; [done|]. simpl.
  destruct (Ascii.eqb a c); [done|]. by intros ->.
Qed.

Lemma split_chr_none c s : contains_chr c s = false -> split_chr c s = [s].
Proof.
  induction s as [|a s IH]; [done|]. simpl.
  destruct (Ascii.eqb a c); [done|]. intros H. by rewrite (IH H).
Qed.

Lemma split_chr_some c s :
  contains_chr c s = true -> exists x y ys, split_chr c s = x :: y :: ys.
Proof.
  induction s as [|a s IH]; [done|]. simpl.
  destruct (Ascii.eqb a c).
  - intros _. destruct (contains_chr c s) eqn:Hs.
    + destruct (IH eq_refl) as (x & y & ys & ->). eauto.
    + rewrite (split_chr_none _ _ Hs). eauto.
  - intros H. destruct (IH H) as (x & y & ys & ->). eauto.
Qed.

Lemma last_split_chr c s : last_item (split_chr c s) = after_last c s.
Proof.
  unfold last_item. induction s as [|a s IH]; [done|]. simpl.
  destruct (contains_chr c s) eqn:Hs.
  - destruct (split_chr_some _ _ Hs) as (x & y & ys & Hsp).
    rewrite Hsp in *. by destruct (Ascii.eqb a c).
  - rewrite (split_chr_none _ _ Hs). by destruct (Ascii.eqb a c).
Qed.

Lemma contains_chr_app c s1 s2 :
  contains_chr c (s1 +:+ s2) = contains_chr c s1 || contains_chr c s2.
Proof.
  induction s1 as [|a s1 IH]; [done|]. simpl. by destruct (Ascii.eqb a c).
Qed.

Lemma after_last_app c pre seg :
  contains_chr c seg = false -> after_last c (pre +:+ String c seg) = seg.
Proof.
  intros Hseg. induction pre as [|a pre IH]; simpl.
  - by rewrite Hseg, Ascii.eqb_refl.
  - rewrite contains_chr_app. simpl. rewrite Ascii.eqb_refl.
    by rewrite orb_true_r.
Qed.

(** Lines 77-80 compute: the dots of the last colon-separated segment
    turned into dashes. *)
Lemma entry_id_of_fqn_after_last fqn :
  ingest_views_only.entry_id_of_fqn fqn = replace_chr "." "-" (after_last ":" fqn).
Proof.
  unfold ingest_views_only.entry_id_of_fqn.
  destruct (contains_chr ":" fqn) eqn:H.
  - by rewrite last_split_chr.
  - by rewrite after_last_none.
Qed.

End entry_id.

(** C10.  The entry identifier is the part of the fully-qualified name after
    its last colon (the whole name when it has none) with every dot turned
    into a dash.  The routine of either ingestion script first runs the
    describe command with that identifier as its entry argument; when the
    describe command exits with an error status and the temporary file is
    written, it goes on to run the create command with that identifier as
    its entry argument, the raw name being the value of its last flag only;
    and it runs no other command. *)
Theorem C10_commands_use_derived_entry_id {E} `{!Env E} (cfg : Config)
    (entry_fqn entry_type : string) (aspect_data : list (string * json))
    (w : World E) :
  let entry_id := ingest_views_only.entry_id_of_fqn entry_fqn in
  (forall pre seg,
      entry_fqn = pre +:+ ":" +:+ seg ->
      pystr.contains_chr ":" seg = false ->
      entry_id = pystr.replace_chr "." "-" seg) /\
  (pystr.contains_chr ":" entry_fqn = false ->
   entry_id = pystr.replace_chr "." "-" entry_fqn) /\
  (forall routine,
      routine ∈ [ ingest_views_only.create_dataplex_entry_with_aspects cfg;
                  ingest_dashboards_only.create_dataplex_entry_with_aspects cfg ] ->
      let w' := snd (routine entry_fqn entry_type aspect_data w) in
      head (added w w')
      = Some (Subprocess (ingest_views_only.describe_args cfg entry_id)
                (describe_answer cfg entry_fqn w)) /\
      (forall ex tmp_file_name,
          describe_answer cfg entry_fqn w = Raise ex ->
          is_CalledProcessError ex = true ->
          tmpfile_answer cfg entry_fqn w = Ret tmp_file_name ->
          let create :=
            ingest_views_only.create_args cfg entry_id entry_type tmp_file_name entry_fqn in
          create !! 4 = Some entry_id
          /\ last create = Some ("--fully-qualified-name=" +:+ entry_fqn)
          /\ filter (fun ev => is_create_call ev = true) (added w w')
             = [ Subprocess create (create_answer cfg entry_fqn entry_type w) ]) /\
      forall args answer,
        Subprocess args answer ∈ added w w' ->
        args !! 4 = Some entry_id
        /\ (args = ingest_views_only.describe_args cfg entry_id
            \/ exists tmp_file_name,
                args = ingest_views_only.create_args cfg entry_id entry_type
                         tmp_file_name entry_fqn)).
Proof.
  intros entry_id. split; [|split].
  - intros pre seg -> Hseg. unfold entry_id.
    rewrite entry_id_of_fqn_after_last.
    change (":" +:+ seg) with (String ":" seg). by rewrite after_last_app.
  - intros H. unfold entry_id.
    rewrite entry_id_of_fqn_after_last. by rewrite after_last_none.
  - intros routine Hr.
    assert (routine = ingest_views_only.create_dataplex_entry_with_aspects cfg) as ->.
    { rewrite !elem_of_cons in Hr. destruct Hr as [->| [->|Hr]]; [done|done|].
      by apply elem_of_nil in Hr. }
    rewrite create_entry_run. unfold describe_answer, create_answer, tmpfile_answer.
    fold entry_id. cbv zeta.
    destruct (env_subprocess _ (env w)) as [[out|ex] e1]; simpl.
    { rewrite <- ?app_assoc, added_app. split; [done|]. split; [intros ? ? [=]|].
      intros args answer Ha. each_member Ha. split; [done|eauto]. }
    destruct (is_CalledProcessError ex) eqn:Hcpe; simpl; cycle 1.
    { rewrite added_app. split; [done|]. split; [intros ? ? [= <-]; congruence|].
      intros args answer Ha. each_member Ha. split; [done|eauto]. }
    destruct (env_tmpname ".json" e1) as [n e2]; simpl.
    destruct (env_create_error n e2) as [ex1|]; simpl.
    { rewrite <- ?app_assoc, added_app. split; [done|]. split; [intros ? ? _ _ [=]|].
      intros args answer Ha. each_member Ha. split; [done|eauto]. }
    destruct (env_dump_error n e2) as [ex1|]; simpl.
    { rewrite <- ?app_assoc, added_app. split; [done|]. split; [intros ? ? _ _ [=]|].
      intros args answer Ha. each_member Ha. split; [done|eauto]. }
    destruct (env_subprocess _ e2) as [[out|ex2] e3];
      [|destruct (is_CalledProcessError ex2); [|destruct (is_Exception ex2)]];
      simpl; rewrite <- ?app_assoc, added_app; (split; [done|]);
      (split;
       [ intros ex' n' _ _ [= <-]; (split; [done|]); (split; [done|]); reflexivity
       | intros args answer Ha; simpl in Ha; each_member Ha; (split; [done|eauto]) ]).
Qed.

Lemma C10_witness :
  let w := mock.world (mock.healthy []) in
  let fqn := "custom:looker.view:mylooker.retail_banking.card" in
  ingest_views_only.entry_id_of_fqn fqn = "mylooker-retail_banking-card"
  /\ ingest_views_only.entry_id_of_fqn "card.v2" = "card-v2"
  /\ filter (fun ev => is_create_call ev = true)
       (added w (snd (ingest_views_only.create_dataplex_entry_with_aspects sample_config
                        fqn "looker-view" [] w)))
     = [ Subprocess
           (ingest_views_only.create_args sample_config "mylooker-retail_banking-card"
              "looker-view" "/tmp/tmp0.json" fqn)
           (Ret "Created entry.") ].
Proof.
  intros w fqn.
  destruct (C10_commands_use_derived_entry_id sample_config fqn "looker-view" [] w)
    as (Hcolon & _ & Hrun).
  destruct (C10_commands_use_derived_entry_id sample_config
              "card.v2" "looker-view" [] (mock.world (mock.healthy [])))
    as (_ & Hnone & _).
  split; [|split].
  - apply (Hcolon "custom:looker.view" "mylooker.retail_banking.card"); reflexivity.
  - apply Hnone; reflexivity.
  - destruct (Hrun (ingest_views_only.create_dataplex_entry_with_aspects sample_config))
      as (_ & Hcreate & _); [apply elem_of_cons; by left|].
    destruct (Hcreate (CalledProcessError 1 "ERROR: NOT_FOUND") "/tmp/tmp0.json")
      as (_ & _ & Hcalls); [vm_compute; reflexivity|reflexivity|vm_compute; reflexivity|].
    exact Hcalls.
Defined.

(** C9.  Once the existence check has answered "absent" (the describe
    command exited with an error status) and the temporary file has been
    written, the routine of either ingestion script hands the name of the
    file to the create command and removes the file as its last action,
    whether the create command succeeds, fails, or raises: the file is gone
    when the routine is left. *)
Theorem C9_temporary_file_removed {E} `{!Env E} (cfg : Config)
    (entry_fqn entry_type : string) (aspect_data : list (string * json))
    (w : World E) (ex : exn) (tmp_file_name : string) :
  let entry_id := ingest_views_only.entry_id_of_fqn entry_fqn in
  describe_answer cfg entry_fqn w = Raise ex ->
  is_CalledProcessError ex = true ->
  tmpfile_answer cfg entry_fqn w = Ret tmp_file_name ->
  forall routine,
    routine ∈ [ ingest_views_only.create_dataplex_entry_with_aspects cfg;
                ingest_dashboards_only.create_dataplex_entry_with_aspects cfg ] ->
    let w' := snd (routine entry_fqn entry_type aspect_data w) in
    exists prints,
      added w w'
      = [ Subprocess (ingest_views_only.describe_args cfg entry_id) (Raise ex);
          Print ("  ➕ Creating entry: " +:+ entry_id +:+ " (FQN: " +:+ entry_fqn +:+ ")");
          FileWrite tmp_file_name (JObj (ingest_views_only.format_aspects cfg aspect_data));
          Subprocess (ingest_views_only.create_args cfg entry_id entry_type
                        tmp_file_name entry_fqn)
            (create_answer cfg entry_fqn entry_type w) ]
        ++ prints ++ [ FileRemove tmp_file_name ]
      /\ Forall (fun ev => is_print ev = true) prints
      /\ files w' !! tmp_file_name = None.
Proof.
  intros entry_id Hd Hex Hn routine Hr.
  assert (routine = ingest_views_only.create_dataplex_entry_with_aspects cfg) as ->
    by (each_member Hr; done).
  rewrite create_entry_run. unfold describe_answer, create_answer, tmpfile_answer in *.
  fold entry_id in Hd, Hn |- *. cbv zeta in *.
  destruct (env_subprocess _ (env w)) as [d e1]. simpl in Hd, Hn |- *. subst d.
  rewrite Hex. simpl.
  destruct (env_tmpname ".json" e1) as [n e2].
  destruct (env_create_error n e2) as [ex1|]; [discriminate Hn|].
  destruct (env_dump_error n e2) as [ex1|]; [discriminate Hn|].
  injection Hn as <-.
  destruct (env_subprocess _ e2) as [[out|ex2] e3];
    [|destruct (is_CalledProcessError ex2); [|destruct (is_Exception ex2)]];
    simpl; rewrite <- ?app_assoc, added_app; simpl;
    [ exists [Print ("  ✅ Created " +:+ entry_id)]
    | eexists [Print _; Print _]
    | eexists [PrintExn _ _]
    | exists [] ];
    (split; [reflexivity|]); (split; [repeat constructor|]);
    apply lookup_delete_eq.
Qed.

Lemma C9_witness :
  let w := mock.world (mock.healthy []) in
  let w' :=
    snd (ingest_views_only.create_dataplex_entry_with_aspects sample_config
           "looker:dashboard:mylooker.retail_banking.branch_overview"
           "looker-dashboard" [] w) in
  last (added w w') = Some (FileRemove "/tmp/tmp0.json")
  /\ files w' !! "/tmp/tmp0.json" = None.
Proof.
  intros w w'.
  destruct (C9_temporary_file_removed sample_config
              "looker:dashboard:mylooker.retail_banking.branch_overview"
              "looker-dashboard" [] w
              (CalledProcessError 1 "ERROR: NOT_FOUND") "/tmp/tmp0.json")
    with (routine := ingest_views_only.create_dataplex_entry_with_aspects sample_config)
    as (prints & Hadd & _ & Hgone);
    [vm_compute; reflexivity|reflexivity|vm_compute; reflexivity
    |apply elem_of_cons; by left|].
  split; [|exact Hgone].
  unfold w'. rewrite Hadd. rewrite !app_assoc. apply last_snoc.
Defined.




(** ** Calling the routine twice *)

Lemma added_trans {E} (w w1 w2 : World E) l1 l2 :
  trace w1 = trace w ++ l1 -> trace w2 = trace w1 ++ l2 ->
  added w w2 = l1 ++ l2 /\ added w1 w2 = l2.
Proof.
  intros H1 H2. unfold added. rewrite H2, H1.
  split; [by rewrite <- app_assoc, drop_app_length | by rewrite drop_app_length].
Qed.

(** C1 as written does not hold.  With the entry already in the catalog two
    calls issue no create command at all; with the entry absent and a create
    command that fails, two calls issue two create commands and the second
    call returns [False]. *)
Lemma C1_counterexample :
  let twice (w : World mock.t) :=
    let routine :=
      ingest_views_only.create_dataplex_entry_with_aspects sample_config
        "custom:looker.view:mylooker.retail_banking.card" "looker-view" [] in
    (fst (routine (snd (routine w))), create_calls (added w (snd (routine (snd (routine w)))))) in
  twice (mock.world (mock.healthy [ "mylooker-retail_banking-card" ])) = (Ret true, 0)
  /\ twice (mock.world
              (mock.mk [] false (Some (CalledProcessError 1 "ERROR: PERMISSION_DENIED"))
                 "ya29.token" (Raise (OSError "unreachable")) 0 0))
     = (Ret false, 2)
  /\ ~ (forall w : World mock.t, exists r, twice w = (r, 1)).
Proof.
  cbv zeta. split; [vm_compute; reflexivity|]. split; [vm_compute; reflexivity|].
  intros H.
  destruct (H (mock.world (mock.healthy [ "mylooker-retail_banking-card" ]))) as [r Hr].
  vm_compute in Hr. discriminate Hr.
Qed.

(** C1, amended.  Whenever the existence check succeeds the routine returns
    [True] after printing the skip line, and runs nothing but the describe
    command.  Two calls with the same fully-qualified name issue exactly one
    create command, the second call being such a skip, when the entry is
    absent before the first call, the create command of the first call
    succeeds, and the existence check of the second call then succeeds. *)
Theorem C1_skip_if_exists_and_single_create {E} `{!Env E} (cfg : Config)
    (entry_fqn entry_type : string) (aspect_data : list (string * json))
    (w : World E) :
  let entry_id := ingest_views_only.entry_id_of_fqn entry_fqn in
  let routine :=
    ingest_views_only.create_dataplex_entry_with_aspects cfg
      entry_fqn entry_type aspect_data in
  let skip out :=
    [ Subprocess (ingest_views_only.describe_args cfg entry_id) (Ret out);
      Print (skip_message entry_id) ] in
  (forall out,
      describe_answer cfg entry_fqn w = Ret out ->
      fst (routine w) = Ret true /\ added w (snd (routine w)) = skip out) /\
  (forall ex out out',
      describe_answer cfg entry_fqn w = Raise ex ->
      is_CalledProcessError ex = true ->
      create_answer cfg entry_fqn entry_type w = Ret out ->
      describe_answer cfg entry_fqn (snd (routine w)) = Ret out' ->
      let w1 := snd (routine w) in
      let w2 := snd (routine w1) in
      fst (routine w) = Ret true
      /\ fst (routine w1) = Ret true
      /\ create_calls (added w w2) = 1
      /\ added w1 w2 = skip out').
Proof.
  intros entry_id routine skip.
  assert (forall (v : World E) out,
             describe_answer cfg entry_fqn v = Ret out ->
             fst (routine v) = Ret true /\
             trace (snd (routine v)) = trace v ++ skip out) as Hskip.
  { intros v out Hd. unfold routine. rewrite create_entry_run.
    unfold describe_answer in Hd. fold entry_id in Hd |- *. cbv zeta.
    destruct (env_subprocess _ (env v)) as [d e1]. simpl in Hd. subst d.
    simpl. by rewrite <- app_assoc. }
  split.
  - intros out Hd. destruct (Hskip w out Hd) as [Hr Ht].
    split; [done|]. unfold added. by rewrite Ht, drop_app_length.
  - intros ex out out' Hd Hex Hc Hd' w1 w2.
    destruct (Hskip w1 out' Hd') as [Hr2 Ht2]. fold w2 in Ht2.
    assert (fst (routine w) = Ret true /\
            exists n doc line,
              trace w1 = trace w ++
                [ Subprocess (ingest_views_only.describe_args cfg entry_id) (Raise ex);
                  Print line; FileWrite n doc;
                  Subprocess (ingest_views_only.create_args cfg entry_id entry_type
                                n entry_fqn) (Ret out);
                  Print ("  ✅ Created " +:+ entry_id); FileRemove n ]) as [Hr1 Ht1].
    { unfold w1, routine. rewrite create_entry_run.
      unfold describe_answer, create_answer, tmpfile_answer in Hd, Hc.
      fold entry_id in Hd, Hc |- *.
      cbv zeta.
      destruct (env_subprocess _ (env w)) as [d e1]. simpl in Hd, Hc. subst d.
      rewrite Hex.
      destruct (env_tmpname ".json" e1) as [n e2].
      destruct (env_create_error n e2) as [ex1|]; [discriminate Hc|].
      destruct (env_dump_error n e2) as [ex1|]; [discriminate Hc|].
      destruct (env_subprocess _ e2) as [c e3]. simpl in Hc. subst c.
      simpl. split; [done|]. eexists n, _, _. by rewrite <- !app_assoc. }
    destruct Ht1 as (n & doc & line & Ht1).
    destruct (added_trans w w1 w2 _ _ Ht1 Ht2) as [Hall Hsecond].
    repeat split; [done|done| |done].
    rewrite Hall. reflexivity.
Qed.

Lemma C1_witness :
  let routine :=
    ingest_views_only.create_dataplex_entry_with_aspects sample_config
      "custom:looker.view:mylooker.retail_banking.card" "looker-view" [] in
  let w := mock.world (mock.healthy []) in
  let w1 := snd (routine w) in
  let w2 := snd (routine w1) in
  create_calls (added w w2) = 1
  /\ fst (routine w1) = Ret true
  /\ added w1 w2
     = [ Subprocess
           (ingest_views_only.describe_args sample_config "mylooker-retail_banking-card")
           (Ret "{}");
         Print (skip_message "mylooker-retail_banking-card") ].
Proof.
  intros routine w w1 w2.
  destruct (C1_skip_if_exists_and_single_create sample_config
              "custom:looker.view:mylooker.retail_banking.card" "looker-view" [] w)
    as [_ Htwice].
  destruct (Htwice (CalledProcessError 1 "ERROR: NOT_FOUND") "Created entry." "{}")
    as (_ & Hsecond & Hone & Hskip);
    [vm_compute; reflexivity | reflexivity | vm_compute; reflexivity
    | vm_compute; reflexivity |].
  exact (conj Hone (conj Hsecond Hskip)).
Defined.

(** ** The relationship linker *)

(** Symbolic execution: case analysis on the next answer of the outside
    world and on the next test the script makes of it. *)
Ltac step_world :=
  match goal with
  | |- context [@env_subprocess ?E ?I ?a ?st] =>
      destruct (@env_subprocess E I a st) as [[?out|?err] ?st'] eqn:?Hrun
  | |- context [@env_request ?E ?I ?m ?u ?p ?h ?b ?st] =>
      destruct (@env_request E I m u p h b st) as [[?resp|?err] ?st'] eqn:?Hreq
  | |- context [@env_uuid4_hex ?E ?I ?st] =>
      destruct (@env_uuid4_hex E I st) as [?hex ?st'] eqn:?Huuid
  | |- context [is_CalledProcessError ?x] =>
      destruct (is_CalledProcessError x) eqn:?Hcpe
  | |- context [is_RequestException ?x] =>
      destruct (is_RequestException x) eqn:?Hreqex
  | |- context [pystr.strip ?x] =>
      destruct (pystr.strip x) eqn:?Hstrip
  | |- context [(status_code ?r =? ?n)%Z] =>
      destruct (Z.eqb_spec (status_code r) n)
  end; simpl.

Ltac run_world := repeat step_world; rewrite <- ?app_assoc, ?added_app; simpl.

(** C2 as written does not hold: with the target entry absent no request is
    sent, but the call returns [False], not success. *)
Lemma C2_counterexample :
  let w := mock.world (mock.healthy [ "d1" ]) in
  let run := create_structural_links.create_entry_link sample_config "d1" "e1" "uses" "" w in
  Forall (fun ev => is_http ev = false) (added w (snd run))
  /\ fst run = Ret false
  /\ fst run <> Ret true.
Proof.
  cbv zeta. split; [|split].
  - vm_compute. repeat constructor.
  - vm_compute. reflexivity.
  - vm_compute. discriminate.
Qed.

(** C2, amended.  When the source entry is absent from the catalog (the
    describe command run for it exits with an error status), the linker
    does nothing more than print that the source entry does not exist: it
    creates no link, sending no HTTP request at all, and returns [False].
    When the source entry is there and the target entry is absent, it does
    the same for the target entry.  In neither case does the call report
    success. *)
Theorem C2_no_link_when_endpoint_absent {E} `{!Env E} (cfg : Config)
    (source_entry_id target_entry_id link_type description : string)
    (w : World E) :
  let run :=
    create_structural_links.create_entry_link cfg
      source_entry_id target_entry_id link_type description w in
  let describe := create_structural_links.describe_args cfg in
  (forall ex,
      source_answer cfg source_entry_id w = Raise ex ->
      is_CalledProcessError ex = true ->
      fst run = Ret false
      /\ added w (snd run)
         = [ Subprocess (describe source_entry_id) (Raise ex);
             Print "⚠️   (may not exist)";
             Print ("  ⚠️  Source entry " +:+ source_entry_id
                    +:+ " does not exist, skipping link") ]
      /\ Forall (fun ev => is_http ev = false) (added w (snd run))) /\
  (forall out ex,
      source_answer cfg source_entry_id w = Ret out ->
      target_answer cfg source_entry_id target_entry_id w = Raise ex ->
      is_CalledProcessError ex = true ->
      fst run = Ret false
      /\ added w (snd run)
         = [ Subprocess (describe source_entry_id) (Ret out);
             Subprocess (describe target_entry_id) (Raise ex);
             Print "⚠️   (may not exist)";
             Print ("  ⚠️  Target entry " +:+ target_entry_id
                    +:+ " does not exist, skipping link") ]
      /\ Forall (fun ev => is_http ev = false) (added w (snd run))).
Proof.
  intros run describe. subst run describe.
  unfold source_answer, target_answer.
  unfold create_structural_links.create_entry_link,
    create_structural_links.verify_entry_exists,
    create_structural_links.run_gcloud_command.
  unfold_M.
  destruct (env_subprocess _ (env w)) as [[out|ex] e1]; simpl.
  - split; [intros ? [=]|]. intros out' ex' [= <-].
    destruct (env_subprocess _ e1) as [[out2|ex2] e2]; simpl; [intros [=]|].
    intros [= <-] Hcpe. rewrite Hcpe. simpl.
    rewrite <- !app_assoc, added_app. simpl.
    split; [done|]. split; [done|]. repeat constructor.
  - split; [|intros ? ? [=]]. intros ex' [= <-] Hcpe. rewrite Hcpe. simpl.
    rewrite <- !app_assoc, added_app. simpl.
    split; [done|]. split; [done|]. repeat constructor.
Qed.

Lemma C2_witness :
  let run catalog :=
    create_structural_links.create_entry_link sample_config "d1" "e1" "uses" ""
      (mock.world (mock.healthy catalog)) in
  fst (run [ "e1" ]) = Ret false /\ fst (run [ "d1" ]) = Ret false.
Proof.
  intros run. split.
  - destruct (C2_no_link_when_endpoint_absent sample_config "d1" "e1" "uses" ""
                (mock.world (mock.healthy [ "e1" ]))) as [Hsource _].
    apply (Hsource (CalledProcessError 1 "ERROR: NOT_FOUND")); reflexivity.
  - destruct (C2_no_link_when_endpoint_absent sample_config "d1" "e1" "uses" ""
                (mock.world (mock.healthy [ "d1" ]))) as [_ Htarget].
    apply (Htarget "{}" (CalledProcessError 1 "ERROR: NOT_FOUND")); reflexivity.
Defined.

(** ** HTTP status 409 *)

(** C5 as written does not hold for the lineage client: [_make_request]
    answers a 409 with [None] after printing "API Error 409", exactly as it
    answers a 500, and [create_process] then reports a failure. *)
Lemma C5_counterexample :
  let w409 := mock.world (mock.mk [] false None "ya29.token" (Ret conflict) 0 0) in
  let w500 :=
    mock.world (mock.mk [] false None "ya29.token"
                  (Ret (mkResponse 500 "ALREADY_EXISTS" None)) 0 0) in
  let post :=
    dataplex_lineage_api._make_request sample_api "POST"
      "https://datalineage.googleapis.com/v1/projects/my-project/locations/eu/processes"
      (Some (JObj [])) in
  let process :=
    dataplex_lineage_api.mkLineageProcess
      "projects/my-project/locations/eu/processes/bq-view-7afd52e7"
      "BigQuery to Looker View: card" "" [] in
  fst (post w409) = Ret None
  /\ fst (post w409) = fst (post w500)
  /\ last (added w409 (snd (post w409))) = Some (Print "API Error 409: ALREADY_EXISTS")
  /\ fst (dataplex_lineage_api.create_process sample_api process w409) = Ret None
  /\ last (trace (snd (dataplex_lineage_api.create_process sample_api process w409)))
     = Some (Print "  ❌ Failed to create process: BigQuery to Looker View: card").
Proof. cbv zeta. repeat split; vm_compute; reflexivity. Qed.

(** C5, amended.  The entry-link routine returns [True] whenever its POST is
    answered with status 409, printing that the link already exists.  The
    lineage client has no such case: [_make_request] prints "API Error 409"
    and returns [None], as for any status it does not list. *)
Theorem C5_conflict_is_success_for_links_only {E} `{!Env E} (cfg : Config) :
  (forall (source_entry_id target_entry_id link_type description : string)
     (w : World E) method url params headers body response,
      let run :=
        create_structural_links.create_entry_link cfg
          source_entry_id target_entry_id link_type description w in
      HttpRequest method url params headers body (Ret response) ∈ added w (snd run) ->
      status_code response = 409%Z ->
      fst run = Ret true
      /\ Print ("  ℹ️  Link already exists: " +:+ source_entry_id +:+ " → "
                +:+ target_entry_id +:+ " (" +:+ link_type +:+ ")")
           ∈ added w (snd run)) /\
  (forall (self : dataplex_lineage_api.DataLineageAPI) (method url : string)
     (data : option json) (w : World E) method' url' params headers body response,
      let run := dataplex_lineage_api._make_request self method url data w in
      HttpRequest method' url' params headers body (Ret response) ∈ added w (snd run) ->
      status_code response = 409%Z ->
      fst run = Ret None
      /\ Print ("API Error 409: " +:+ text response) ∈ added w (snd run)).
Proof.
  split.
  - intros source_entry_id target_entry_id link_type description w
      method url params headers body response run. subst run.
    unfold create_structural_links.create_entry_link,
      create_structural_links.verify_entry_exists,
      create_structural_links.run_gcloud_command,
      create_structural_links.get_access_token.
    unfold_M. run_world; intros Hin Hst; each_member Hin; try lia;
      (split; [reflexivity|set_solver]).
  - intros self method url data w method' url' params headers body response run.
    subst run. unfold dataplex_lineage_api._make_request. unfold_M.
    destruct (String.eqb method "GET"); [|destruct (String.eqb method "POST");
      [|destruct (String.eqb method "PATCH"); [|destruct (String.eqb method "DELETE")]]];
      simpl; run_world;
      repeat match goal with
        | |- context [pystr.nonempty ?x] => destruct (pystr.nonempty x); simpl
        | |- context [json_body ?x] => destruct (json_body x) as [[]|]; simpl
        end;
      rewrite <- ?app_assoc, ?added_app, ?added_same; simpl;
      intros Hin Hst; each_member Hin; try lia;
      (split; [reflexivity|rewrite Hst; set_solver]).
Qed.

Lemma C5_witness :
  let w :=
    mock.world (mock.mk [ "d1"; "e1" ] false None "ya29.token" (Ret conflict) 0 0) in
  fst (create_structural_links.create_entry_link sample_config "d1" "e1" "uses" "" w)
  = Ret true
  /\ fst (dataplex_lineage_api._make_request sample_api "POST"
            "https://datalineage.googleapis.com/v1/projects/my-project/locations/eu/processes"
            (Some (JObj [])) w)
     = Ret None.
Proof.
  intros w.
  destruct (C5_conflict_is_success_for_links_only (E:=mock.t) sample_config)
    as [Hlink Hclient].
  split.
  - eapply (Hlink "d1" "e1" "uses" "" w "POST" _ _ _ _ conflict); [|reflexivity].
    vm_compute. do 4 (apply elem_of_cons; right). apply elem_of_cons. by left.
  - eapply (Hclient sample_api "POST" _ (Some (JObj [])) w "POST" _ _ _ _ conflict);
      [|reflexivity].
    vm_compute. apply elem_of_cons. by left.
Defined.

(** ** Dashboards whose explores are not in the catalog listing *)

Section unknown_explores.
Context {E : Type} `{!Env E} (cfg : Config).
Import create_structural_links.

Lemma by_id_lookup_None (entries : list entry_ref) (k : string) :
  by_id entries !! k = None <-> k ∉ id <$> entries.
Proof.
  unfold by_id.
  assert (forall m : gmap string entry_ref,
             foldl (fun m d => <[id d := d]> m) m entries !! k = None
             <-> m !! k = None /\ k ∉ id <$> entries) as Hgen.
  { induction entries as [|d entries IH]; intros m; simpl.
    - split; [intros H; split; [done|apply not_elem_of_nil] | by intros [H _]].
    - rewrite IH, not_elem_of_cons, lookup_insert_None. intuition congruence. }
  rewrite Hgen, lookup_empty. tauto.
Qed.

Lemma link_explores_unknown explore_map dashboard_id explore_ids acc (w : World E) :
  (forall e, e ∈ explore_ids -> explore_map !! e = None) ->
  for_each explore_ids (link_explore cfg explore_map dashboard_id) acc w = (Ret acc, w).
Proof.
  induction explore_ids as [|e es IH]; intros Hnone; [done|].
  simpl. unfold bind at 1. unfold link_explore at 1.
  rewrite (Hnone e) by (apply elem_of_cons; by left).
  simpl. apply IH. intros e' He'. apply Hnone, elem_of_cons. by right.
Qed.

Lemma link_dashboards_unknown dashboard_map explore_map relationships acc (w : World E) :
  (forall d es e,
      (d, es) ∈ relationships -> is_Some (dashboard_map !! d) -> e ∈ es ->
      explore_map !! e = None) ->
  for_each relationships (link_dashboard cfg dashboard_map explore_map) acc w
  = (Ret acc, w).
Proof.
  induction relationships as [|[d es] rel IH]; intros Hnone; [done|].
  cbn [for_each]. unfold bind at 1.
  assert (link_dashboard cfg dashboard_map explore_map (d, es) acc w = (Ret acc, w))
    as ->.
  { unfold link_dashboard. destruct (dashboard_map !! d) as [known|] eqn:Hd; [|done].
    apply link_explores_unknown. intros x Hx.
    apply (Hnone d es x); [apply elem_of_cons; by left|by rewrite Hd|done]. }
  apply IH. intros d' es' e Hin. apply Hnone, elem_of_cons. by right.
Qed.

End unknown_explores.

(** C7.  Given a dashboard-to-explore table in which no explore listed for a
    known dashboard is among the known explores, such as the table mapping
    d1 to e1 when e1 is not known, the linker makes no link-creation call (it
    runs no command and sends no request; it only prints its summary line)
    and returns 0 links created.  The same holds of
    [create_dashboard_to_explore_links] for the table written in it. *)
Theorem C7_unknown_explores_create_no_link {E} `{!Env E} (cfg : Config)
    (relationships : list (string * list string))
    (dashboards explores : list create_structural_links.entry_ref) (w : World E) :
  (forall dashboard_id explore_ids explore_id,
      (dashboard_id, explore_ids) ∈ relationships ->
      dashboard_id ∈ create_structural_links.id <$> dashboards ->
      explore_id ∈ explore_ids ->
      explore_id ∉ create_structural_links.id <$> explores) ->
  create_structural_links.link_dashboards_to_explores cfg
    relationships dashboards explores w
  = (Ret 0, log (Print "  📊 Created 0 dashboard → explore links") w)
  /\ (relationships = create_structural_links.dashboard_explore_relationships ->
      let run :=
        create_structural_links.create_dashboard_to_explore_links cfg
          dashboards explores w in
      fst run = Ret 0
      /\ Forall (fun ev => is_print ev = true) (added w (snd run))).
Proof.
  intros Hunknown.
  assert (create_structural_links.link_dashboards_to_explores cfg
            relationships dashboards explores w
          = (Ret 0, log (Print "  📊 Created 0 dashboard → explore links") w)) as Hrun.
  { unfold create_structural_links.link_dashboards_to_explores.
    unfold mbind, M_bind. unfold bind at 1.
    rewrite link_dashboards_unknown; [done|].
    intros d es e Hin Hd He. apply by_id_lookup_None.
    apply (Hunknown d es e Hin); [|done].
    destruct (decide (d ∈ create_structural_links.id <$> dashboards)) as [|Hn]; [done|].
    apply by_id_lookup_None in Hn. rewrite Hn in Hd. by destruct Hd. }
  split; [exact Hrun|].
  intros -> run. subst run.
  unfold create_structural_links.create_dashboard_to_explore_links.
  unfold mbind, M_bind, bind, print. simpl.
  match goal with
  | |- context [create_structural_links.link_dashboards_to_explores _ _ _ _ ?v] =>
      set (w0 := v)
  end.
  assert (create_structural_links.link_dashboards_to_explores cfg
            create_structural_links.dashboard_explore_relationships
            dashboards explores w0
          = (Ret 0, log (Print "  📊 Created 0 dashboard → explore links") w0)) as ->.
  { unfold create_structural_links.link_dashboards_to_explores.
    unfold mbind, M_bind. unfold bind at 1.
    rewrite link_dashboards_unknown; [done|].
    intros d es e Hin Hd He. apply by_id_lookup_None.
    apply (Hunknown d es e Hin); [|done].
    destruct (decide (d ∈ create_structural_links.id <$> dashboards)) as [|Hn]; [done|].
    apply by_id_lookup_None in Hn. rewrite Hn in Hd. by destruct Hd. }
  split; [done|].
  subst w0. unfold log. simpl. rewrite <- !app_assoc, added_app. simpl.
  repeat constructor.
Qed.

Lemma C7_witness :
  let dashboards := [ create_structural_links.mkEntryRef "d1" "looker:dashboard:mylooker.f.d1" ] in
  let explores := [ create_structural_links.mkEntryRef "e2" "looker:explore:mylooker.m.e2" ] in
  let w := mock.world (mock.healthy [ "d1"; "e2" ]) in
  create_structural_links.link_dashboards_to_explores sample_config
    [ ("d1", [ "e1" ]) ] dashboards explores w
  = (Ret 0, log (Print "  📊 Created 0 dashboard → explore links") w).
Proof.
  intros dashboards explores w.
  apply (C7_unknown_explores_create_no_link sample_config
           [ ("d1", [ "e1" ]) ] dashboards explores w).
  intros dashboard_id explore_ids explore_id Hrow _ He.
  apply elem_of_cons in Hrow as [Hrow|Hrow]; [|by apply elem_of_nil in Hrow].
  injection Hrow as -> ->.
  apply elem_of_cons in He as [->|He]; [|by apply elem_of_nil in He].
  simpl. intros Hin.
  apply elem_of_cons in Hin as [Hin|Hin]; [discriminate Hin|by apply elem_of_nil in Hin].
Defined.

(** ** Process identifiers *)

Lemma string_length_app (a b : string) :
  String.length (a +:+ b) = String.length a + String.length b.
Proof.
  induction a as [|x a IH]; [done|].
  change (String x a +:+ b) with (String x (a +:+ b)). simpl. by rewrite IH.
Qed.

Lemma string_app_inj_suffix (a b c d : string) :
  String.length b = String.length d -> a +:+ b = c +:+ d -> a = c /\ b = d.
Proof.
  revert c. induction a as [|x a IH]; intros [|y c] Hlen Heq.
  - done.
  - change (b = String y (c +:+ d)) in Heq. subst b.
    simpl in Hlen. rewrite string_length_app in Hlen. lia.
  - change (String x (a +:+ b) = d) in Heq. subst d.
    simpl in Hlen. rewrite string_length_app in Hlen. lia.
  - change (String x (a +:+ b) = String y (c +:+ d)) in Heq.
    injection Heq as -> Heq. destruct (IH c Hlen Heq) as [-> ->]. done.
Qed.

Lemma hash8_length d t : String.length (hash8 d t) = 8.
Proof.
  unfold hash8, hashlib.md5_hexdigest.
  destruct (hashlib.digest_state _) as [[[a b] c] e]. reflexivity.
Qed.

Lemma process_id_parts d t :
  dataplex_lineage_api.generate_deterministic_process_id d t
  = prefix_of t +:+ String "-" (hash8 d t).
Proof. reflexivity. Qed.

(** C3 as written does not hold: the transformation types t20179 and t69672
    are different, neither has a prefix of its own, and for the display name
    d their digests start with the same eight digits. *)
Lemma C3_counterexample :
  "t20179" <> "t69672"
  /\ dataplex_lineage_api.generate_deterministic_process_id "d" "t20179"
     = dataplex_lineage_api.generate_deterministic_process_id "d" "t69672".
Proof. split; [discriminate|vm_compute; reflexivity]. Qed.

(** C3, amended.  Identical inputs give identical identifiers.  Two
    transformation types give the same identifier for a display name exactly
    when they have the same prefix and the MD5 digests of "name:type" agree
    on their first eight hexadecimal digits; so any two different types out
    of the three known ones give different identifiers. *)
Theorem C3_process_id_deterministic_and_distinct (display_name t1 t2 : string) :
  (forall display_name' t1',
      display_name = display_name' -> t1 = t1' ->
      dataplex_lineage_api.generate_deterministic_process_id display_name t1
      = dataplex_lineage_api.generate_deterministic_process_id display_name' t1') /\
  (dataplex_lineage_api.generate_deterministic_process_id display_name t1
   = dataplex_lineage_api.generate_deterministic_process_id display_name t2
   <-> prefix_of t1 = prefix_of t2 /\ hash8 display_name t1 = hash8 display_name t2) /\
  (t1 ∈ known_transformation_types -> t2 ∈ known_transformation_types -> t1 <> t2 ->
   dataplex_lineage_api.generate_deterministic_process_id display_name t1
   <> dataplex_lineage_api.generate_deterministic_process_id display_name t2).
Proof.
  assert (dataplex_lineage_api.generate_deterministic_process_id display_name t1
          = dataplex_lineage_api.generate_deterministic_process_id display_name t2
          <-> prefix_of t1 = prefix_of t2 /\ hash8 display_name t1 = hash8 display_name t2)
    as Hiff.
  { rewrite !process_id_parts. split.
    - intros Heq. apply string_app_inj_suffix in Heq as [Hp Hh].
      + by injection Hh as Hh.
      + simpl. by rewrite !hash8_length.
    - by intros [-> ->]. }
  split; [by intros ? ? -> ->|]. split; [exact Hiff|].
  intros H1 H2 Hne Heq. apply Hiff in Heq as [Hp _].
  unfold known_transformation_types in *.
  each_member H1; each_member H2; try done; vm_compute in Hp; discriminate Hp.
Qed.

Lemma C3_witness :
  dataplex_lineage_api.generate_deterministic_process_id
    "BigQuery to Looker View: card" "view_transformation"
  <> dataplex_lineage_api.generate_deterministic_process_id
       "BigQuery to Looker View: card" "explore_transformation".
Proof.
  apply (C3_process_id_deterministic_and_distinct
           "BigQuery to Looker View: card" "view_transformation" "explore_transformation").
  - apply elem_of_cons. by left.
  - apply elem_of_cons. right. apply elem_of_cons. by left.
  - discriminate.
Defined.

(** ** Matching a class repeatedly *)

Section regex_facts.
Import re.

Lemma append_cons a (s t : string) : String a s +:+ t = String a (s +:+ t).
Proof. reflexivity. Qed.

Lemma append_nil_r (s : string) : s +:+ "" = s.
Proof. induction s as [|a s IH]; [done|]. by rewrite append_cons, IH. Qed.

Lemma append_assoc (s t u : string) : (s +:+ t) +:+ u = s +:+ t +:+ u.
Proof. induction s as [|a s IH]; [done|]. by rewrite !append_cons, IH. Qed.

Lemma length_lt_cons a (s : string) :
  (String.length s <? String.length (String a s))%nat = true.
Proof. apply Nat.ltb_lt. simpl. lia. Qed.

Lemma consumed_app (u v : string) : consumed (u +:+ v) v = u.
Proof.
  unfold consumed. rewrite string_length_app.
  replace (String.length u + String.length v - String.length v)
    with (String.length u) by lia.
  induction u as [|a u IH]; [by destruct v|].
  rewrite append_cons. simpl. by rewrite IH.
Qed.

(** A greedy repetition of a class takes all of [u] when the class cannot
    go further, provided the rest of the pattern then succeeds. *)
Lemma star_cls_greedy {A} p (k : cont A) fuel (u v : string) gs (x : A) :
  all_chars p u = true -> stops p v = true -> String.length u <= fuel ->
  k v gs = Some x ->
  star_loop (exec (Cls p)) k fuel (u +:+ v) gs = Some x.
Proof.
  intros Hu Hv. revert fuel. induction u as [|a u IH]; intros fuel Hfuel Hk.
  - change ("" +:+ v) with v.
    destruct fuel as [|fuel]; [done|]. simpl.
    destruct v as [|c v]; [done|]. simpl in Hv.
    apply negb_true_iff in Hv. by rewrite Hv.
  - simpl in Hu. apply andb_true_iff in Hu as [Ha Hu].
    destruct fuel as [|fuel]; [simpl in Hfuel; lia|].
    rewrite append_cons. cbn [star_loop exec]. rewrite Ha, length_lt_cons.
    rewrite IH; [done|done|simpl in Hfuel; lia|done].
Qed.

Lemma exec_star_cls {A} p (k : cont A) (u v : string) gs (x : A) :
  all_chars p u = true -> stops p v = true -> k v gs = Some x ->
  exec (Star (Cls p)) (u +:+ v) gs k = Some x.
Proof.
  intros Hu Hv Hk. simpl. apply star_cls_greedy; [done|done| |done].
  rewrite string_length_app. lia.
Qed.

Lemma exec_group_plus_cls {A} n p (k : cont A) (u v : string) gs (x : A) :
  u <> EmptyString -> all_chars p u = true -> stops p v = true ->
  k v (<[n := u]> gs) = Some x ->
  exec (Group n (Plus (Cls p))) (u +:+ v) gs k = Some x.
Proof.
  intros Hne Hu Hv Hk. destruct u as [|a u]; [done|].
  simpl in Hu. apply andb_true_iff in Hu as [Ha Hu].
  rewrite append_cons. simpl. rewrite Ha.
  apply star_cls_greedy; [done|done|rewrite string_length_app; lia|].
  rewrite <- append_cons, consumed_app. done.
Qed.

Lemma exec_cat {A} r1 r2 (s : string) gs (k : cont A) :
  exec (Cat r1 r2) s gs k = exec r1 s gs (fun s' gs' => exec r2 s' gs' k).
Proof. reflexivity. Qed.

Lemma exec_str {A} (lit s : string) gs (k : cont A) :
  exec (Str lit) (lit +:+ s) gs k = k s gs.
Proof.
  induction lit as [|a lit IH]; [done|].
  rewrite append_cons. simpl. by rewrite Ascii.eqb_refl.
Qed.

Lemma group_singleton n (s : string) : group n {[ n := s ]} = s.
Proof. unfold group. by rewrite lookup_singleton_eq. Qed.

Lemma search_here r (s s' : string) gs :
  match_here r s = Some (s', gs) -> search r s = Some gs.
Proof. intros H. destruct s; simpl; by rewrite H. Qed.

(** A pattern that needs the letter [c] first matches nowhere inside a text
    without that letter. *)
Lemma search_skip r c (pre s : string) :
  (forall a t, Ascii.eqb a c = false -> match_here r (String a t) = None) ->
  all_chars (fun a => negb (Ascii.eqb a c)) pre = true ->
  search r (pre +:+ s) = search r s.
Proof.
  intros Hr. induction pre as [|a pre IH]; intros Hpre; [done|].
  simpl in Hpre. apply andb_true_iff in Hpre as [Ha Hpre].
  apply negb_true_iff in Ha.
  rewrite append_cons. cbn [search]. rewrite (Hr a _ Ha).
  by apply IH.
Qed.

Lemma sql_re_needs_s a (t : string) :
  Ascii.eqb a "s" = false -> match_here lookml.sql_re (String a t) = None.
Proof.
  intros Ha. unfold match_here, lookml.sql_re. cbn [exec Str]. by rewrite Ha.
Qed.

Lemma word_not_space c : pystr.is_word c = true -> pystr.is_space c = false.
Proof.
  unfold pystr.is_word, pystr.is_space. cbv zeta.
  generalize (nat_of_ascii c). intros n H.
  rewrite !orb_true_iff, !andb_true_iff, !Nat.leb_le, Nat.eqb_eq in H.
  rewrite orb_false_iff, !andb_false_iff, !Nat.leb_gt. lia.
Qed.

Lemma rstrip_word_space (col : string) :
  all_chars pystr.is_word col = true -> pystr.rstrip (col +:+ " ") = col.
Proof.
  induction col as [|c col IH]; intros Hcol; [done|].
  simpl in Hcol. apply andb_true_iff in Hcol as [Hc Hcol].
  rewrite append_cons. simpl. rewrite (IH Hcol).
  destruct col; [by rewrite (word_not_space c Hc)|done].
Qed.

Lemma rstrip_keeps_prefix (pre s : string) :
  pystr.rstrip s <> EmptyString -> pystr.rstrip (pre +:+ s) = pre +:+ pystr.rstrip s.
Proof.
  intros Hs. induction pre as [|a pre IH]; [done|].
  rewrite !append_cons. cbn [pystr.rstrip]. rewrite IH.
  destruct (pre +:+ pystr.rstrip s) eqn:Hp; [|done].
  destruct pre; [|discriminate Hp]. by destruct Hs.
Qed.

Lemma all_chars_weaken (p q : ascii -> bool) (s : string) :
  (forall a, p a = true -> q a = true) -> all_chars p s = true -> all_chars q s = true.
Proof.
  intros Hpq. induction s as [|a s IH]; [done|]. simpl.
  intros H. apply andb_true_iff in H as [Ha Hs].
  by rewrite (Hpq a Ha), (IH Hs).
Qed.

Lemma all_chars_app p (s t : string) :
  all_chars p (s +:+ t) = all_chars p s && all_chars p t.
Proof.
  induction s as [|a s IH]; [done|].
  rewrite append_cons. simpl. by rewrite IH, andb_assoc.
Qed.

Lemma word_not_semicolon a : pystr.is_word a = true -> negb (Ascii.eqb a ";") = true.
Proof. intros H. by destruct (Ascii.eqb_spec a ";") as [->|]. Qed.

(** The field parser reads the column out of a field body whose sql clause
    is a TABLE reference: whatever comes before the clause (as long as it
    holds no letter s, where the clause could seem to start) and whatever
    follows its semicolon. *)
Lemma parse_field_definition_reads_column (pre col post name type_ : string) :
  all_chars (fun a => negb (Ascii.eqb a "s")) pre = true ->
  col <> EmptyString ->
  all_chars pystr.is_word col = true ->
  let field_block := pre +:+ "sql: ${TABLE}." +:+ col +:+ " ;" +:+ post in
  lookml.source_column (lookml.parse_field_definition field_block name type_) = Some col
  /\ lookml.sql_definition (lookml.parse_field_definition field_block name type_)
     = Some ("${TABLE}." +:+ col).
Proof.
  intros Hpre Hne Hcol field_block.
  assert (search lookml.sql_re field_block
          = Some {[ 1 := "${TABLE}." +:+ col +:+ " " ]}) as Hsql.
  { unfold field_block.
    rewrite (search_skip _ "s") by (done || apply sql_re_needs_s).
    apply (search_here _ _ post). unfold match_here, lookml.sql_re, ws, Not.
    change ("sql: ${TABLE}." +:+ col +:+ " ;" +:+ post)
      with ("sql:" +:+ " " +:+ "${TABLE}." +:+ col +:+ " ;" +:+ post).
    rewrite exec_cat, exec_str, exec_cat.
    apply exec_star_cls; [done|done|]. rewrite exec_cat.
    replace ("${TABLE}." +:+ col +:+ " ;" +:+ post)
      with (("${TABLE}." +:+ col +:+ " ") +:+ ";" +:+ post)
      by (by rewrite !append_assoc).
    apply exec_group_plus_cls; [done| |done|].
    - rewrite !all_chars_app. rewrite andb_true_r.
      apply (all_chars_weaken _ _ _ word_not_semicolon Hcol).
    - change (";" +:+ post) with (String ";" post).
      cbn [exec]. by rewrite Ascii.eqb_refl. }
  assert (pystr.strip ("${TABLE}." +:+ col +:+ " ") = "${TABLE}." +:+ col) as Hstrip.
  { unfold pystr.strip.
    change (pystr.lstrip ("${TABLE}." +:+ col +:+ " ")) with ("${TABLE}." +:+ col +:+ " ").
    rewrite rstrip_keeps_prefix; by rewrite rstrip_word_space. }
  assert (search lookml.table_column_re ("${TABLE}." +:+ col) = Some {[ 1 := col ]}) as Hcolumn.
  { apply (search_here _ _ ""). unfold match_here, lookml.table_column_re, word.
    rewrite exec_cat, exec_str.
    rewrite <- (append_nil_r col) at 1.
    by apply exec_group_plus_cls. }
  unfold lookml.parse_field_definition.
  cbn [lookml.source_column lookml.sql_definition].
  rewrite Hsql. cbn [fmap option_fmap option_map].
  rewrite group_singleton, Hstrip, Hcolumn.
  cbn [fmap option_fmap option_map]. rewrite group_singleton.
  split; [|done].
  by change (pystr.nonempty ("${TABLE}." +:+ col)) with true.
Qed.

End regex_facts.

(** ** The extractor on the example view *)

(** The field parser itself reads the column out of a whole field body. *)
Lemma parse_field_definition_example :
  lookml.parse_field_definition " type: number sql: ${TABLE}.amt ;" "amount" "dimension"
  = lookml.mkFieldLineage "amount" "number" None (Some "amt") (Some "${TABLE}.amt").
Proof. vm_compute. reflexivity. Qed.

(** C4.  On the view text of the example the extractor yields one field
    record named amount of type number, but without a source column: the
    block pattern ends the field body at the closing brace of the TABLE
    reference, so the body handed to the field parser is cut before the
    column name and holds no terminated sql clause. *)
Theorem C4_example_view_loses_source_column :
  let content := "dimension: amount { type: number sql: ${TABLE}.amt ;}" in
  re.findall2 (lookml.block_re "dimension") content
  = [ ("amount", " type: number sql: ${TABLE") ]
  /\ lookml.parse_view_file "amount.view" content
     = lookml.mkViewMetadata "amount.view" None
         [ lookml.mkFieldLineage "amount" "number" None None None ] [] None.
Proof. cbv zeta. split; vm_compute; reflexivity. Qed.

(** ** Runs *)

Lemma digits_nonempty width n rest :
  rest <> EmptyString -> datetime.digits width n rest <> EmptyString.
Proof.
  revert n rest. induction width as [|width IH]; intros n rest Hrest; [done|].
  simpl. by apply IH.
Qed.

Lemma isoformat_nonempty t : pystr.nonempty (datetime.isoformat t) = true.
Proof.
  assert (datetime.isoformat t <> EmptyString) as Hne.
  { unfold datetime.isoformat.
    destruct (datetime.ord2ymd _) as [[year month] day].
    by apply digits_nonempty. }
  by destruct (datetime.isoformat t).
Qed.

Lemma run_data_end_time (run : dataplex_lineage_api.LineageRun) :
  dict_has "endTime" (dataplex_lineage_api.run_data run) = true
  <-> dataplex_lineage_api.state run = "COMPLETED"
      /\ dataplex_lineage_api.end_time run <> EmptyString.
Proof.
  unfold dataplex_lineage_api.run_data.
  destruct (String.eqb_spec (dataplex_lineage_api.state run) "COMPLETED") as [Hs|Hs];
    destruct (dataplex_lineage_api.end_time run) as [|c s]; simpl;
    try (split; [discriminate|intros [? ?]; congruence]).
  split; [|done]. intros _. split; [done|discriminate].
Qed.

(* ===================================================================== *)
(** * Further properties of the scripts *)
(* ===================================================================== *)

(** ** What a match of the extractor's patterns looks like *)

Section matcher_soundness.
Import re.

(** Whenever the matcher succeeds, the rest of the pattern was run on what
    is left of the text after some prefix of it. *)
Lemma star_loop_sound {A} (body : string -> groups -> cont A -> option A)
    (k : cont A) (x : A) :
  (forall s gs k', body s gs k' = Some x ->
                   exists u s' gs', s = u +:+ s' /\ k' s' gs' = Some x) ->
  forall fuel s gs,
    star_loop body k fuel s gs = Some x ->
    exists u s' gs', s = u +:+ s' /\ k s' gs' = Some x.
Proof.
  intros Hbody. induction fuel as [|fuel IH]; intros s gs H.
  - exists "", s, gs. done.
  - cbn [star_loop] in H.
    destruct (body s gs _) as [a|] eqn:Hb.
    + injection H as ->. apply Hbody in Hb as (u & s' & gs' & -> & Hk).
      destruct (_ <? _)%nat; [|done].
      apply IH in Hk as (u' & s'' & gs'' & -> & Hk).
      exists (u +:+ u'), s'', gs''. by rewrite append_assoc.
    + exists "", s, gs. done.
Qed.

Lemma exec_sound {A} r (s : string) gs (k : cont A) (x : A) :
  exec r s gs k = Some x ->
  exists u s' gs', s = u +:+ s' /\ k s' gs' = Some x.
Proof.
  revert s gs k. induction r as [c|p|r1 IH1 r2 IH2|r IH|n r IH|]; intros s gs k H.
  - destruct s as [|a s]; [done|]. cbn [exec] in H.
    destruct (Ascii.eqb a c); [|done]. by exists (String a ""), s, gs.
  - destruct s as [|a s]; [done|]. cbn [exec] in H.
    destruct (p a); [|done]. by exists (String a ""), s, gs.
  - cbn [exec] in H. apply IH1 in H as (u1 & s1 & gs1 & -> & H).
    apply IH2 in H as (u2 & s2 & gs2 & -> & H).
    exists (u1 +:+ u2), s2, gs2. by rewrite append_assoc.
  - cbn [exec] in H. apply (star_loop_sound (exec r) k x) in H; [done|].
    intros s0 gs0 k' Hb. exact (IH _ _ _ Hb).
  - cbn [exec] in H. apply IH in H as (u & s' & gs' & -> & H). eauto.
  - by exists "", s, gs.
Qed.

Lemma exec_group {A} n r (s : string) gs (k : cont A) :
  exec (Group n r) s gs k
  = exec r s gs (fun s' gs' => k s' (<[n := consumed s s']> gs')).
Proof. reflexivity. Qed.

Lemma exec_star {A} r (s : string) gs (k : cont A) :
  exec (Star r) s gs k = star_loop (exec r) k (String.length s) s gs.
Proof. reflexivity. Qed.

Lemma exec_str_inv {A} (lit s : string) gs (k : cont A) (x : A) :
  exec (Str lit) s gs k = Some x -> exists s', s = lit +:+ s' /\ k s' gs = Some x.
Proof.
  revert s. induction lit as [|c lit IH]; intros s H; [by exists s|].
  destruct s as [|a s]; [done|]. cbn [Str exec] in H.
  destruct (Ascii.eqb_spec a c) as [->|]; [|done].
  apply IH in H as (s' & -> & H). by exists s'.
Qed.

Lemma exec_chr_inv {A} c (s : string) gs (k : cont A) (x : A) :
  exec (Chr c) s gs k = Some x -> exists s', s = String c s' /\ k s' gs = Some x.
Proof.
  destruct s as [|a s]; [done|]. cbn [exec].
  destruct (Ascii.eqb_spec a c) as [->|]; [|done]. by exists s.
Qed.

Lemma star_cls_inv {A} p (k : cont A) fuel (s : string) gs (x : A) :
  star_loop (exec (Cls p)) k fuel s gs = Some x ->
  exists u v, s = u +:+ v /\ all_chars p u = true /\ k v gs = Some x.
Proof.
  revert s. induction fuel as [|fuel IH]; intros s H; [by exists "", s|].
  cbn [star_loop] in H.
  destruct (exec (Cls p) s gs _) as [a|] eqn:Hb; [|by exists "", s].
  injection H as ->. destruct s as [|a s]; [done|]. cbn [exec] in Hb.
  destruct (p a) eqn:Ha; [|done]. destruct (_ <? _)%nat; [|done].
  apply IH in Hb as (u & v & -> & Hu & Hk).
  exists (String a u), v. simpl. by rewrite Ha, Hu.
Qed.

Lemma exec_star_cls_inv {A} p (s : string) gs (k : cont A) (x : A) :
  exec (Star (Cls p)) s gs k = Some x ->
  exists u v, s = u +:+ v /\ all_chars p u = true /\ k v gs = Some x.
Proof. apply star_cls_inv. Qed.

Lemma exec_group_plus_cls_inv {A} n p (s : string) gs (k : cont A) (x : A) :
  exec (Group n (Plus (Cls p))) s gs k = Some x ->
  exists u v, s = u +:+ v /\ u <> EmptyString /\ all_chars p u = true
              /\ k v (<[n := u]> gs) = Some x.
Proof.
  intros H. cbn [exec Plus] in H.
  destruct s as [|a s]; [done|]. destruct (p a) eqn:Ha; [|done].
  apply star_cls_inv in H as (u & v & -> & Hu & Hk).
  exists (String a u), v. rewrite <- append_cons, consumed_app in Hk.
  simpl. by rewrite Ha, Hu.
Qed.

(** A repetition that cannot start leaves the text to what follows. *)
Lemma star_loop_stuck {A} (body : string -> groups -> cont A -> option A)
    (k : cont A) fuel (s : string) gs :
  (forall k', body s gs k' = None) -> star_loop body k fuel s gs = k s gs.
Proof. intros H. destruct fuel; [done|]. cbn [star_loop]. by rewrite H. Qed.

Lemma exec_plus_cls {A} p (k : cont A) (u v : string) gs (x : A) :
  u <> EmptyString -> all_chars p u = true -> stops p v = true ->
  k v gs = Some x ->
  exec (Plus (Cls p)) (u +:+ v) gs k = Some x.
Proof.
  intros Hne Hu Hv Hk. destruct u as [|a u]; [done|].
  simpl in Hu. apply andb_true_iff in Hu as [Ha Hu].
  rewrite append_cons. cbn [exec Plus]. rewrite Ha.
  apply star_cls_greedy; [done|done|rewrite string_length_app; lia|done].
Qed.

End matcher_soundness.

(** ** Text without a given character *)

Lemma contains_chr_split c (t : string) :
  pystr.contains_chr c t = false
  \/ exists u v, t = u +:+ String c v /\ pystr.contains_chr c u = false.
Proof.
  induction t as [|a t IH]; [by left|]. simpl.
  destruct (Ascii.eqb_spec a c) as [->|Hne].
  - right. by exists "", t.
  - destruct IH as [IH|(u & v & -> & Hu)]; [by left|].
    right. exists (String a u), v. simpl.
    by destruct (Ascii.eqb_spec a c).
Qed.

Lemma contains_chr_all c (s : string) :
  pystr.contains_chr c s = false
  <-> all_chars (fun a => negb (Ascii.eqb a c)) s = true.
Proof.
  induction s as [|a s IH]; [done|]. simpl.
  destruct (Ascii.eqb a c); simpl; [split; discriminate|exact IH].
Qed.

Lemma lstrip_suffix (s : string) : exists u, s = u +:+ pystr.lstrip s.
Proof.
  induction s as [|a s [u IH]]; [by exists ""|]. simpl.
  destruct (pystr.is_space a); [|by exists ""].
  exists (String a u). by rewrite append_cons, <- IH.
Qed.

Lemma rstrip_prefix (s : string) : exists v, s = pystr.rstrip s +:+ v.
Proof.
  induction s as [|a s [v IH]]; [by exists ""|]. cbn [pystr.rstrip].
  destruct (pystr.rstrip s) as [|b r] eqn:Hr.
  - destruct (pystr.is_space a).
    + by exists (String a s).
    + exists s. done.
  - exists v. by rewrite append_cons, <- IH.
Qed.

Lemma strip_keeps_absent c (s : string) :
  pystr.contains_chr c s = false -> pystr.contains_chr c (pystr.strip s) = false.
Proof.
  unfold pystr.strip. intros H.
  destruct (lstrip_suffix s) as [u Hu].
  destruct (rstrip_prefix (pystr.lstrip s)) as [v Hv].
  rewrite Hu, contains_chr_app in H. apply orb_false_iff in H as [_ H].
  rewrite Hv, contains_chr_app in H. by apply orb_false_iff in H as [H _].
Qed.

(** ** Field blocks *)

Section field_blocks.
Import re.

(** Wherever the block pattern matches, it has matched the keyword, a colon,
    a name made of word characters, an opening brace, and a body that runs
    up to the first closing brace after it. *)
Lemma block_match_shape (keyword s rest : string) gs :
  match_here (lookml.block_re keyword) s = Some (rest, gs) ->
  exists w1 name w2 body,
    s = keyword +:+ ":" +:+ w1 +:+ name +:+ w2 +:+ "{" +:+ body +:+ "}" +:+ rest
    /\ all_chars pystr.is_space w1 = true
    /\ all_chars pystr.is_space w2 = true
    /\ name <> EmptyString /\ all_chars pystr.is_word name = true
    /\ body <> EmptyString /\ pystr.contains_chr "}" body = false
    /\ gs = <[2 := body]> (<[1 := name]> ∅).
Proof.
  unfold match_here, lookml.block_re, ws, word, Not. intros H.
  rewrite exec_cat in H. apply exec_str_inv in H as (s1 & -> & H).
  rewrite exec_cat in H. apply exec_chr_inv in H as (s2 & -> & H).
  rewrite exec_cat in H. apply exec_star_cls_inv in H as (w1 & s3 & -> & Hw1 & H).
  rewrite exec_cat in H.
  apply exec_group_plus_cls_inv in H as (name & s4 & -> & Hne & Hname & H).
  rewrite exec_cat in H. apply exec_star_cls_inv in H as (w2 & s5 & -> & Hw2 & H).
  rewrite exec_cat in H. apply exec_chr_inv in H as (t & -> & H).
  exists w1, name, w2.
  destruct (contains_chr_split "}" t) as [Hnone|(body & v & -> & Hbody)].
  { rewrite exec_cat in H. apply exec_sound in H as (u & s' & gs' & -> & H).
    apply exec_chr_inv in H as (s'' & -> & _).
    rewrite contains_chr_app in Hnone. simpl in Hnone.
    by rewrite orb_true_r in Hnone. }
  destruct body as [|b body].
  { change ("" +:+ String "}" v) with (String "}" v) in H.
    cbn [exec Plus] in H. done. }
  assert (exec (Cat (Group 2 (Cat (Plus (Cls (fun a => negb (Ascii.eqb a "}"))))
                  (Star (Cat (Chr "{") (Cat (Star (Cls (fun a => negb (Ascii.eqb a "}"))))
                     (Cat (Chr "}") (Star (Cls (fun a => negb (Ascii.eqb a "}"))))))))))
                  (Chr "}"))
            (String b body +:+ String "}" v) (<[1 := name]> ∅)
            (fun s' gs' => Some (s', gs'))
          = Some (v, <[2 := String b body]> (<[1 := name]> ∅))) as Hrun.
  { rewrite exec_cat, exec_group, exec_cat.
    apply exec_plus_cls; [done|by apply contains_chr_all|done|].
    rewrite exec_star, star_loop_stuck by done.
    rewrite consumed_app. cbn [exec]. by rewrite Ascii.eqb_refl. }
  rewrite Hrun in H. injection H as <- <-.
  exists (String b body). repeat split; try done.
Qed.

Lemma findall_from_matches r fuel (s : string) gs :
  gs ∈ findall_from fuel r s ->
  exists pre s1 rest, s = pre +:+ s1 /\ match_here r s1 = Some (rest, gs).
Proof.
  revert s. induction fuel as [|fuel IH]; intros s H; [by apply elem_of_nil in H|].
  cbn [findall_from] in H.
  assert (forall a t, s = String a t -> gs ∈ findall_from fuel r t ->
            exists pre s1 rest, s = pre +:+ s1 /\ match_here r s1 = Some (rest, gs))
    as Hnext.
  { intros a t -> Ht. apply IH in Ht as (pre & s1 & rest & -> & Hm).
    by exists (String a pre), s1, rest. }
  destruct (match_here r s) as [[s' g]|] eqn:Hm.
  - destruct (exec_sound _ _ _ _ _ Hm) as (u & s'' & gs'' & Hs & Hk).
    injection Hk as -> ->.
    assert (gs = g \/ gs ∈ findall_from fuel r s'
            \/ exists a t, s = String a t /\ gs ∈ findall_from fuel r t) as Hcases.
    { destruct (_ <? _)%nat.
      - apply elem_of_cons in H as [->|H]; [by left|right; by left].
      - destruct s as [|a t].
        + apply elem_of_cons in H as [->|H]; [by left|by apply elem_of_nil in H].
        + apply elem_of_cons in H as [->|H]; [by left|].
          right. right. by exists a, t. }
    destruct Hcases as [->|[H'|(a & t & Hs' & H')]].
    + by exists "", s, s'.
    + apply IH in H' as (pre & s1 & rest & -> & Hm').
      exists (u +:+ pre), s1, rest. by rewrite Hs, append_assoc.
    + eauto.
  - destruct s as [|a t]; [by apply elem_of_nil in H|]. eauto.
Qed.

End field_blocks.

Section extracted_fields.
Import re.

Lemma search_sound r (s : string) gs :
  search r s = Some gs ->
  exists pre s1 rest, s = pre +:+ s1 /\ match_here r s1 = Some (rest, gs).
Proof.
  induction s as [|a s IH]; cbn [search]; intros H.
  - destruct (match_here r "") as [[rest g]|] eqn:Hm; [|done].
    injection H as ->. by exists "", "", rest.
  - destruct (match_here r (String a s)) as [[rest g]|] eqn:Hm.
    + injection H as ->. by exists "", (String a s), rest.
    + apply IH in H as (pre & s1 & rest & -> & Hm').
      by exists (String a pre), s1, rest.
Qed.

(** The text of a sql clause is a piece of the field body. *)
Lemma sql_match_shape (s rest : string) gs :
  match_here lookml.sql_re s = Some (rest, gs) ->
  exists w u, s = "sql:" +:+ w +:+ u +:+ ";" +:+ rest /\ gs = {[ 1 := u ]}.
Proof.
  unfold match_here, lookml.sql_re, ws, Not. intros H.
  rewrite exec_cat in H. apply exec_str_inv in H as (s1 & -> & H).
  rewrite exec_cat in H. apply exec_star_cls_inv in H as (w & s2 & -> & _ & H).
  rewrite exec_cat in H.
  apply exec_group_plus_cls_inv in H as (u & s3 & -> & _ & _ & H).
  apply exec_chr_inv in H as (s4 & -> & H). injection H as <- <-.
  by exists w, u.
Qed.

Lemma table_column_needs_brace (s : string) :
  pystr.contains_chr "}" s = false -> search lookml.table_column_re s = None.
Proof.
  intros Hs. destruct (search lookml.table_column_re s) as [gs|] eqn:H; [|done].
  apply search_sound in H as (pre & s1 & rest & -> & H).
  unfold match_here, lookml.table_column_re in H.
  rewrite exec_cat in H. apply exec_str_inv in H as (s2 & -> & _).
  rewrite !contains_chr_app in Hs. simpl in Hs.
  by rewrite orb_true_r in Hs.
Qed.

Lemma no_source_column_without_brace (field_block field_name field_type : string) :
  pystr.contains_chr "}" field_block = false ->
  lookml.source_column (lookml.parse_field_definition field_block field_name field_type)
  = None.
Proof.
  intros Hb. unfold lookml.parse_field_definition. cbn [lookml.source_column].
  destruct (search lookml.sql_re field_block) as [gs|] eqn:Hsql; [|done].
  cbn [fmap option_fmap option_map].
  destruct (pystr.nonempty _); [|done].
  rewrite table_column_needs_brace; [done|].
  apply strip_keeps_absent.
  apply search_sound in Hsql as (pre & s1 & rest & -> & Hm).
  apply sql_match_shape in Hm as (w & u & -> & ->).
  rewrite group_singleton.
  rewrite !contains_chr_app in Hb.
  repeat (apply orb_false_iff in Hb as [? Hb]). done.
Qed.

End extracted_fields.

(** X1.  Whatever the view text, in ASCII, each block that the extractor
    finds for a keyword lies in the text as keyword, colon, name, opening
    brace, body, closing brace; the name is a non-empty run of word
    characters, and the body is not empty and holds no closing brace: it
    always ends at the first closing brace after the opening one. *)
Theorem X1_blocks_end_at_first_closing_brace (keyword content name body : string) :
  all_chars is_ascii content = true ->
  (name, body) ∈ re.findall2 (lookml.block_re keyword) content ->
  name <> EmptyString /\ all_chars pystr.is_word name = true
  /\ body <> EmptyString /\ pystr.contains_chr "}" body = false
  /\ exists before w1 w2 after,
      all_chars pystr.is_space w1 = true /\ all_chars pystr.is_space w2 = true
      /\ content = before +:+ keyword +:+ ":" +:+ w1 +:+ name +:+ w2
                   +:+ "{" +:+ body +:+ "}" +:+ after.
Proof.
  unfold re.findall2. intros _ H.
  apply list_elem_of_fmap in H as (gs & Heq & H).
  apply findall_from_matches in H as (pre & s1 & rest & -> & Hm).
  apply block_match_shape in Hm
    as (w1 & n & w2 & b & -> & Hw1 & Hw2 & Hne & Hn & Hbne & Hb & ->).
  unfold re.group in Heq.
  rewrite lookup_insert_ne, lookup_insert_eq, lookup_insert_eq in Heq by done.
  injection Heq as -> ->.
  repeat (split; [done|]). by exists pre, w1, w2, rest.
Qed.

Lemma X1_witness :
  pystr.contains_chr "}" " type: number sql: ${TABLE" = false.
Proof.
  apply (X1_blocks_end_at_first_closing_brace "dimension"
           "dimension: amount { type: number sql: ${TABLE}.amt ;}" "amount");
    [reflexivity|].
  vm_compute. apply elem_of_cons. by left.
Defined.

(** X2.  Whatever the view text, in ASCII, no dimension and no measure
    that [parse_view_file] returns has a source column; each carries the
    table name of the view as its source table and a non-empty name made of
    word characters. *)
Theorem X2_parse_view_file_never_finds_a_source_column
    (stem content : string) (f : lookml.FieldLineage) :
  let view := lookml.parse_view_file stem content in
  all_chars is_ascii content = true ->
  f ∈ lookml.dimensions view ++ lookml.measures view ->
  lookml.source_column f = None
  /\ lookml.source_table f = lookml.sql_table_name view
  /\ lookml.field_name f <> EmptyString
  /\ all_chars pystr.is_word (lookml.field_name f) = true.
Proof.
  intros view _ Hf. subst view. unfold lookml.parse_view_file in *.
  cbn [lookml.dimensions lookml.measures lookml.sql_table_name] in *.
  apply elem_of_app in Hf as [Hf|Hf];
    apply list_elem_of_fmap in Hf as ([n b] & -> & Hin);
    unfold re.findall2 in Hin;
    apply list_elem_of_fmap in Hin as (gs & Heq & Hin);
    apply findall_from_matches in Hin as (pre & s1 & rest & _ & Hm);
    apply block_match_shape in Hm
      as (w1 & n' & w2 & b' & _ & _ & _ & Hne & Hn & _ & Hb & ->);
    unfold re.group in Heq;
    rewrite lookup_insert_ne, lookup_insert_eq, lookup_insert_eq in Heq by done;
    injection Heq as -> ->;
    cbn [lookml.set_source_table lookml.source_column lookml.source_table
         lookml.field_name];
    (split; [by apply no_source_column_without_brace|done]).
Qed.

Lemma X2_witness :
  lookml.source_column
    (lookml.mkFieldLineage "amount" "number" None None None) = None.
Proof.
  apply (X2_parse_view_file_never_finds_a_source_column "amount.view"
           "dimension: amount { type: number sql: ${TABLE}.amt ;}");
    [reflexivity|].
  vm_compute. apply elem_of_cons. by left.
Defined.

(** ** Entry identifiers and fully-qualified names *)

Section entry_ids.
Import pystr.

Lemma replace_chr_app a b (s t : string) :
  replace_chr a b (s +:+ t) = replace_chr a b s +:+ replace_chr a b t.
Proof. induction s as [|x s IH]; [done|]. rewrite !append_cons. simpl. by rewrite IH. Qed.

Lemma replace_chr_length a b (s : string) :
  String.length (replace_chr a b s) = String.length s.
Proof. induction s as [|x s IH]; [done|]. simpl. by rewrite IH. Qed.

Lemma replace_chr_removes a b (s : string) :
  a <> b -> contains_chr a (replace_chr a b s) = false.
Proof.
  intros Hab. induction s as [|x s IH]; [done|]. simpl.
  destruct (Ascii.eqb_spec x a) as [->|Hx].
  - destruct (Ascii.eqb_spec b a); [congruence|done].
  - destruct (Ascii.eqb_spec x a); [congruence|done].
Qed.

Lemma replace_chr_keeps_absent c a b (s : string) :
  c <> b -> contains_chr c s = false -> contains_chr c (replace_chr a b s) = false.
Proof.
  intros Hcb. induction s as [|x s IH]; [done|]. simpl.
  destruct (Ascii.eqb_spec x c) as [->|Hx]; [done|]. intros Hs.
  destruct (Ascii.eqb x a).
  - destruct (Ascii.eqb_spec b c); [congruence|by apply IH].
  - destruct (Ascii.eqb_spec x c); [congruence|by apply IH].
Qed.

Lemma after_last_absent c (s : string) : contains_chr c (after_last c s) = false.
Proof.
  induction s as [|a s IH]; [done|]. simpl.
  destruct (contains_chr c s) eqn:Hs; [done|].
  destruct (Ascii.eqb_spec a c) as [->|Hne]; [done|].
  simpl. by destruct (Ascii.eqb_spec a c).
Qed.

Lemma after_last_length c (s : string) :
  String.length (after_last c s) <= String.length s.
Proof.
  induction s as [|a s IH]; [done|]. simpl.
  destruct (contains_chr c s); [lia|]. destruct (Ascii.eqb a c); simpl; lia.
Qed.

End entry_ids.

(** X4.  The entry identifier derived from a fully-qualified name never
    holds a dot or a colon, whatever the name, and is never longer than the
    name. *)
Theorem X4_entry_id_has_no_dot_and_no_colon (entry_fqn : string) :
  let entry_id := ingest_views_only.entry_id_of_fqn entry_fqn in
  pystr.contains_chr "." entry_id = false
  /\ pystr.contains_chr ":" entry_id = false
  /\ String.length entry_id <= String.length entry_fqn.
Proof.
  cbv zeta. rewrite entry_id_of_fqn_after_last. split; [|split].
  - by apply replace_chr_removes.
  - apply replace_chr_keeps_absent; [done|apply after_last_absent].
  - rewrite replace_chr_length. apply after_last_length.
Qed.

(** X5.  For the entity types dashboard, explore and look the name built by
    [generate_looker_fqn] leads to the entry identifier
    mylooker-FOLDER-ENTITY (dots turned into dashes), the same for the three
    types.  So once the entry of a dashboard exists, the routine asked to
    create an explore or a look of the same folder and name skips it: it
    returns [True] and issues no create command. *)
Theorem X5_entity_type_is_not_in_the_entry_id {E} `{!Env E} (cfg : Config)
    (entity_type folder_id entity_id : string) :
  entity_type ∈ [ "dashboard"; "explore"; "look" ] ->
  pystr.contains_chr ":" folder_id = false ->
  pystr.contains_chr ":" entity_id = false ->
  let fqn := ingest_dashboards_only.generate_looker_fqn entity_type folder_id entity_id in
  ingest_views_only.entry_id_of_fqn fqn
  = "mylooker-" +:+ pystr.replace_chr "." "-" folder_id
    +:+ "-" +:+ pystr.replace_chr "." "-" entity_id
  /\ forall (w : World E) out entry_type aspect_data,
      describe_answer cfg
        (ingest_dashboards_only.generate_looker_fqn "dashboard" folder_id entity_id) w
      = Ret out ->
      let run :=
        ingest_dashboards_only.create_dataplex_entry_with_aspects cfg
          fqn entry_type aspect_data w in
      fst run = Ret true /\ create_calls (added w (snd run)) = 0.
Proof.
  intros Ht Hf He fqn.
  assert (forall t, t ∈ [ "dashboard"; "explore"; "look" ] ->
            ingest_views_only.entry_id_of_fqn
              (ingest_dashboards_only.generate_looker_fqn t folder_id entity_id)
            = "mylooker-" +:+ pystr.replace_chr "." "-" folder_id
              +:+ "-" +:+ pystr.replace_chr "." "-" entity_id) as Hid.
  { intros t Hin. rewrite entry_id_of_fqn_after_last.
    assert (exists kind,
               ingest_dashboards_only.generate_looker_fqn t folder_id entity_id
               = ("looker:" +:+ kind) +:+ String ":" ("mylooker." +:+ folder_id +:+ "." +:+ entity_id))
      as [kind ->].
    { each_member Hin; [by exists "dashboard"|by exists "explore"|by exists "look"]. }
    rewrite after_last_app.
    - change ("mylooker." +:+ folder_id +:+ "." +:+ entity_id)
        with ("mylooker" +:+ "." +:+ folder_id +:+ "." +:+ entity_id).
      by rewrite !replace_chr_app.
    - rewrite !contains_chr_app, Hf, He. done. }
  split; [by apply Hid|].
  intros w out entry_type aspect_data Hd run. subst run.
  rewrite dashboards_routine_same, create_entry_run. cbv zeta.
  unfold describe_answer in Hd. unfold fqn. rewrite (Hid entity_type Ht).
  rewrite (Hid "dashboard") in Hd by (apply elem_of_cons; by left).
  destruct (env_subprocess _ (env w)) as [d e1]. simpl in Hd. subst d.
  simpl. split; [done|]. by rewrite <- app_assoc, added_app.
Qed.

Lemma X5_witness :
  ingest_views_only.entry_id_of_fqn
    (ingest_dashboards_only.generate_looker_fqn "explore" "retail_banking" "account")
  = "mylooker-retail_banking-account".
Proof.
  apply (X5_entity_type_is_not_in_the_entry_id (E:=mock.t) sample_config
           "explore" "retail_banking" "account").
  - apply elem_of_cons. right. apply elem_of_cons. by left.
  - reflexivity.
  - reflexivity.
Defined.

(** ** Extraction of a block without inner braces *)

Section whole_blocks.
Import re.

Lemma space_not_word c : pystr.is_space c = true -> pystr.is_word c = false.
Proof.
  intros Hs. destruct (pystr.is_word c) eqn:Hw; [|done].
  apply word_not_space in Hw. congruence.
Qed.

Lemma stops_space_before_word (name rest : string) :
  name <> EmptyString -> all_chars pystr.is_word name = true ->
  stops pystr.is_space (name +:+ rest) = true.
Proof.
  destruct name as [|c name]; [done|]. simpl. intros _ H.
  apply andb_true_iff in H as [Hc _]. by rewrite (word_not_space c Hc).
Qed.

Lemma stops_word_before_brace (w2 rest : string) :
  all_chars pystr.is_space w2 = true ->
  stops pystr.is_word (w2 +:+ String "{" rest) = true.
Proof.
  destruct w2 as [|c w2]; [done|]. simpl. intros H.
  apply andb_true_iff in H as [Hc _]. by rewrite (space_not_word c Hc).
Qed.

Lemma exec_chr {A} c (s : string) gs (k : cont A) :
  exec (Chr c) (String c s) gs k = k s gs.
Proof. cbn [exec]. by rewrite Ascii.eqb_refl. Qed.

Lemma block_body_run (body v : string) gs :
  body <> EmptyString -> pystr.contains_chr "}" body = false ->
  exec (Cat (Group 2 (Cat (Plus (Cls (fun a => negb (Ascii.eqb a "}"))))
          (Star (Cat (Chr "{") (Cat (Star (Cls (fun a => negb (Ascii.eqb a "}"))))
             (Cat (Chr "}") (Star (Cls (fun a => negb (Ascii.eqb a "}"))))))))))
          (Chr "}"))
    (body +:+ String "}" v) gs (fun s' gs' => Some (s', gs'))
  = Some (v, <[2 := body]> gs).
Proof.
  intros Hne Hb. rewrite exec_cat, exec_group, exec_cat.
  apply exec_plus_cls; [done|by apply contains_chr_all|done|].
  rewrite exec_star, star_loop_stuck by done.
  rewrite consumed_app. cbn [exec]. by rewrite Ascii.eqb_refl.
Qed.

Lemma block_match_here (keyword w1 name w2 body after : string) :
  all_chars pystr.is_space w1 = true -> all_chars pystr.is_space w2 = true ->
  name <> EmptyString -> all_chars pystr.is_word name = true ->
  body <> EmptyString -> pystr.contains_chr "}" body = false ->
  match_here (lookml.block_re keyword)
    (keyword +:+ ":" +:+ w1 +:+ name +:+ w2 +:+ "{" +:+ body +:+ "}" +:+ after)
  = Some (after, <[2 := body]> (<[1 := name]> ∅)).
Proof.
  intros Hw1 Hw2 Hne Hn Hbne Hb.
  unfold match_here, lookml.block_re, ws, word, Not.
  rewrite exec_cat, exec_str, exec_cat.
  change (":" +:+ w1 +:+ name +:+ w2 +:+ "{" +:+ body +:+ "}" +:+ after)
    with (String ":" (w1 +:+ name +:+ w2 +:+ String "{" (body +:+ String "}" after))).
  rewrite exec_chr, exec_cat.
  apply exec_star_cls; [done|by apply stops_space_before_word|].
  rewrite exec_cat.
  apply exec_group_plus_cls; [done|done|by apply stops_word_before_brace|].
  rewrite exec_cat. apply exec_star_cls; [done|done|].
  rewrite exec_cat, exec_chr.
  by apply block_body_run.
Qed.

(** With fuel beyond the length of the text, [findall_from] does not depend
    on the fuel. *)
Lemma findall_from_fuel r f1 f2 (s : string) :
  String.length s < f1 -> String.length s < f2 ->
  findall_from f1 r s = findall_from f2 r s.
Proof.
  revert f2 s. induction f1 as [|f1 IH]; intros [|f2] s H1 H2; [lia..|].
  cbn [findall_from].
  destruct (match_here r s) as [[s' g]|] eqn:Hm.
  - destruct (exec_sound _ _ _ _ _ Hm) as (u & s'' & gs'' & Hs & Hk).
    injection Hk as -> ->.
    destruct (_ <? _)%nat eqn:Hlt.
    + apply Nat.ltb_lt in Hlt. f_equal. apply IH; lia.
    + destruct s as [|a t]; [done|]. f_equal. simpl in H1, H2. apply IH; lia.
  - destruct s as [|a t]; [done|]. simpl in H1, H2. apply IH; lia.
Qed.

End whole_blocks.

(** X3.  A block at the head of the text (keyword, colon, name of word
    characters, opening brace, a non-empty body without closing brace,
    closing brace) is extracted whole, as the pair of its name and body, and
    the extraction goes on with the text after its closing brace. *)
Theorem X3_block_without_inner_brace_is_extracted_whole
    (keyword w1 name w2 body after : string) :
  all_chars pystr.is_space w1 = true -> all_chars pystr.is_space w2 = true ->
  name <> EmptyString -> all_chars pystr.is_word name = true ->
  body <> EmptyString -> pystr.contains_chr "}" body = false ->
  re.findall2 (lookml.block_re keyword)
    (keyword +:+ ":" +:+ w1 +:+ name +:+ w2 +:+ "{" +:+ body +:+ "}" +:+ after)
  = (name, body) :: re.findall2 (lookml.block_re keyword) after.
Proof.
  intros Hw1 Hw2 Hne Hn Hbne Hb. unfold re.findall2.
  set (s := keyword +:+ ":" +:+ w1 +:+ name +:+ w2 +:+ "{" +:+ body +:+ "}" +:+ after).
  assert (String.length after < String.length s) as Hlen.
  { unfold s. rewrite !string_length_app. simpl. lia. }
  set (tail := re.findall_from (S (String.length after)) _ after).
  cbn [re.findall_from]. fold s.
  unfold s at 1. rewrite block_match_here by done. fold s.
  apply Nat.ltb_lt in Hlen as Hltb. rewrite Hltb.
  rewrite fmap_cons. unfold re.group at 1 2.
  rewrite lookup_insert_ne by done. rewrite !lookup_insert_eq. cbn [default].
  do 2 f_equal. subst tail. apply findall_from_fuel; lia.
Qed.

Lemma X3_witness :
  re.findall2 (lookml.block_re "measure")
    ("measure: total { type: sum }" +:+ " measure: n { type: count }")
  = ("total", " type: sum ")
      :: re.findall2 (lookml.block_re "measure") " measure: n { type: count }".
Proof.
  apply (X3_block_without_inner_brace_is_extracted_whole
           "measure" " " "total" " " " type: sum " " measure: n { type: count }");
    (reflexivity || discriminate).
Defined.

(* ===================================================================== *)
(** * The configuration module *)
(* ===================================================================== *)

Section env_file.
Import pystr.

Lemma strip_fixed (s : string) :
  strip s = s -> lstrip s = s /\ rstrip s = s.
Proof.
  unfold strip. intros H.
  destruct (lstrip_suffix s) as [u Hu].
  destruct (rstrip_prefix (lstrip s)) as [v Hv].
  rewrite H in Hv.
  assert (String.length s = String.length u + (String.length s + String.length v)) as Hlen.
  { rewrite Hu at 1. rewrite Hv at 1. by rewrite !string_length_app. }
  assert (u = "") as -> by (destruct u; [done|simpl in Hlen; lia]).
  change ("" +:+ lstrip s) with (lstrip s) in Hu.
  rewrite <- Hu in H. by rewrite <- Hu.
Qed.

Lemma lstrip_spaces (p s : string) :
  all_chars is_space p = true -> lstrip (p +:+ s) = lstrip s.
Proof.
  induction p as [|a p IH]; [done|]. simpl. intros H.
  apply andb_true_iff in H as [Ha Hp].
  change (String a p +:+ s) with (String a (p +:+ s)). simpl.
  by rewrite Ha, IH.
Qed.

Lemma rstrip_all_spaces (p : string) :
  all_chars is_space p = true -> rstrip p = "".
Proof.
  induction p as [|a p IH]; [done|]. simpl. intros H.
  apply andb_true_iff in H as [Ha Hp]. by rewrite (IH Hp), Ha.
Qed.

Lemma rstrip_spaces (s p : string) :
  all_chars is_space p = true -> rstrip (s +:+ p) = rstrip s.
Proof.
  intros Hp. induction s as [|a s IH]; [by apply rstrip_all_spaces|].
  rewrite append_cons. cbn [rstrip]. by rewrite IH.
Qed.

Lemma rstrip_fixed_app (u v : string) :
  v <> "" -> rstrip v = v -> rstrip (u +:+ v) = u +:+ v.
Proof.
  intros Hv Hfix. rewrite rstrip_keeps_prefix; rewrite Hfix; done.
Qed.

Lemma split_once_app c (k v : string) :
  contains_chr c k = false -> split_once c (k +:+ String c v) = (k, v).
Proof.
  induction k as [|a k IH]; intros Hk.
  - change ("" +:+ String c v) with (String c v). simpl.
    by rewrite Ascii.eqb_refl.
  - simpl in Hk. destruct (Ascii.eqb a c) eqn:Hac; [discriminate|].
    rewrite append_cons. simpl. by rewrite Hac, (IH Hk).
Qed.

Lemma spaces_hold_no c (p : string) :
  is_space c = false -> all_chars is_space p = true -> contains_chr c p = false.
Proof.
  intros Hc. induction p as [|a p IH]; [done|]. simpl. intros H.
  apply andb_true_iff in H as [Ha Hp].
  destruct (Ascii.eqb_spec a c) as [->|_]; [congruence|by apply IH].
Qed.

Lemma strip_padded (p1 s p2 : string) :
  all_chars is_space p1 = true -> all_chars is_space p2 = true ->
  strip s = s -> strip (p1 +:+ s +:+ p2) = s.
Proof.
  intros Hp1 Hp2 Hs. apply strip_fixed in Hs as [Hl Hr].
  unfold strip. rewrite lstrip_spaces by done.
  destruct s as [|a s].
  - change ("" +:+ p2) with p2.
    destruct (lstrip_suffix p2) as [u Hu].
    apply rstrip_all_spaces.
    rewrite Hu, all_chars_app in Hp2. by apply andb_true_iff in Hp2 as [_ ?].
  - rewrite append_cons. simpl in Hl |- *.
    destruct (is_space a); [|by rewrite <- append_cons, rstrip_spaces].
    exfalso. destruct (lstrip_suffix s) as [u Hu].
    assert (String.length (lstrip s) = S (String.length s)) as Hlen by by rewrite Hl.
    rewrite Hu in Hlen at 2. rewrite string_length_app in Hlen. lia.
Qed.

End env_file.

(** X6.  A line of the [.env] file of the form  key = value  sets the
    variable, whatever the process environment held for it: blanks around
    the line, the key and the value are dropped, and the line is cut at its
    first equals sign only, so that the value may itself hold equals signs
    (and keeps any quotes written around it).  The key is any non-empty
    ASCII text without blanks at its ends, without an equals sign, not
    starting with the comment sign; the value is in ASCII too, and neither
    holds a NUL. *)
Theorem X6_env_file_line_sets_the_variable
    (pad1 key pad2 pad3 value pad4 : string) (environ : gmap string string) :
  all_chars pystr.is_space pad1 = true -> all_chars pystr.is_space pad2 = true ->
  all_chars pystr.is_space pad3 = true -> all_chars pystr.is_space pad4 = true ->
  all_chars is_ascii key = true -> all_chars is_ascii value = true ->
  key <> "" -> pystr.strip key = key -> pystr.strip value = value ->
  pystr.startswith_chr "#" key = false ->
  pystr.contains_chr "=" key = false ->
  pystr.contains_chr "000" key = false -> pystr.contains_chr "000" value = false ->
  config.load_env_line
    (pad1 +:+ key +:+ pad2 +:+ "=" +:+ pad3 +:+ value +:+ pad4) environ
  = Ret (<[key := value]> environ).
Proof.
  intros Hp1 Hp2 Hp3 Hp4 _ _ Hkey Hk Hv Hhash Heq Hnul_k Hnul_v.
  unfold config.load_env_line.
  set (rest := if pystr.nonempty value then pad3 +:+ value else "").
  assert (pystr.strip (pad1 +:+ key +:+ pad2 +:+ "=" +:+ pad3 +:+ value +:+ pad4)
          = (key +:+ pad2) +:+ String "=" rest) as ->.
  { unfold pystr.strip. rewrite lstrip_spaces by done.
    destruct (strip_fixed key Hk) as [Hlk _].
    assert (pystr.lstrip (key +:+ pad2 +:+ "=" +:+ pad3 +:+ value +:+ pad4)
            = key +:+ pad2 +:+ "=" +:+ pad3 +:+ value +:+ pad4) as ->.
    { destruct key as [|a key]; [done|]. rewrite append_cons. simpl in Hlk |- *.
      destruct (pystr.is_space a); [|done].
      exfalso. destruct (lstrip_suffix key) as [u Hu].
      assert (String.length (pystr.lstrip key) = S (String.length key)) as Hlen
        by by rewrite Hlk.
      rewrite Hu in Hlen at 2. rewrite string_length_app in Hlen. lia. }
    rewrite <- !append_assoc. rewrite (rstrip_spaces _ pad4) by done.
    rewrite !append_assoc. subst rest.
    destruct (strip_fixed value Hv) as [_ Hrv].
    destruct value as [|b value]; cbn [pystr.nonempty].
    - rewrite append_nil_r.
      rewrite <- (append_assoc key), <- (append_assoc (key +:+ pad2)).
      rewrite (rstrip_spaces _ pad3) by done.
      rewrite rstrip_fixed_app by done. by rewrite append_assoc.
    - rewrite <- (append_assoc key), <- (append_assoc (key +:+ pad2)),
        <- (append_assoc ((key +:+ pad2) +:+ "=")).
      rewrite rstrip_fixed_app by done.
      by rewrite !append_assoc. }
  assert (pystr.nonempty ((key +:+ pad2) +:+ String "=" rest) = true) as ->.
  { destruct key; [done|]. by rewrite !append_cons. }
  assert (pystr.startswith_chr "#" ((key +:+ pad2) +:+ String "=" rest) = false) as ->.
  { destruct key; [done|]. by rewrite !append_cons. }
  assert (pystr.contains_chr "=" ((key +:+ pad2) +:+ String "=" rest) = true) as ->.
  { rewrite contains_chr_app. simpl. by rewrite orb_true_r. }
  cbn [andb negb].
  rewrite split_once_app
    by (rewrite contains_chr_app, Heq; simpl; by apply spaces_hold_no).
  rewrite (strip_padded "" key pad2 eq_refl Hp2 Hk : pystr.strip (key +:+ pad2) = key).
  assert (pystr.strip rest = value) as ->.
  { subst rest. destruct value as [|b value]; [done|]. cbn [pystr.nonempty].
    rewrite <- (append_nil_r (String b value)) at 1.
    exact (strip_padded pad3 (String b value) "" Hp3 eq_refl Hv). }
  unfold config.setenv. rewrite Hnul_k, Hnul_v. simpl.
  destruct key; [done|]. done.
Qed.

Lemma X6_witness :
  config.load_env_line "  GCP_PROJECT_ID = my=project  "
    {[ "GCP_PROJECT_ID" := "from-the-shell" ]}
  = Ret (<[ "GCP_PROJECT_ID" := "my=project" ]> {[ "GCP_PROJECT_ID" := "from-the-shell" ]}).
Proof.
  apply (X6_env_file_line_sets_the_variable "  " "GCP_PROJECT_ID" " " " " "my=project" "  ");
    first [reflexivity | discriminate].
Defined.

Section settings.
Import config.

Lemma get_env_var_required (name : string) (fallback : option string)
    (environ : gmap string string) :
  get_env_var name fallback true environ
  = match (match environ !! name with Some v => Some v | None => fallback end) with
    | Some (String a v) => Ret (Some (String a v))
    | _ => Raise (ValueError ("Required environment variable '" +:+ name
                              +:+ "' is not set. Please set it in your .env file or environment."))
    end.
Proof.
  unfold get_env_var.
  destruct (environ !! name) as [[|a v]|]; [done|done|].
  by destruct fallback as [[|a v]|].
Qed.

End settings.

(** X7.  Importing the configuration succeeds exactly when the [.env] file
    loads, GCP_PROJECT_ID is set to a non-empty text, and none of the four
    settings with a default is set to the empty text.  Each setting is then
    the value of its variable, or its default when the variable is unset,
    and none of the five is empty; DEBUG is on exactly when its variable,
    in lower case, reads true. *)
Theorem X7_import_succeeds_with_non_empty_settings
    (dotenv : option (list string)) (environ : gmap string string)
    (cfg : Config) (bq_dataset : string) (debug : bool) :
  config.load dotenv environ = Ret (cfg, bq_dataset, debug)
  <-> exists environ',
        config.load_env_file dotenv environ = Ret environ'
        /\ environ' !! "GCP_PROJECT_ID" = Some (PROJECT_ID cfg)
        /\ PROJECT_ID cfg <> ""
        /\ LOCATION cfg = setting environ' "GCP_LOCATION" "eu"
        /\ LOCATION cfg <> ""
        /\ ENTRY_GROUP cfg = setting environ' "DATAPLEX_ENTRY_GROUP" "looker"
        /\ ENTRY_GROUP cfg <> ""
        /\ LOOKER_INSTANCE_ID cfg = setting environ' "LOOKER_INSTANCE_ID" "mylooker"
        /\ LOOKER_INSTANCE_ID cfg <> ""
        /\ bq_dataset = setting environ' "BQ_DATASET" "retail_banking"
        /\ bq_dataset <> ""
        /\ debug = String.eqb (pystr.lower (setting environ' "DEBUG" "false")) "true".
Proof.
  unfold config.load, setting.
  destruct (config.load_env_file dotenv environ) as [environ'|e]; cycle 1.
  { split; [discriminate|]. by intros (? & ? & _). }
  rewrite !get_env_var_required. unfold config.get_env_var. cbn [andb].
  split.
  - intros H. exists environ'. split; [done|].
    destruct (environ' !! "GCP_PROJECT_ID") as [[|a1 v1]|]; try discriminate H.
    destruct (environ' !! "GCP_LOCATION") as [[|a2 v2]|]; try discriminate H;
    destruct (environ' !! "DATAPLEX_ENTRY_GROUP") as [[|a3 v3]|]; try discriminate H;
    destruct (environ' !! "LOOKER_INSTANCE_ID") as [[|a4 v4]|]; try discriminate H;
    destruct (environ' !! "BQ_DATASET") as [[|a5 v5]|]; try discriminate H;
    destruct (environ' !! "DEBUG") as [d|];
    cbn [default] in H |- *; injection H as <- <- <-; cbn [PROJECT_ID LOCATION ENTRY_GROUP LOOKER_INSTANCE_ID];
    repeat split; done.
  - intros (env2 & [= <-] & Hp & Hpn & Hl & Hln & Hg & Hgn & Hi & Hin & Hb & Hbn & Hd).
    destruct cfg as [p l g i]. cbn [PROJECT_ID LOCATION ENTRY_GROUP LOOKER_INSTANCE_ID] in *.
    rewrite Hp. destruct p as [|a1 v1]; [done|]. cbn [default].
    assert (forall name fallback value,
               value = default fallback (environ' !! name) -> value <> "" ->
               match (match environ' !! name with Some v => Some v | None => Some fallback end) with
               | Some (String a v) => Some (@Ret (option string) (Some (String a v)))
               | _ => None
               end = Some (Ret (Some value))) as Hset.
    { intros name fallback value -> Hne.
      destruct (environ' !! name) as [[|a v]|]; cbn [default] in *; try done.
      by destruct fallback. }
    pose proof (Hset _ _ _ Hl Hln) as H2. pose proof (Hset _ _ _ Hg Hgn) as H3.
    pose proof (Hset _ _ _ Hi Hin) as H4. pose proof (Hset _ _ _ Hb Hbn) as H5.
    clear Hset.
    destruct (match environ' !! "GCP_LOCATION" with Some v => Some v | None => Some "eu" end)
      as [[|a2 v2]|]; try discriminate H2. injection H2 as ->.
    destruct (match environ' !! "DATAPLEX_ENTRY_GROUP" with Some v => Some v | None => Some "looker" end)
      as [[|a3 v3]|]; try discriminate H3. injection H3 as ->.
    destruct (match environ' !! "LOOKER_INSTANCE_ID" with Some v => Some v | None => Some "mylooker" end)
      as [[|a4 v4]|]; try discriminate H4. injection H4 as ->.
    destruct (match environ' !! "BQ_DATASET" with Some v => Some v | None => Some "retail_banking" end)
      as [[|a5 v5]|]; try discriminate H5. injection H5 as ->.
    cbn [default]. rewrite Hd.
    by destruct (environ' !! "DEBUG").
Qed.

(** X8.  A variable that is set, but to the empty text, makes the import
    fail with a ValueError, even when the setting has a default: the default
    only stands in for a variable that is not set at all.  The same error is
    raised when GCP_PROJECT_ID, which has no default, is not set. *)
Theorem X8_empty_variable_is_rejected_not_defaulted
    (dotenv : option (list string)) (environ environ' : gmap string string)
    (name : string) :
  config.load_env_file dotenv environ = Ret environ' ->
  (name ∈ "GCP_PROJECT_ID" :: defaulted_settings /\ environ' !! name = Some "")
  \/ (name = "GCP_PROJECT_ID" /\ environ' !! name = None) ->
  exists var_name,
    config.load dotenv environ
    = Raise (ValueError ("Required environment variable '" +:+ var_name
                         +:+ "' is not set. Please set it in your .env file or environment.")).
Proof.
  intros Hfile Hname. unfold config.load. rewrite Hfile.
  rewrite !get_env_var_required.
  destruct (environ' !! "GCP_PROJECT_ID") as [[|a1 v1]|] eqn:H1; [by eexists|..|by eexists].
  destruct (environ' !! "GCP_LOCATION") as [[|a2 v2]|] eqn:H2; [by eexists|..];
  (destruct (environ' !! "DATAPLEX_ENTRY_GROUP") as [[|a3 v3]|] eqn:H3; [by eexists|..]);
  (destruct (environ' !! "LOOKER_INSTANCE_ID") as [[|a4 v4]|] eqn:H4; [by eexists|..]);
  (destruct (environ' !! "BQ_DATASET") as [[|a5 v5]|] eqn:H5; [by eexists|..]);
  exfalso; destruct Hname as [[Hin Hempty]|[-> Hnone]]; try congruence;
  unfold defaulted_settings in Hin; each_member Hin; congruence.
Qed.

Lemma X8_witness :
  exists var_name,
    config.load (Some [ "GCP_PROJECT_ID=my-project"; "GCP_LOCATION=" ]) ∅
    = Raise (ValueError ("Required environment variable '" +:+ var_name
                         +:+ "' is not set. Please set it in your .env file or environment.")).
Proof.
  apply (X8_empty_variable_is_rejected_not_defaulted
           (Some [ "GCP_PROJECT_ID=my-project"; "GCP_LOCATION=" ]) ∅
           (<[ "GCP_LOCATION" := "" ]> {[ "GCP_PROJECT_ID" := "my-project" ]})
           "GCP_LOCATION").
  - vm_compute. reflexivity.
  - left. split; [|reflexivity].
    apply elem_of_cons. right. apply elem_of_cons. by left.
Defined.

(* ===================================================================== *)
(** * The relationship linker, further *)
(* ===================================================================== *)

Section listing.
Import create_structural_links.

Lemma parse_entries_from (entries : list (list (string * string)))
    (d0 e0 v0 : list entry_ref) :
  foldl
    (fun '(dashboards, explores, views) entry =>
       let entry_type := entry_field "entryType" entry in
       let entry_name := pystr.last_item (pystr.split_chr "/" (entry_field "name" entry)) in
       let fqn := entry_field "fullyQualifiedName" entry in
       if pystr.contains_str "looker-dashboard" entry_type then
         (dashboards ++ [ mkEntryRef entry_name fqn ], explores, views)
       else if pystr.contains_str "looker-explore" entry_type then
         (dashboards, explores ++ [ mkEntryRef entry_name fqn ], views)
       else if pystr.contains_str "looker-view" entry_type then
         (dashboards, explores, views ++ [ mkEntryRef entry_name fqn ])
       else (dashboards, explores, views))
    (d0, e0, v0) entries
  = (d0 ++ filed "dashboard" entries, e0 ++ filed "explore" entries,
     v0 ++ filed "view" entries).
Proof.
  match goal with |- foldl ?f _ _ = _ => set (step := f) end.
  assert (forall kind entry entries',
             filed kind (entry :: entries') = filed kind [entry] ++ filed kind entries')
    as Hcons.
  { intros kind entry entries'. unfold filed. rewrite <- fmap_app. f_equal.
    rewrite !filter_cons, filter_nil. by destruct (decide _). }
  revert d0 e0 v0. induction entries as [|entry entries IH]; intros d0 e0 v0.
  - unfold filed. simpl. by rewrite !app_nil_r.
  - cbn [foldl].
    assert (step (d0, e0, v0) entry
            = (d0 ++ filed "dashboard" [entry], e0 ++ filed "explore" [entry],
               v0 ++ filed "view" [entry])) as ->.
    { subst step. cbv beta iota zeta. unfold filed. rewrite !filter_cons, !filter_nil.
      unfold filed_as. rewrite last_split_chr. fold (ref_of entry).
      destruct (pystr.contains_str "looker-dashboard" (entry_field "entryType" entry)).
      { rewrite decide_True by done. rewrite !decide_False by done.
        by rewrite !app_nil_r. }
      destruct (pystr.contains_str "looker-explore" (entry_field "entryType" entry)).
      { rewrite decide_False by done. rewrite decide_True by done.
        rewrite decide_False by done. by rewrite !app_nil_r. }
      destruct (pystr.contains_str "looker-view" (entry_field "entryType" entry)).
      { rewrite !decide_False by done. rewrite decide_True by done.
        by rewrite !app_nil_r. }
      rewrite !decide_False by done. by rewrite !app_nil_r. }
    rewrite IH, !(Hcons _ entry entries). by rewrite <- !app_assoc.
Qed.

Lemma filed_lengths (entries : list (list (string * string))) :
  length (filed "dashboard" entries) + length (filed "explore" entries)
  + length (filed "view" entries) <= length entries.
Proof.
  unfold filed. rewrite !length_fmap.
  induction entries as [|entry entries IH]; [done|].
  rewrite !filter_cons.
  destruct (filed_as (entry_field "entryType" entry)) as [|a k] eqn:Hk.
  - rewrite !decide_False by done. simpl. lia.
  - destruct (decide (String a k = "dashboard")) as [Hd|Hd].
    { rewrite Hd. rewrite !decide_False by done. simpl. lia. }
    destruct (decide (String a k = "explore")) as [He|He].
    { rewrite He. rewrite !decide_False by done. simpl. lia. }
    destruct (decide (String a k = "view")); simpl; lia.
Qed.

End listing.

(** X9.  [parse_entries_by_type] files each entry of the listing under the
    first of dashboard, explore, view that its type names, and under none
    when it names none: the three lists keep the order of the listing, no
    entry is in two of them, and an entry whose type names several kinds
    goes to the first.  The id kept of an entry is what follows the last
    slash of its name, so it never holds a slash. *)
Theorem X9_entries_are_filed_by_first_matching_type
    (entries : list (list (string * string))) :
  create_structural_links.parse_entries_by_type entries
  = (filed "dashboard" entries, filed "explore" entries, filed "view" entries)
  /\ length (filed "dashboard" entries) + length (filed "explore" entries)
     + length (filed "view" entries) <= length entries
  /\ forall kind r,
       r ∈ filed kind entries ->
       pystr.contains_chr "/" (create_structural_links.id r) = false.
Proof.
  split; [|split].
  - unfold create_structural_links.parse_entries_by_type.
    by rewrite parse_entries_from.
  - apply filed_lengths.
  - intros kind r Hr. unfold filed in Hr.
    apply list_elem_of_fmap in Hr as (entry & -> & _).
    apply after_last_absent.
Qed.

Lemma replace_chr_absent a b (s : string) :
  pystr.contains_chr a s = false -> pystr.replace_chr a b s = s.
Proof.
  induction s as [|x s IH]; [done|]. simpl.
  destruct (Ascii.eqb x a); [discriminate|]. intros H. by rewrite (IH H).
Qed.

(** X10.  The views ingester registers a view under the entry id derived
    from its custom name, and the linker looks the view up under
    INSTANCE-retail_banking-VIEW.  With an instance id free of dots and
    colons, the two identifiers are the same exactly when the view name
    holds no dot and no colon; a view named otherwise is registered under an
    id that the linker never asks for. *)
Theorem X10_linker_and_ingester_agree_on_view_ids (cfg : Config) (view_name : string) :
  pystr.contains_chr "." (LOOKER_INSTANCE_ID cfg) = false ->
  pystr.contains_chr ":" (LOOKER_INSTANCE_ID cfg) = false ->
  exists view_fqn,
    ingest_views_only.generate_custom_fqn "view"
      [ LOOKER_INSTANCE_ID cfg; "retail_banking"; view_name ] = Ret view_fqn
    /\ (ingest_views_only.entry_id_of_fqn view_fqn
        = create_structural_links.view_id_of cfg view_name
        <-> pystr.contains_chr "." view_name = false
            /\ pystr.contains_chr ":" view_name = false).
Proof.
  intros Hdot Hcolon. eexists. split; [reflexivity|].
  rewrite entry_id_of_fqn_after_last. unfold create_structural_links.view_id_of.
  split.
  - intros Heq. split.
    + assert (pystr.contains_chr "."
                (LOOKER_INSTANCE_ID cfg +:+ "-retail_banking-" +:+ view_name) = false) as H.
      { rewrite <- Heq. by apply replace_chr_removes. }
      rewrite !contains_chr_app in H.
      by apply orb_false_iff in H as [_ [_ H]%orb_false_iff].
    + assert (pystr.contains_chr ":"
                (LOOKER_INSTANCE_ID cfg +:+ "-retail_banking-" +:+ view_name) = false) as H.
      { rewrite <- Heq. apply replace_chr_keeps_absent; [done|apply after_last_absent]. }
      rewrite !contains_chr_app in H.
      by apply orb_false_iff in H as [_ [_ H]%orb_false_iff].
  - intros [Hvdot Hvcolon].
    change ("custom:looker.view:" +:+ LOOKER_INSTANCE_ID cfg +:+ "." +:+ "retail_banking"
            +:+ "." +:+ view_name)
      with ("custom:looker.view" +:+ String ":" (LOOKER_INSTANCE_ID cfg +:+ "."
            +:+ "retail_banking" +:+ "." +:+ view_name)).
    rewrite after_last_app
      by (rewrite !contains_chr_app, Hcolon, Hvcolon; reflexivity).
    rewrite !replace_chr_app.
    rewrite (replace_chr_absent _ _ _ Hdot), (replace_chr_absent _ _ _ Hvdot).
    reflexivity.
Qed.

Lemma X10_witness :
  exists view_fqn,
    ingest_views_only.generate_custom_fqn "view" [ "mylooker"; "retail_banking"; "card.v2" ]
    = Ret view_fqn
    /\ (ingest_views_only.entry_id_of_fqn view_fqn
        = create_structural_links.view_id_of sample_config "card.v2"
        <-> pystr.contains_chr "." "card.v2" = false
            /\ pystr.contains_chr ":" "card.v2" = false).
Proof.
  apply (X10_linker_and_ingester_agree_on_view_ids sample_config "card.v2"); reflexivity.
Defined.

(** ** One link *)

Lemma count_events_app p (l1 l2 : list event) :
  count_events p (l1 ++ l2) = count_events p l1 + count_events p l2.
Proof. unfold count_events. by rewrite filter_app, length_app. Qed.

Lemma count_events_cons p ev (l : list event) :
  count_events p (ev :: l) = (if p ev then 1 else 0) + count_events p l.
Proof.
  unfold count_events. rewrite filter_cons.
  destruct (p ev); [by rewrite decide_True|by rewrite decide_False].
Qed.

Lemma count_events_nil p : count_events p [] = 0.
Proof. done. Qed.

Lemma added_events {E} (w w' : World E) l : trace w' = trace w ++ l -> added w w' = l.
Proof. unfold added. intros ->. by rewrite drop_app_length. Qed.

Ltac settle_status :=
  repeat match goal with
         | H : status_code ?r <> ?n |- _ => apply Z.eqb_neq in H; rewrite ?H
         end;
  repeat match goal with
         | H : status_code ?r = _ |- _ => rewrite !H
         end.

Section one_link.
Context {E : Type} `{!Env E} (cfg : Config).
Import create_structural_links.

Lemma create_entry_link_events
    (source_entry_id target_entry_id link_type description : string) (w : World E) :
  let run := create_entry_link cfg source_entry_id target_entry_id link_type description w in
  exists l,
    trace (snd run) = trace w ++ l
    /\ count_events is_http l <= 1
    /\ (fst run = Ret true -> count_events is_accepted l = 1)
    /\ (fst run <> Ret true -> count_events is_accepted l = 0)
    /\ (count_events is_http l = 1 ->
        exists out1 out2 out3 rest,
          l = Subprocess (describe_args cfg source_entry_id) (Ret out1)
              :: Subprocess (describe_args cfg target_entry_id) (Ret out2)
              :: Subprocess [ "gcloud"; "auth"; "print-access-token" ] (Ret out3)
              :: rest
          /\ pystr.strip out3 <> "").
Proof.
  intros run. subst run.
  unfold create_entry_link, verify_entry_exists, run_gcloud_command, get_access_token.
  unfold_M. run_world.
  all: eexists; (split; [rewrite <- ?app_assoc; try reflexivity|]).
  all: try (rewrite app_nil_r; reflexivity).
  all: rewrite ?count_events_cons, ?count_events_nil; cbn [is_http is_accepted String.eqb];
    settle_status; simpl.
  all: repeat split; intros; try lia; try congruence.
  all: try (do 4 eexists; split; [reflexivity|congruence]).
Qed.

End one_link.

(** X11.  One call of [create_entry_link] sends at most one HTTP request.
    It returns [True] exactly when that request, a POST, was answered with
    status 200 or 409.  A request is sent only after the describe commands
    of the source and of the target entry and the token command have all
    succeeded, in this order, and the token is not blank. *)
Theorem X11_one_link_call_one_request_at_most {E} `{!Env E} (cfg : Config)
    (source_entry_id target_entry_id link_type description : string) (w : World E) :
  let run :=
    create_structural_links.create_entry_link cfg
      source_entry_id target_entry_id link_type description w in
  count_events is_http (added w (snd run)) <= 1
  /\ (fst run = Ret true <-> count_events is_accepted (added w (snd run)) = 1)
  /\ (count_events is_http (added w (snd run)) = 1 ->
      exists out1 out2 out3 rest,
        added w (snd run)
        = Subprocess (create_structural_links.describe_args cfg source_entry_id) (Ret out1)
          :: Subprocess (create_structural_links.describe_args cfg target_entry_id) (Ret out2)
          :: Subprocess [ "gcloud"; "auth"; "print-access-token" ] (Ret out3)
          :: rest
        /\ pystr.strip out3 <> "").
Proof.
  intros run.
  destruct (create_entry_link_events cfg source_entry_id target_entry_id
              link_type description w) as (l & Htrace & Hhttp & Htrue & Hfalse & Hpre).
  fold run in Htrace, Htrue, Hfalse.
  rewrite (added_events _ _ _ Htrace).
  split; [done|split; [|done]].
  split; [done|]. intros Hone.
  destruct (fst run) as [[|]|e] eqn:Hr; [done|..].
  - rewrite Hfalse in Hone by done. discriminate.
  - rewrite Hfalse in Hone by done. discriminate.
Qed.

Lemma X11_witness :
  let w := mock.world (mock.healthy [ "d1"; "e1" ]) in
  let run := create_structural_links.create_entry_link sample_config "d1" "e1" "uses" "" w in
  fst run = Ret true <-> count_events is_accepted (added w (snd run)) = 1.
Proof.
  intros w run.
  exact (proj1 (proj2 (X11_one_link_call_one_request_at_most
                         sample_config "d1" "e1" "uses" "" w))).
Defined.

(** ** The three loops *)

Section loops.
Context {E : Type} `{!Env E} (cfg : Config).
Import create_structural_links.

Lemma counts_ret (acc : nat) : counts (ret (E:=E) acc) acc.
Proof.
  intros w. exists []. simpl. rewrite app_nil_r. split; [done|].
  intros n [= <-]. rewrite count_events_nil. lia.
Qed.

Lemma counts_link (source_entry_id target_entry_id link_type description : string)
    (acc : nat) :
  counts
    (created ←
       create_entry_link cfg source_entry_id target_entry_id link_type description;
     mret (if (created : bool) then S acc else acc))
    acc.
Proof.
  intros w.
  destruct (create_entry_link_events cfg source_entry_id target_entry_id
              link_type description w) as (l & Htrace & _ & Htrue & Hfalse & _).
  exists l. unfold mbind, M_bind, bind, mret, M_ret, ret.
  destruct (create_entry_link cfg source_entry_id target_entry_id link_type description w)
    as [[[|]|e] w1]; simpl in *.
  - split; [done|]. intros n [= <-]. rewrite Htrue by done. lia.
  - split; [done|]. intros n [= <-]. rewrite Hfalse by done. lia.
  - split; [done|]. discriminate.
Qed.

Lemma counts_for_each {A} (items : list A) (body : A -> nat -> M E nat) (acc : nat) :
  (forall x acc', counts (body x acc') acc') ->
  counts (for_each items body acc) acc.
Proof.
  intros Hbody. revert acc.
  induction items as [|x items IH]; intros acc; [apply counts_ret|].
  intros w. cbn [for_each]. unfold bind.
  destruct (Hbody x acc w) as (l1 & Ht1 & Hn1).
  destruct (body x acc w) as [[n1|e] w1]; simpl in *.
  - destruct (IH n1 w1) as (l2 & Ht2 & Hn2).
    exists (l1 ++ l2). split; [by rewrite Ht2, Ht1, app_assoc|].
    intros n Hn. rewrite count_events_app.
    rewrite (Hn2 n Hn), (Hn1 n1 eq_refl). lia.
  - exists l1. split; [done|]. discriminate.
Qed.

Lemma counts_link_explore explore_map dashboard_id explore_id acc :
  counts (link_explore cfg explore_map dashboard_id explore_id acc) acc.
Proof.
  unfold link_explore. destruct (explore_map !! explore_id); [|apply counts_ret].
  apply counts_link.
Qed.

Lemma counts_link_view view_map explore_id view_id acc :
  counts (link_view cfg view_map explore_id view_id acc) acc.
Proof.
  unfold link_view. destruct (view_map !! view_id); [|apply counts_ret].
  apply counts_link.
Qed.

Lemma counts_link_table view_map row acc :
  counts (link_table cfg view_map row acc) acc.
Proof.
  unfold link_table. destruct row as [view_name table_path].
  destruct (view_map !! view_id_of cfg view_name); [|apply counts_ret].
  apply counts_link.
Qed.

Lemma counts_link_dashboard dashboard_map explore_map row acc :
  counts (link_dashboard cfg dashboard_map explore_map row acc) acc.
Proof.
  unfold link_dashboard. destruct row as [dashboard_id explore_ids].
  destruct (dashboard_map !! dashboard_id); [|apply counts_ret].
  apply counts_for_each. intros x acc'. apply counts_link_explore.
Qed.

Lemma counts_link_explore_views explore_map view_map row acc :
  counts (link_explore_views cfg explore_map view_map row acc) acc.
Proof.
  unfold link_explore_views. destruct row as [explore_id view_ids].
  destruct (explore_map !! explore_id); [|apply counts_ret].
  apply counts_for_each. intros x acc'. apply counts_link_view.
Qed.

(** A loop between its two heading lines and its summary line. *)
Lemma counts_framed (head1 head2 : string) (summary : nat -> string) (loop : M E nat) :
  counts loop 0 ->
  counts
    (print head1;; print head2;;
     links_created ← loop;
     print (summary links_created);;
     mret links_created)
    0.
Proof.
  intros Hloop w. unfold_M.
  set (w0 := {| env := env w; files := files w;
                trace := (trace w ++ [Print head1]) ++ [Print head2] |}).
  destruct (Hloop w0) as (l & Ht & Hn).
  destruct (loop w0) as [[n|e] w1]; simpl in *.
  - exists ([Print head1; Print head2] ++ l ++ [Print (summary n)]).
    split; [rewrite Ht; by rewrite <- !app_assoc|].
    intros n' [= <-]. rewrite (Hn n eq_refl) at 1.
    rewrite !count_events_app, !count_events_cons, count_events_nil. simpl. lia.
  - exists ([Print head1; Print head2] ++ l).
    split; [rewrite Ht; by rewrite <- !app_assoc|]. discriminate.
Qed.

Lemma dashboard_links_count dashboards explores :
  counts (create_dashboard_to_explore_links cfg dashboards explores) 0.
Proof.
  unfold create_dashboard_to_explore_links, link_dashboards_to_explores.
  apply (counts_framed _ _
           (fun n => "  📊 Created " +:+ str_of_Z (Z.of_nat n) +:+ " dashboard → explore links")).
  apply counts_for_each. intros x acc. apply counts_link_dashboard.
Qed.

Lemma view_links_count explores views :
  counts (create_explore_to_view_links cfg explores views) 0.
Proof.
  unfold create_explore_to_view_links.
  apply (counts_framed _ _
           (fun n => "  📊 Created " +:+ str_of_Z (Z.of_nat n) +:+ " explore → view links")).
  apply counts_for_each. intros x acc. apply counts_link_explore_views.
Qed.

Lemma table_links_count views :
  counts (create_view_to_bigquery_links cfg views) 0.
Proof.
  unfold create_view_to_bigquery_links.
  apply (counts_framed _ _
           (fun n => "  📊 Created " +:+ str_of_Z (Z.of_nat n) +:+ " view → BigQuery links")).
  apply counts_for_each. intros x acc. apply counts_link_table.
Qed.

End loops.

(** X12.  The number that each of the three link functions returns (and
    prints in its summary line) is the number of link requests that were
    taken during the call, that is, POSTs answered with status 200 or 409:
    links that were already there are counted as created, and nothing else
    is. *)
Theorem X12_links_created_counts_accepted_requests {E} `{!Env E} (cfg : Config)
    (dashboards explores views : list create_structural_links.entry_ref)
    (w : World E) (n : nat) :
  let taken (run : res nat * World E) := count_events is_accepted (added w (snd run)) in
  (let run := create_structural_links.create_dashboard_to_explore_links cfg dashboards explores w in
   fst run = Ret n -> n = taken run)
  /\ (let run := create_structural_links.create_explore_to_view_links cfg explores views w in
      fst run = Ret n -> n = taken run)
  /\ (let run := create_structural_links.create_view_to_bigquery_links cfg views w in
      fst run = Ret n -> n = taken run).
Proof.
  cbv zeta. split; [|split].
  - destruct (dashboard_links_count cfg dashboards explores w) as (l & Ht & Hn).
    intros Hr. rewrite (added_events _ _ _ Ht). exact (Hn n Hr).
  - destruct (view_links_count cfg explores views w) as (l & Ht & Hn).
    intros Hr. rewrite (added_events _ _ _ Ht). exact (Hn n Hr).
  - destruct (table_links_count cfg views w) as (l & Ht & Hn).
    intros Hr. rewrite (added_events _ _ _ Ht). exact (Hn n Hr).
Qed.

Lemma X12_witness :
  let views := [ create_structural_links.mkEntryRef "mylooker-retail_banking-card"
                   "custom:looker.view:mylooker.retail_banking.card" ] in
  let w :=
    mock.world (mock.healthy [ "mylooker-retail_banking-card";
                               "my-project-retail_banking-card" ]) in
  let run := create_structural_links.create_view_to_bigquery_links sample_config views w in
  fst run = Ret 1 /\ 1 = count_events is_accepted (added w (snd run)).
Proof.
  intros views w run.
  assert (fst run = Ret 1) as Hrun by (vm_compute; reflexivity).
  split; [exact Hrun|].
  exact (proj2 (proj2 (X12_links_created_counts_accepted_requests
                         sample_config [] [] views w 1)) Hrun).
Defined.

(* ===================================================================== *)
(** * The lineage client, further *)
(* ===================================================================== *)

Ltac step_client :=
  first
    [ step_world
    | match goal with
      | |- context [pystr.nonempty (text ?r)] =>
          destruct (pystr.nonempty (text r)) eqn:?Htext
      | |- context [json_body ?r] =>
          destruct (json_body r) as [[]|] eqn:?Hbody
      | |- context [truthy ?j] => destruct (truthy j) eqn:?Htruthy
      end; simpl ].

Ltac run_client := repeat step_client; rewrite <- ?app_assoc, ?added_app, ?added_same; simpl.

Section requests.
Context {E : Type} `{!Env E}.
Import dataplex_lineage_api.

Lemma unsupported_method (method : string) :
  method ∉ supported_methods ->
  String.eqb method "GET" = false /\ String.eqb method "POST" = false
  /\ String.eqb method "PATCH" = false /\ String.eqb method "DELETE" = false.
Proof.
  intros Hm. repeat split; apply String.eqb_neq; intros ->; apply Hm;
    unfold supported_methods; set_solver.
Qed.

Lemma make_request_run (self : DataLineageAPI) (method url : string)
    (data : option json) (w : World E) :
  method ∈ supported_methods ->
  exists answer st' prints r,
    env_request method url [] (auth_headers self) (body_sent method data) (env w)
    = (answer, st')
    /\ _make_request self method url data w
       = (r, mkWorld st' (files w)
               (trace w ++ HttpRequest method url [] (auth_headers self)
                             (body_sent method data) answer :: prints))
    /\ Forall (fun ev => is_print ev = true) prints
    /\ match r with
       | Ret j =>
           found j = document answer /\ passes answer = false
           /\ bool_decide (is_Some j) = decodes answer
       | Raise e => answer = Raise e /\ passes answer = true
       end.
Proof.
  intros Hm. unfold supported_methods in Hm.
  unfold _make_request, auth_headers, body_sent, document, decodes, passes, is_success.
  each_member Hm; unfold_M; run_client.
  all: eexists _, _, _, _; (split; [reflexivity|]).
  all: rewrite <- ?app_assoc; (split; [reflexivity|]).
  all: (split; [repeat constructor|]).
  all: cbn [found negb]; rewrite ?Htext, ?Hbody, ?Hreqex; cbn [negb orb andb].
  all: repeat match goal with
              | H : status_code ?r <> ?n |- _ => apply Z.eqb_neq in H; rewrite ?H
              end;
       repeat match goal with
              | H : status_code ?r = _ |- _ => rewrite !H
              end; simpl.
  all: repeat split; try done.
Qed.

Lemma requests_app (l1 l2 : list event) : requests (l1 ++ l2) = requests l1 ++ requests l2.
Proof. unfold requests. by rewrite filter_app. Qed.

Lemma requests_cons ev (l : list event) :
  requests (ev :: l) = if is_http ev then ev :: requests l else requests l.
Proof.
  unfold requests. rewrite filter_cons.
  destruct (is_http ev); [by rewrite decide_True|by rewrite decide_False].
Qed.

Lemma requests_prints (prints : list event) :
  Forall (fun ev => is_print ev = true) prints -> requests prints = [].
Proof.
  unfold requests. induction 1 as [|ev l Hev _ IH]; [done|].
  rewrite filter_cons, IH. destruct ev; try discriminate Hev; by rewrite decide_False.
Qed.

End requests.

(** X13.  [_make_request] sends exactly one request for each of the methods
    GET, POST, PATCH and DELETE, with the bearer token, the body going with
    POST and PATCH only; after the request it only prints.  It returns a
    document only for an answer with status 200 or 201, [None] for every
    other status, and lets through no exception of the requests library: an
    exception it raises is one the request itself raised, of another kind.
    For any other method it raises a ValueError and sends nothing. *)
Theorem X13_one_request_per_supported_method {E} `{!Env E}
    (self : dataplex_lineage_api.DataLineageAPI) (method url : string)
    (data : option json) (w : World E) :
  let run := dataplex_lineage_api._make_request self method url data w in
  (method ∉ supported_methods ->
   run = (Raise (ValueError ("Unsupported HTTP method: " +:+ method)), w))
  /\ (method ∈ supported_methods ->
      exists answer prints,
        added w (snd run)
        = HttpRequest method url [] (auth_headers self)
            (if bool_decide (method ∈ [ "POST"; "PATCH" ]) then data else None) answer
          :: prints
        /\ Forall (fun ev => is_print ev = true) prints
        /\ (forall j, fst run = Ret (Some j) ->
            exists response, answer = Ret response /\ is_success response = true)
        /\ (forall response, answer = Ret response -> is_success response = false ->
            fst run = Ret None)
        /\ (forall e, fst run = Raise e ->
            answer = Raise e /\ is_RequestException e = false)).
Proof.
  intros run. subst run. split.
  - intros Hm. apply unsupported_method in Hm as (H1 & H2 & H3 & H4).
    unfold dataplex_lineage_api._make_request. unfold_M.
    by rewrite H1, H2, H3, H4.
  - intros Hm. unfold supported_methods in Hm.
    unfold dataplex_lineage_api._make_request, auth_headers, is_success.
    each_member Hm; unfold_M; run_client.
    all: do 2 eexists; (split; [reflexivity|]).
    all: (split; [repeat constructor|]).
    all: repeat split; intros; simplify_eq; try done.
    all: try (eexists; split; [reflexivity|]).
    all: rewrite ?orb_true_iff, ?orb_false_iff, ?Z.eqb_eq, ?Z.eqb_neq in *; lia.
Qed.

Lemma X13_witness :
  dataplex_lineage_api._make_request sample_api "PUT" "https://example.org" None
    (mock.world (mock.healthy []))
  = (Raise (ValueError "Unsupported HTTP method: PUT"), mock.world (mock.healthy [])).
Proof.
  apply (X13_one_request_per_supported_method sample_api "PUT" "https://example.org" None
           (mock.world (mock.healthy []))).
  unfold supported_methods. intros Hin. each_member Hin.
Defined.

Section get_or_create.
Context {E : Type} `{!Env E}.
Import dataplex_lineage_api.

Lemma get_name_run (j : json) (w : World E) : snd (get_name j w) = w.
Proof. by destruct j. Qed.

Lemma get_name_object (d : list (string * json)) (w : World E) :
  fst (get_name (JObj d) w) = Ret (dict_get "name" d).
Proof. done. Qed.

End get_or_create.

Ltac only_requests Hp1 Hp2 :=
  repeat first
    [ rewrite requests_app
    | rewrite requests_cons; cbn [is_http]
    | rewrite (requests_prints _ Hp1)
    | rewrite (requests_prints _ Hp2) ];
  change (requests []) with (@nil event); rewrite ?app_nil_r; cbn [app].

(** The common course of [create_process] and [create_run], on the equation
    [Hrun] of the run: the GET, then the POST unless a document was found. *)
Ltac get_or_create_with self w geturl url Hrun k1 k2 :=
  let Hreq1 := fresh "Hreq" in let Hreq2 := fresh "Hreq" in
  unfold mbind, M_bind in Hrun; unfold bind at 1 in Hrun;
  let a1 := fresh "a1" in let st1 := fresh "st1" in let p1 := fresh "p1" in
  let r1 := fresh "r1" in let Hget := fresh "Hget" in let Hp1 := fresh "Hp1" in
  let Hr1 := fresh "Hr1" in
  destruct (make_request_run self "GET" geturl None w)
    as (a1 & st1 & p1 & r1 & Hreq1 & Hget & Hp1 & Hr1);
    [unfold supported_methods; set_solver|];
  rewrite Hget in Hrun; clear Hget;
  change (body_sent "GET" None) with (@None json) in Hrun;
  destruct r1 as [?j1|?e1];
  [ let Hfound := fresh "Hfound" in let Hpass := fresh "Hpass" in
    let Hdoc := fresh "Hdoc" in
    destruct Hr1 as (Hfound & Hpass & _); rewrite Hfound in Hrun;
    destruct (document a1) as [?doc|] eqn:Hdoc;
    [ unfold bind, print, log in Hrun; cbn [env files trace] in Hrun;
      exists a1; eexists; k1 Hreq1; split;
      [ apply added_events; rewrite Hrun, get_name_run; cbn [trace];
        rewrite <- !app_assoc, <- ?app_comm_cons; reflexivity |];
      split; [|intros; congruence];
      let j := fresh "j" in let Hj := fresh "Hj" in
      intros j Hj; rewrite Hdoc in Hj; injection Hj as <-; split;
      [ by only_requests Hp1 Hp1 | intros ? ->; by rewrite Hrun ]
    | unfold bind at 1 2 3 in Hrun; unfold print, print_value, log in Hrun;
      cbn [env files trace] in Hrun;
      let a2 := fresh "a2" in let st2 := fresh "st2" in let p2 := fresh "p2" in
      let r2 := fresh "r2" in let Hpost := fresh "Hpost" in let Hp2 := fresh "Hp2" in
      let Hr2 := fresh "Hr2" in
      match type of Hrun with
      | context [dataplex_lineage_api._make_request self "POST" url ?d ?W] =>
          destruct (make_request_run self "POST" url d W)
            as (a2 & st2 & p2 & r2 & Hreq2 & Hpost & Hp2 & Hr2);
            [unfold supported_methods; set_solver|]
      end;
      rewrite Hpost in Hrun; clear Hpost;
      change (body_sent "POST" ?d) with d in Hrun; cbn [env files trace] in Hrun;
      destruct r2 as [?j2|?e2];
      [ let Hfound2 := fresh "Hfound" in let Hpass2 := fresh "Hpass" in
        let Hdoc2 := fresh "Hdoc" in
        destruct Hr2 as (Hfound2 & Hpass2 & _); rewrite Hfound2 in Hrun;
        destruct (document a2) as [?doc2|] eqn:Hdoc2;
        [ unfold bind, print, print_value, log in Hrun; cbn [env files trace] in Hrun;
          exists a1; eexists; k1 Hreq1; split;
          [ apply added_events; rewrite Hrun, get_name_run; cbn [snd trace];
            rewrite <- !app_assoc, <- ?app_comm_cons; reflexivity |];
          split; [intros; congruence|]; intros _ _; exists a2; k2 Hreq1 Hreq2;
          only_requests Hp1 Hp2; split; [done|]; split; [|intros; congruence];
          let d := fresh "d" in let Hd := fresh "Hd" in
          intros d Hd; rewrite Hdoc2 in Hd; injection Hd as ->; by rewrite Hrun
        | unfold bind, print, print_value, log, mret, M_ret, ret in Hrun;
          cbn [env files trace] in Hrun;
          exists a1; eexists; k1 Hreq1; split;
          [ apply added_events; rewrite Hrun; cbn [snd trace];
            rewrite <- !app_assoc, <- ?app_comm_cons; reflexivity |];
          split; [intros; congruence|]; intros _ _; exists a2; k2 Hreq1 Hreq2;
          only_requests Hp1 Hp2; split; [done|]; split; [intros; congruence|];
          by rewrite Hrun ]
      | let Hpass2 := fresh "Hpass" in
        destruct Hr2 as (-> & Hpass2);
        exists a1; eexists; k1 Hreq1; split;
        [ apply added_events; rewrite Hrun; cbn [snd trace];
          rewrite <- !app_assoc, <- ?app_comm_cons; reflexivity |];
        split; [intros; congruence|]; intros _ _; eexists; k2 Hreq1 Hreq2;
        only_requests Hp1 Hp2;
        split; [done|]; split; [intros ? Hd; discriminate Hd|];
        intros _ Hno; congruence ] ]
  | let Hpass := fresh "Hpass" in
    destruct Hr1 as (-> & Hpass); eexists; exists p1; k1 Hreq1; rewrite Hrun; cbn [fst snd];
    split; [by apply added_events|]; split; [intros ? Hj; discriminate Hj|];
    intros _ Hno; congruence ].

Ltac get_or_create self w geturl url Hrun :=
  get_or_create_with self w geturl url Hrun
    ltac:(fun _ => idtac) ltac:(fun _ _ => idtac).

(** The same, for a statement that names the answers of the service. *)
Ltac answer_of_get H :=
  split;
  [ change (body_sent "GET" None) with (@None json) in H;
    rewrite H; cbn [fst]; reflexivity |].

Ltac answer_of_post H1 H2 :=
  split;
  [ change (body_sent "GET" None) with (@None json) in H1;
    change (body_sent "POST" ?d) with d in H2; cbn [env] in H2;
    rewrite H1; cbn [snd]; rewrite H2; cbn [fst]; reflexivity |].

(** X14.  [create_process] first asks for the process whose id is the last
    segment of the given name.  If the answer is a document that reads as
    true, it sends nothing more and returns the name in that document.
    Otherwise (and unless the request raised something else than a request
    error) it sends exactly one more request, a POST to the collection with
    the display name, the attributes and the origin: neither the process id
    nor the description go into it.  It returns the name in the document of
    that answer, or [None] when there is none. *)
Theorem X14_create_process_reads_before_it_writes {E} `{!Env E}
    (self : dataplex_lineage_api.DataLineageAPI)
    (process : dataplex_lineage_api.LineageProcess) (w : World E) :
  let run := dataplex_lineage_api.create_process self process w in
  let url := dataplex_lineage_api.base_url self +:+ "/processes" in
  exists answer rest,
    added w (snd run)
    = HttpRequest "GET"
        (url +:+ "/" +:+ after_last "/" (dataplex_lineage_api.process_name process))
        [] (auth_headers self) None answer
      :: rest
    /\ (forall j, document answer = Some j ->
        requests rest = []
        /\ forall d, j = JObj d -> fst run = Ret (dict_get "name" d))
    /\ (document answer = None -> passes answer = false ->
        exists answer',
          requests rest
          = [ HttpRequest "POST" url [] (auth_headers self)
                (Some
                   (JObj
                      [ ("displayName",
                         JStr (dataplex_lineage_api.process_display_name process));
                        ("attributes",
                         dataplex_lineage_api.json_of_attributes
                           (dataplex_lineage_api.process_attributes process));
                        ("origin", JObj [ ("sourceType", JStr "CUSTOM");
                                          ("name", JStr "looker-dataplex-integration") ]) ]))
                answer' ]
          /\ (forall d, document answer' = Some (JObj d) ->
              fst run = Ret (dict_get "name" d))
          /\ (document answer' = None -> passes answer' = false -> fst run = Ret None)).
Proof.
  intros run url. remember (dataplex_lineage_api.create_process self process w) as result
    eqn:Hrun. subst run.
  unfold dataplex_lineage_api.create_process in Hrun.
  rewrite last_split_chr in Hrun. fold url in Hrun.
  get_or_create self w
    (url +:+ "/" +:+ after_last "/" (dataplex_lineage_api.process_name process)) url Hrun.
Qed.

(** X15.  [create_run] proceeds likewise under the process whose id is the
    last segment of the given process name: it first asks for the run whose
    id is the last segment of the run's name, sends nothing more when the
    answer is a document that reads as true, and otherwise POSTs the run
    (display name, state, start time, attributes, and the end time of a
    completed run) to the runs of that process, exactly once. *)
Theorem X15_create_run_reads_before_it_writes {E} `{!Env E}
    (self : dataplex_lineage_api.DataLineageAPI) (process_name : string)
    (run : dataplex_lineage_api.LineageRun) (w : World E) :
  let result := dataplex_lineage_api.create_run self process_name run w in
  let url :=
    dataplex_lineage_api.base_url self +:+ "/processes/"
    +:+ after_last "/" process_name +:+ "/runs" in
  exists answer rest,
    added w (snd result)
    = HttpRequest "GET" (url +:+ "/" +:+ after_last "/" (dataplex_lineage_api.name run))
        [] (auth_headers self) None answer
      :: rest
    /\ (forall j, document answer = Some j ->
        requests rest = []
        /\ forall d, j = JObj d -> fst result = Ret (dict_get "name" d))
    /\ (document answer = None -> passes answer = false ->
        exists answer',
          requests rest
          = [ HttpRequest "POST" url [] (auth_headers self)
                (Some (JObj (dataplex_lineage_api.run_data run))) answer' ]
          /\ (forall d, document answer' = Some (JObj d) ->
              fst result = Ret (dict_get "name" d))
          /\ (document answer' = None -> passes answer' = false ->
              fst result = Ret None)).
Proof.
  intros result0 url.
  remember (dataplex_lineage_api.create_run self process_name run w) as result eqn:Hrun.
  subst result0.
  unfold dataplex_lineage_api.create_run in Hrun.
  rewrite !last_split_chr in Hrun. fold url in Hrun.
  get_or_create self w
    (url +:+ "/" +:+ after_last "/" (dataplex_lineage_api.name run)) url Hrun.
Qed.

(** ** The run and its creation request *)

(** C8.  With the clock at least one second before the last representable
    datetime, the run constructor yields a run in state COMPLETED whose start
    time is the clock reading and whose end time is that reading plus one
    second, both in ISO format, and does nothing else.  The body of the
    run-creation request has an endTime field exactly when the state of the
    run is COMPLETED and its end time is not empty; for a constructed run it
    is the end time.  [create_run] sends that body in every POST it makes,
    and it does make the POST, once, to the runs of the process, whenever
    its check for an existing run finds none. *)
Theorem C8_run_completed_one_second_later {E} `{!Env E}
    (process_name run_id display_name : string) (w : World E) :
  let now := fst (env_now (env w)) in
  datetime.representable (now + 1 * datetime.US_PER_SECOND) = true ->
  (exists run w',
      dataplex_lineage_api.create_transformation_run process_name run_id display_name w
      = (Ret run, w')
      /\ dataplex_lineage_api.name run = process_name +:+ "/runs/" +:+ run_id
      /\ dataplex_lineage_api.display_name run = display_name
      /\ dataplex_lineage_api.state run = "COMPLETED"
      /\ dataplex_lineage_api.start_time run = datetime.isoformat now
      /\ dataplex_lineage_api.end_time run = datetime.isoformat (now + 1000000)
      /\ trace w' = trace w
      /\ dict_get "endTime" (dataplex_lineage_api.run_data run)
         = Some (JStr (datetime.isoformat (now + 1000000)))) /\
  (forall run : dataplex_lineage_api.LineageRun,
      dict_has "endTime" (dataplex_lineage_api.run_data run) = true
      <-> dataplex_lineage_api.state run = "COMPLETED"
          /\ dataplex_lineage_api.end_time run <> EmptyString) /\
  (forall (self : dataplex_lineage_api.DataLineageAPI) (target : string)
     (run : dataplex_lineage_api.LineageRun) (v : World E) url params headers body answer,
      HttpRequest "POST" url params headers body answer
        ∈ added v (snd (dataplex_lineage_api.create_run self target run v)) ->
      body = Some (JObj (dataplex_lineage_api.run_data run))) /\
  (forall (self : dataplex_lineage_api.DataLineageAPI) (target : string)
     (run : dataplex_lineage_api.LineageRun) (v : World E),
      let result := dataplex_lineage_api.create_run self target run v in
      let url :=
        dataplex_lineage_api.base_url self +:+ "/processes/"
        +:+ after_last "/" target +:+ "/runs" in
      let lookup := url +:+ "/" +:+ after_last "/" (dataplex_lineage_api.name run) in
      let body := Some (JObj (dataplex_lineage_api.run_data run)) in
      let check := env_request "GET" lookup [] (auth_headers self) None (env v) in
      let answer := env_request "POST" url [] (auth_headers self) body (snd check) in
      exists rest,
        added v (snd result)
        = HttpRequest "GET" lookup [] (auth_headers self) None (fst check) :: rest
        /\ (forall j, document (fst check) = Some j ->
            requests rest = []
            /\ forall d, j = JObj d -> fst result = Ret (dict_get "name" d))
        /\ (document (fst check) = None -> passes (fst check) = false ->
            requests rest
            = [ HttpRequest "POST" url [] (auth_headers self) body (fst answer) ]
            /\ (forall d, document (fst answer) = Some (JObj d) ->
                fst result = Ret (dict_get "name" d))
            /\ (document (fst answer) = None -> passes (fst answer) = false ->
                fst result = Ret None))).
Proof.
  intros now Hrep. split; [|split; [|split]]; cycle 3.
  { intros self target run v result0 url lookup body check answer.
    assert (exists a1 rest,
              a1 = fst check
              /\ added v (snd result0)
                 = HttpRequest "GET" lookup [] (auth_headers self) None a1 :: rest
              /\ (forall j, document a1 = Some j ->
                  requests rest = []
                  /\ forall d, j = JObj d -> fst result0 = Ret (dict_get "name" d))
              /\ (document a1 = None -> passes a1 = false ->
                  exists a2,
                    a2 = fst answer
                    /\ requests rest
                       = [ HttpRequest "POST" url [] (auth_headers self) body a2 ]
                    /\ (forall d, document a2 = Some (JObj d) ->
                        fst result0 = Ret (dict_get "name" d))
                    /\ (document a2 = None -> passes a2 = false ->
                        fst result0 = Ret None)))
      as (a1 & rest & -> & Hadded & Hfound & Hcreate).
    { remember (dataplex_lineage_api.create_run self target run v) as result eqn:Hrun.
      subst result0 check answer body.
      unfold dataplex_lineage_api.create_run in Hrun.
      rewrite !last_split_chr in Hrun. fold url in Hrun. fold lookup in Hrun.
      get_or_create_with self v lookup url Hrun answer_of_get answer_of_post. }
    exists rest. split; [exact Hadded|]. split; [exact Hfound|].
    intros Hnone Hpass. destruct (Hcreate Hnone Hpass) as (a2 & -> & Hpost).
    exact Hpost. }
  - unfold dataplex_lineage_api.create_transformation_run.
    unfold mbind, M_bind, bind, now_utc. subst now.
    destruct (env_now (env w)) as [t e'] eqn:Hnow. simpl in Hrep |- *.
    unfold datetime.add_seconds. rewrite Hrep.
    change (1 * datetime.US_PER_SECOND)%Z with 1000000%Z.
    eexists _, _. split; [reflexivity|]. simpl.
    repeat (split; [reflexivity|]).
    unfold dataplex_lineage_api.run_data. simpl.
    by rewrite isoformat_nonempty.
  - apply run_data_end_time.
  - intros self target run v url params headers body answer.
    unfold dataplex_lineage_api.create_run, dataplex_lineage_api._make_request,
      dataplex_lineage_api.found.
    unfold_M.
    repeat (step_world ||
            match goal with
            | |- context [pystr.nonempty (text ?x)] =>
                destruct (pystr.nonempty (text x)) eqn:?; simpl
            | |- context [json_body ?x] => destruct (json_body x) as [[]|] eqn:?; simpl
            | |- context [truthy ?x] => destruct (truthy x) eqn:?; simpl
            | |- context [dataplex_lineage_api.get_name ?x] => destruct x; simpl
            | |- context [match ?c with Some _ => _ | None => _ end] =>
                destruct c eqn:?; simpl
            end);
      rewrite <- ?app_assoc, ?added_app; simpl;
      intros Hin; each_member Hin; reflexivity.
Qed.

Lemma C8_witness :
  let clock := 63839664059500000%Z in
  let w := mock.world (mock.mk [] false None "ya29.token" (Raise (OSError "unreachable")) clock 0) in
  exists run,
    fst (dataplex_lineage_api.create_transformation_run
           "projects/p/locations/eu/processes/bq-view-7afd52e7" "run-1704067259"
           "Run card" w) = Ret run
    /\ dataplex_lineage_api.state run = "COMPLETED"
    /\ dataplex_lineage_api.start_time run = "2024-01-01T00:00:59.500000+00:00"
    /\ dataplex_lineage_api.end_time run = "2024-01-01T00:01:00.500000+00:00".
Proof.
  intros clock w.
  destruct (C8_run_completed_one_second_later
              "projects/p/locations/eu/processes/bq-view-7afd52e7" "run-1704067259"
              "Run card" w) as [(run & w' & Hrun & _ & _ & Hstate & Hstart & Hend & _) _].
  { vm_compute. reflexivity. }
  exists run. rewrite Hrun. split; [reflexivity|]. split; [exact Hstate|].
  split; [rewrite Hstart|rewrite Hend]; vm_compute; reflexivity.
Defined.

(** X16.  [create_lineage_event] sends exactly one request: a POST to the
    lineage events of the run and process named by the last segments of the
    two given names, with one link from the source to the target and the
    clock reading, taken once, as both start and end time.  It returns
    [True] exactly when the answer is a 200 or 201 response whose body
    decodes to a value that reads as true; so a successful answer with an
    empty body, or with an empty object, is reported as a failure. *)
Theorem X16_lineage_event_needs_a_document {E} `{!Env E}
    (self : dataplex_lineage_api.DataLineageAPI)
    (process_name run_name source_fqn target_fqn event_type : string) (w : World E) :
  let result :=
    dataplex_lineage_api.create_lineage_event self
      process_name run_name source_fqn target_fqn event_type w in
  let event_time := datetime.isoformat (fst (env_now (env w))) in
  exists answer,
    requests (added w (snd result))
    = [ HttpRequest "POST"
          (dataplex_lineage_api.base_url self +:+ "/processes/"
           +:+ after_last "/" process_name +:+ "/runs/" +:+ after_last "/" run_name
           +:+ "/lineageEvents")
          [] (auth_headers self)
          (Some
             (JObj
                [ ("links",
                   JList
                     [ JObj [ ("source", JObj [ ("fullyQualifiedName", JStr source_fqn) ]);
                              ("target", JObj [ ("fullyQualifiedName", JStr target_fqn) ]) ] ]);
                  ("startTime", JStr event_time);
                  ("endTime", JStr event_time) ]))
          answer ]
    /\ (passes answer = false ->
        fst result = Ret (bool_decide (is_Some (document answer))))
    /\ (forall response,
          answer = Ret response -> pystr.nonempty (text response) = false ->
          fst result = Ret false).
Proof.
  intros result0 event_time.
  remember (dataplex_lineage_api.create_lineage_event self
              process_name run_name source_fqn target_fqn event_type w) as result eqn:Hrun.
  subst result0.
  unfold dataplex_lineage_api.create_lineage_event in Hrun.
  rewrite !last_split_chr in Hrun.
  unfold mbind, M_bind in Hrun. unfold bind at 1 2 3 4 in Hrun.
  unfold now_utc, print, print_value, log in Hrun.
  subst event_time.
  destruct (env_now (env w)) as [now st0]. cbn [fst env files trace] in Hrun |- *.
  match type of Hrun with
  | context [dataplex_lineage_api._make_request self "POST" ?url ?d ?W] =>
      destruct (make_request_run self "POST" url d W)
        as (a & st & p & r & _ & Hpost & Hp & Hr);
        [unfold supported_methods; set_solver|]
  end.
  rewrite Hpost in Hrun. clear Hpost.
  change (body_sent "POST" ?d) with d in Hrun. cbn [env files trace] in Hrun.
  exists a. destruct r as [j|e].
  - destruct Hr as (Hfound & Hpass & _). rewrite Hfound in Hrun.
    assert (forall response,
               a = Ret response -> pystr.nonempty (text response) = false ->
               document a = None) as Hempty.
    { intros response -> Htext. unfold document. by rewrite Htext, andb_false_r. }
    destruct (document a) as [doc|] eqn:Hdoc.
    + unfold bind, print, print_value, log, mret, M_ret, ret in Hrun.
      cbn [env files trace] in Hrun. rewrite Hrun. cbn [fst snd].
      erewrite added_events
        by (cbn [snd trace]; rewrite <- ?app_assoc, <- ?app_comm_cons; reflexivity).
      only_requests Hp Hp. split; [done|]. split; [intros _; reflexivity|].
      intros response Ha Htext. by specialize (Hempty _ Ha Htext).
    + unfold bind, print, print_value, log, mret, M_ret, ret in Hrun.
      cbn [env files trace] in Hrun. rewrite Hrun. cbn [fst snd].
      erewrite added_events
        by (cbn [snd trace]; rewrite <- ?app_assoc, <- ?app_comm_cons; reflexivity).
      only_requests Hp Hp. split; [done|]. split; [intros _; reflexivity|done].
  - destruct Hr as (-> & Hpass). rewrite Hrun. cbn [fst snd].
    erewrite added_events
        by (cbn [snd trace]; rewrite <- ?app_assoc, <- ?app_comm_cons; reflexivity).
    only_requests Hp Hp. split; [done|]. split; [intros; congruence|].
    intros response Ha. discriminate Ha.
Qed.

Lemma X16_witness :
  fst (dataplex_lineage_api.create_lineage_event sample_api
         "projects/my-project/locations/eu/processes/bq-view-7afd52e7"
         "projects/my-project/locations/eu/processes/bq-view-7afd52e7/runs/run-1"
         "bigquery:my-project.retail_banking.card"
         "custom:looker.view:mylooker.retail_banking.card" "COMPLETE"
         (mock.world (mock.mk [] false None "ya29.token"
                        (Ret (mkResponse 200 "" None)) 0 0)))
  = Ret false.
Proof.
  destruct (X16_lineage_event_needs_a_document sample_api
              "projects/my-project/locations/eu/processes/bq-view-7afd52e7"
              "projects/my-project/locations/eu/processes/bq-view-7afd52e7/runs/run-1"
              "bigquery:my-project.retail_banking.card"
              "custom:looker.view:mylooker.retail_banking.card" "COMPLETE"
              (mock.world (mock.mk [] false None "ya29.token"
                             (Ret (mkResponse 200 "" None)) 0 0)))
    as (answer & Hreq & _ & Hempty).
  apply (Hempty (mkResponse 200 "" None)); [|reflexivity].
  vm_compute in Hreq. by injection Hreq as <-.
Defined.

(** X17.  [delete_process] sends exactly one request, a DELETE of the given
    name under the base address of the API (the project and location of the
    client play no part), and returns [True] exactly when the answer of the
    service is a 200 or 201 response whose body is empty or decodes to
    something other than the JSON null; unlike the creation of a lineage
    event, it takes a successful answer with an empty body for a success.
    A successful answer whose body is the JSON null makes it return
    [False]. *)
Theorem X17_delete_succeeds_on_any_successful_answer {E} `{!Env E}
    (self : dataplex_lineage_api.DataLineageAPI) (process_name : string) (w : World E) :
  let result := dataplex_lineage_api.delete_process self process_name w in
  let url := "https://datalineage.googleapis.com/v1/" +:+ process_name in
  let answer := fst (env_request "DELETE" url [] (auth_headers self) None (env w)) in
  requests (added w (snd result))
  = [ HttpRequest "DELETE" url [] (auth_headers self) None answer ]
  /\ (passes answer = false -> fst result = Ret (decodes answer))
  /\ (forall response,
        answer = Ret response -> is_success response = true ->
        pystr.nonempty (text response) = false ->
        fst result = Ret true)
  /\ (forall response,
        answer = Ret response -> is_success response = true ->
        pystr.nonempty (text response) = true ->
        json_body response = Some JNull ->
        fst result = Ret false).
Proof.
  intros result0 url answer0.
  remember (dataplex_lineage_api.delete_process self process_name w) as result eqn:Hrun.
  subst result0.
  unfold dataplex_lineage_api.delete_process in Hrun.
  unfold mbind, M_bind in Hrun. unfold bind at 1 in Hrun.
  match type of Hrun with
  | context [dataplex_lineage_api._make_request self "DELETE" ?url ?d ?W] =>
      destruct (make_request_run self "DELETE" url d W)
        as (a & st & p & r & Hreq & Hdel & Hp & Hr);
        [unfold supported_methods; set_solver|]
  end.
  rewrite Hdel in Hrun. clear Hdel.
  change (body_sent "DELETE" None) with (@None json) in Hrun.
  assert (answer0 = a) as Ha by exact (f_equal fst Hreq).
  clearbody answer0. subst answer0. clear Hreq.
  destruct r as [j|e].
  - destruct Hr as (_ & Hpass & Hsome).
    unfold mret, M_ret, ret in Hrun. rewrite Hrun. cbn [fst snd].
    erewrite added_events
      by (cbn [snd trace]; rewrite <- ?app_assoc, <- ?app_comm_cons; reflexivity).
    only_requests Hp Hp. split; [done|]. rewrite Hsome. split; [done|].
    split.
    + intros response -> Hok Htext. unfold decodes. by rewrite Hok, Htext.
    + intros response -> Hok Htext Hnull. unfold decodes.
      by rewrite Hok, Htext, Hnull.
  - destruct Hr as (-> & Hpass). rewrite Hrun. cbn [fst snd].
    erewrite added_events
      by (cbn [snd trace]; rewrite <- ?app_assoc, <- ?app_comm_cons; reflexivity).
    only_requests Hp Hp. split; [done|]. split; [intros; congruence|].
    split; intros response Ha; discriminate Ha.
Qed.

Lemma X17_witness :
  fst (dataplex_lineage_api.delete_process sample_api
         "projects/my-project/locations/eu/processes/bq-view-7afd52e7"
         (mock.world (mock.mk [] false None "ya29.token"
                        (Ret (mkResponse 200 "" None)) 0 0)))
  = Ret true
  /\ fst (dataplex_lineage_api.delete_process sample_api
            "projects/my-project/locations/eu/processes/bq-view-7afd52e7"
            (mock.world (mock.mk [] false None "ya29.token"
                           (Ret (mkResponse 200 "null" (Some JNull))) 0 0)))
     = Ret false.
Proof.
  split.
  - destruct (X17_delete_succeeds_on_any_successful_answer sample_api
                "projects/my-project/locations/eu/processes/bq-view-7afd52e7"
                (mock.world (mock.mk [] false None "ya29.token"
                               (Ret (mkResponse 200 "" None)) 0 0)))
      as (_ & _ & Hempty & _).
    apply (Hempty (mkResponse 200 "" None)); reflexivity.
  - destruct (X17_delete_succeeds_on_any_successful_answer sample_api
                "projects/my-project/locations/eu/processes/bq-view-7afd52e7"
                (mock.world (mock.mk [] false None "ya29.token"
                               (Ret (mkResponse 200 "null" (Some JNull))) 0 0)))
      as (_ & _ & _ & Hnull).
    apply (Hnull (mkResponse 200 "null" (Some JNull))); reflexivity.
Defined.

(** ** Process identifiers and names *)

Section process_ids.
Import pystr.

Lemma hex_digit_no_slash (n : Z) : Ascii.eqb (hashlib.hex_digit n) "/" = false.
Proof.
  unfold hashlib.hex_digit. generalize (Z.to_nat n). intros k.
  do 16 (destruct k as [|k]; [reflexivity|]). by destruct k.
Qed.

Lemma hash8_no_slash d t : contains_chr "/" (hash8 d t) = false.
Proof.
  unfold hash8, hashlib.md5_hexdigest.
  destruct (hashlib.digest_state _) as [[[a b] c] e].
  unfold hashlib.hex_word, hashlib.hex_byte, take. cbn [String.substring contains_chr].
  by rewrite !hex_digit_no_slash.
Qed.

Lemma prefix_of_no_slash t : contains_chr "/" (prefix_of t) = false.
Proof.
  unfold prefix_of, dataplex_lineage_api.type_prefix. cbn [list_to_map foldr uncurry].
  destruct (decide (t = "view_transformation")) as [->|H1];
    [by rewrite lookup_insert_eq|rewrite lookup_insert_ne by done].
  destruct (decide (t = "explore_transformation")) as [->|H2];
    [by rewrite lookup_insert_eq|rewrite lookup_insert_ne by done].
  destruct (decide (t = "dashboard_visualization")) as [->|H3];
    [by rewrite lookup_insert_eq|rewrite lookup_insert_ne by done].
  by rewrite lookup_empty.
Qed.

Lemma after_last_behind c (x y : string) :
  after_last c (x +:+ String c y) = after_last c y.
Proof.
  induction x as [|a x IH].
  - change ("" +:+ String c y) with (String c y). cbn [after_last].
    rewrite Ascii.eqb_refl.
    destruct (contains_chr c y) eqn:Hy; [done|]. by rewrite after_last_none.
  - rewrite append_cons. cbn [after_last].
    rewrite contains_chr_app. simpl. by rewrite Ascii.eqb_refl, orb_true_r.
Qed.

Lemma process_id_no_slash d t :
  contains_chr "/" (dataplex_lineage_api.generate_deterministic_process_id d t) = false.
Proof.
  rewrite process_id_parts, contains_chr_app, prefix_of_no_slash. simpl.
  apply hash8_no_slash.
Qed.

End process_ids.

(** X18.  The process that [create_transformation_process] builds carries a
    name whose last segment, which is what [create_process] and
    [create_run] take for the process id, is the generated identifier when
    no id is given (the identifier never holds a slash), and the last
    segment of the given id otherwise: the given id itself exactly when it
    holds no slash. *)
Theorem X18_process_name_ends_with_the_process_id (cfg : Config)
    (process_id display_name description transformation_type : string) :
  let process :=
    dataplex_lineage_api.create_transformation_process cfg
      process_id display_name description transformation_type in
  let looked_up :=
    pystr.last_item (pystr.split_chr "/" (dataplex_lineage_api.process_name process)) in
  (process_id = "" ->
   looked_up
   = dataplex_lineage_api.generate_deterministic_process_id display_name transformation_type)
  /\ (process_id <> "" ->
      looked_up = pystr.last_item (pystr.split_chr "/" process_id)
      /\ (looked_up = process_id <-> pystr.contains_chr "/" process_id = false)).
Proof.
  intros process looked_up. subst looked_up process.
  unfold dataplex_lineage_api.create_transformation_process.
  cbn [dataplex_lineage_api.process_name]. rewrite !last_split_chr.
  assert (forall pid, after_last "/" ("projects/" +:+ PROJECT_ID cfg +:+ "/locations/"
                                      +:+ LOCATION cfg +:+ "/processes/" +:+ pid)
                      = after_last "/" pid) as Hlast.
  { intros pid.
    change ("/processes/" +:+ pid) with ("/processes" +:+ String "/" pid).
    rewrite <- !append_assoc. apply after_last_behind. }
  split.
  - intros ->. cbn [pystr.nonempty negb]. rewrite Hlast.
    apply after_last_none, process_id_no_slash.
  - intros Hne. destruct process_id as [|a pid]; [done|]. cbn [pystr.nonempty negb].
    rewrite Hlast. split; [done|]. split.
    + intros Heq. rewrite <- Heq. apply after_last_absent.
    + apply after_last_none.
Qed.

Lemma X18_witness :
  pystr.last_item
    (pystr.split_chr "/"
       (dataplex_lineage_api.process_name
          (dataplex_lineage_api.create_transformation_process sample_config
             "" "BigQuery to Looker View: card" "" "view_transformation")))
  = dataplex_lineage_api.generate_deterministic_process_id
      "BigQuery to Looker View: card" "view_transformation".
Proof.
  apply (X18_process_name_ends_with_the_process_id sample_config
           "" "BigQuery to Looker View: card" "" "view_transformation").
  reflexivity.
Defined.

(** X19.  The names the lineage module builds for Looker entries, set
    against two name builders of the ingesters: for the types explore and
    dashboard, [generate_dataplex_fqn] gives what [generate_looker_fqn] of
    the dashboards ingester gives for that type and the folder
    retail_banking; for a view it gives what [generate_custom_fqn] of the
    views ingester builds from the configured Looker instance,
    retail_banking and the name exactly when that instance is mylooker, the
    instance written into the lineage module. *)
Theorem X19_lineage_names_are_the_ingested_names (cfg : Config) (entry_name : string) :
  (forall entry_type,
      entry_type ∈ [ "explore"; "dashboard" ] ->
      dataplex_lineage_api.generate_dataplex_fqn cfg entry_type entry_name
      = ingest_dashboards_only.generate_looker_fqn entry_type "retail_banking" entry_name)
  /\ (ingest_views_only.generate_custom_fqn "view"
        [ LOOKER_INSTANCE_ID cfg; "retail_banking"; entry_name ]
      = Ret (dataplex_lineage_api.generate_dataplex_fqn cfg "view" entry_name)
      <-> LOOKER_INSTANCE_ID cfg = "mylooker").
Proof.
  split.
  - intros entry_type Hin. each_member Hin; reflexivity.
  - unfold ingest_views_only.generate_custom_fqn, dataplex_lineage_api.generate_dataplex_fqn.
    cbn [String.eqb Ascii.eqb Bool.eqb]. split.
    + intros [= Heq].
      change (LOOKER_INSTANCE_ID cfg +:+ "." +:+ "retail_banking" +:+ "." +:+ entry_name)
        with (LOOKER_INSTANCE_ID cfg +:+ (".retail_banking." +:+ entry_name)) in Heq.
      change ("mylooker.retail_banking." +:+ entry_name)
        with ("mylooker" +:+ (".retail_banking." +:+ entry_name)) in Heq.
      apply (string_app_inj_suffix (LOOKER_INSTANCE_ID cfg)
               (".retail_banking." +:+ entry_name) "mylooker"
               (".retail_banking." +:+ entry_name)) in Heq; [by destruct Heq|reflexivity].
    + by intros ->.
Qed.

Lemma X19_witness :
  dataplex_lineage_api.generate_dataplex_fqn sample_config "dashboard" "branch_overview"
  = ingest_dashboards_only.generate_looker_fqn "dashboard" "retail_banking" "branch_overview".
Proof.
  apply (X19_lineage_names_are_the_ingested_names sample_config "branch_overview").
  apply elem_of_cons. right. apply elem_of_cons. by left.
Defined.

(** X20.  [search_links] sends exactly one request, a POST of the asset
    name to the searchLinks method of the client's location, and returns
    the document of the answer when there is one that reads as true, and an
    empty dictionary in every other case (an error status, a request error,
    an empty or false body): it never returns [None]. *)
Theorem X20_search_links_returns_a_dictionary_on_failure {E} `{!Env E}
    (self : dataplex_lineage_api.DataLineageAPI) (asset_fqn : string) (w : World E) :
  let result := dataplex_lineage_api.search_links self asset_fqn w in
  exists answer,
    requests (added w (snd result))
    = [ HttpRequest "POST" (dataplex_lineage_api.base_url self +:+ ":searchLinks")
          [] (auth_headers self)
          (Some (JObj [ ("source", JObj [ ("fullyQualifiedName", JStr asset_fqn) ]) ]))
          answer ]
    /\ (passes answer = false ->
        fst result = Ret (default (JObj []) (document answer)))
    /\ (forall j, fst result = Ret j -> truthy j = true \/ j = JObj []).
Proof.
  intros result0.
  remember (dataplex_lineage_api.search_links self asset_fqn w) as result eqn:Hrun.
  subst result0.
  unfold dataplex_lineage_api.search_links in Hrun.
  unfold mbind, M_bind in Hrun. unfold bind at 1 in Hrun.
  match type of Hrun with
  | context [dataplex_lineage_api._make_request self "POST" ?url ?d ?W] =>
      destruct (make_request_run self "POST" url d W)
        as (a & st & p & r & _ & Hpost & Hp & Hr);
        [unfold supported_methods; set_solver|]
  end.
  rewrite Hpost in Hrun. clear Hpost.
  change (body_sent "POST" ?d) with d in Hrun.
  exists a. destruct r as [j|e].
  - destruct Hr as (Hfound & Hpass & _).
    unfold mret, M_ret, ret in Hrun. rewrite Hfound in Hrun. rewrite Hrun. cbn [fst snd].
    erewrite added_events
      by (cbn [snd trace]; rewrite <- ?app_assoc, <- ?app_comm_cons; reflexivity).
    only_requests Hp Hp. split; [done|]. split; [by destruct (document a)|].
    intros j' [= <-]. destruct (document a) as [doc|] eqn:Hdoc; [left|by right].
    unfold dataplex_lineage_api.found in Hfound.
    destruct j as [j|]; [|done]. destruct (truthy j) eqn:Ht; [|done].
    by injection Hfound as <-.
  - destruct Hr as (-> & Hpass). rewrite Hrun. cbn [fst snd].
    erewrite added_events
      by (cbn [snd trace]; rewrite <- ?app_assoc, <- ?app_comm_cons; reflexivity).
    only_requests Hp Hp. split; [done|]. split; [intros; congruence|].
    intros j Hj. discriminate Hj.
Qed.

(** X21.  On a field body that is not cut short, the field parser does find
    the source column: for a body holding the clause  sql: TABLE-reference
    .COLUMN ;  (after any text without the letter s, and whatever follows
    the semicolon), [parse_field_definition] returns COLUMN as the source
    column and the reference as the sql definition. *)
Theorem X21_field_parser_reads_the_column (pre col post name type_ : string) :
  all_chars (fun a => negb (Ascii.eqb a "s")) pre = true ->
  col <> EmptyString ->
  all_chars pystr.is_word col = true ->
  let field :=
    lookml.parse_field_definition
      (pre +:+ "sql: ${TABLE}." +:+ col +:+ " ;" +:+ post) name type_ in
  lookml.source_column field = Some col
  /\ lookml.sql_definition field = Some ("${TABLE}." +:+ col)
  /\ lookml.field_name field = name.
Proof.
  intros Hpre Hne Hcol field. subst field.
  destruct (parse_field_definition_reads_column pre col post name type_ Hpre Hne Hcol)
    as [Hcolumn Hsql].
  repeat split; done.
Qed.

Lemma X21_witness :
  lookml.source_column
    (lookml.parse_field_definition
       (" type: number " +:+ "sql: ${TABLE}." +:+ "amt" +:+ " ;" +:+ ";")
       "amount" "dimension")
  = Some "amt".
Proof.
  apply (X21_field_parser_reads_the_column " type: number " "amt" ";" "amount" "dimension");
    first [reflexivity | discriminate].
Defined.

(** ** What the loops ask for *)

Section asked_links.
Context {E : Type} `{!Env E} (cfg : Config).
Import create_structural_links.

Lemma emits_ret {A} (Q : event -> Prop) (a : A) : emits Q (ret (E:=E) a).
Proof. intros w. exists []. simpl. by rewrite app_nil_r. Qed.

Lemma emits_bind {A B} (Q : event -> Prop) (m : M E A) (k : A -> M E B) :
  emits Q m -> (forall a, emits Q (k a)) -> emits Q (bind m k).
Proof.
  intros Hm Hk w. unfold bind.
  destruct (Hm w) as (l1 & Ht1 & HQ1).
  destruct (m w) as [[a|e] w1]; simpl in *.
  - destruct (Hk a w1) as (l2 & Ht2 & HQ2).
    exists (l1 ++ l2). split; [by rewrite Ht2, Ht1, app_assoc|].
    by apply Forall_app.
  - by exists l1.
Qed.

Lemma emits_print (Q : event -> Prop) (line : string) :
  Q (Print line) -> emits Q (print (E:=E) line).
Proof. intros HQ w. exists [ Print line ]. split; [done|]. by constructor. Qed.

Lemma emits_for_each {A S} (Q : event -> Prop) (items : list A)
    (body : A -> S -> M E S) (acc : S) :
  (forall x acc', x ∈ items -> emits Q (body x acc')) ->
  emits Q (for_each items body acc).
Proof.
  revert acc. induction items as [|x items IH]; intros acc Hbody; [apply emits_ret|].
  cbn [for_each]. apply emits_bind.
  - apply Hbody, elem_of_cons. by left.
  - intros acc'. apply IH. intros y acc'' Hy. apply Hbody, elem_of_cons. by right.
Qed.

Lemma emits_weaken {A} (Q Q' : event -> Prop) (m : M E A) :
  (forall ev, Q ev -> Q' ev) -> emits Q m -> emits Q' m.
Proof.
  intros HQ Hm w. destruct (Hm w) as (l & Ht & Hl).
  exists l. split; [done|]. by apply (Forall_impl _ _ _ Hl).
Qed.

Lemma create_entry_link_asks
    (source_entry_id target_entry_id link_type description : string) :
  emits
    (links cfg
       (default related_link (entry_link_type_mapping !! link_type))
       (fun source target => source = source_entry_id /\ target = target_entry_id))
    (create_entry_link cfg source_entry_id target_entry_id link_type description).
Proof.
  intros w.
  unfold create_entry_link, verify_entry_exists, run_gcloud_command, get_access_token.
  unfold_M. run_world.
  all: eexists; (split; [rewrite <- ?app_assoc; try reflexivity|]).
  all: try (rewrite app_nil_r; reflexivity).
  all: repeat (apply Forall_cons; split; [try (intros Hhttp; discriminate Hhttp)|]);
    try apply Forall_nil.
  all: try done.
  all: intros _; rewrite !append_assoc; eexists _, _, _, _, _;
    (split; [split; reflexivity|reflexivity]).
Qed.

Lemma link_type_uses :
  default related_link (entry_link_type_mapping !! "uses") = related_link.
Proof. vm_compute. reflexivity. Qed.

Lemma link_type_maps_to :
  default related_link (entry_link_type_mapping !! "maps_to") = definition_link.
Proof. vm_compute. reflexivity. Qed.

Lemma by_id_known (entries : list entry_ref) (k : string) (d : entry_ref) :
  by_id entries !! k = Some d -> k ∈ id <$> entries.
Proof.
  intros Hk. destruct (decide (k ∈ id <$> entries)) as [|Hn]; [done|].
  apply by_id_lookup_None in Hn. congruence.
Qed.

Lemma emits_link (Q : event -> Prop)
    (source_entry_id target_entry_id link_type description : string) (acc : nat) :
  emits Q (create_entry_link cfg source_entry_id target_entry_id link_type description) ->
  emits Q
    (created ←
       create_entry_link cfg source_entry_id target_entry_id link_type description;
     mret (if (created : bool) then S acc else acc)).
Proof. intros Hlink. apply emits_bind; [done|]. intros a. apply emits_ret. Qed.

End asked_links.

(** The two heading lines, the loop, the summary line. *)
Ltac frame_loop :=
  unfold mbind, M_bind, mret, M_ret;
  apply emits_bind; [apply emits_print; intros Hh; discriminate Hh|intros _];
  apply emits_bind; [apply emits_print; intros Hh; discriminate Hh|intros _];
  apply emits_bind;
    [|intros ?; apply emits_bind;
        [apply emits_print; intros Hh; discriminate Hh|intros _; apply emits_ret]].

(** X22.  Every request that the three link functions send asks the entry
    group of the configuration for a link between a pair of their tables
    whose first entry is among the entries they were given.  The dashboard
    and the explore function ask for links of type related, between a
    dashboard (an explore) of the table and one of the explores (views)
    listed for it, both given; the BigQuery function asks for links of type
    definition, from a given view of its table to the entry named as the
    table path with dashes for dots, which it looks for in the same entry
    group. *)
Theorem X22_only_listed_pairs_are_linked {E} `{!Env E} (cfg : Config)
    (dashboards explores views : list create_structural_links.entry_ref) (w : World E) :
  let known (entries : list create_structural_links.entry_ref) (entry_id : string) :=
    entry_id ∈ create_structural_links.id <$> entries in
  Forall
    (links cfg related_link
       (fun source target =>
          exists targets,
            (source, targets) ∈ create_structural_links.dashboard_explore_relationships
            /\ target ∈ targets /\ known dashboards source /\ known explores target))
    (added w (snd (create_structural_links.create_dashboard_to_explore_links cfg
                     dashboards explores w)))
  /\ Forall
       (links cfg related_link
          (fun source target =>
             exists targets,
               (source, targets) ∈ create_structural_links.explore_view_relationships
               /\ target ∈ targets /\ known explores source /\ known views target))
       (added w (snd (create_structural_links.create_explore_to_view_links cfg
                        explores views w)))
  /\ Forall
       (links cfg definition_link
          (fun source target =>
             exists view_name table_path,
               (view_name, table_path) ∈ create_structural_links.view_table_mappings cfg
               /\ source = create_structural_links.view_id_of cfg view_name
               /\ target = pystr.replace_chr "." "-" table_path
               /\ known views source))
       (added w (snd (create_structural_links.create_view_to_bigquery_links cfg
                        views w))).
Proof.
  intros known. subst known. cbv beta.
  assert (forall (Q : event -> Prop) (m : M E nat),
             emits Q m -> Forall Q (added w (snd (m w)))) as Hadded.
  { intros Q m Hm. destruct (Hm w) as (l & Ht & Hl). by rewrite (added_events _ _ _ Ht). }
  split; [|split]; apply Hadded.
  - unfold create_structural_links.create_dashboard_to_explore_links,
      create_structural_links.link_dashboards_to_explores.
    frame_loop.
    apply emits_for_each. intros [dashboard_id explore_ids] acc Hrow.
    unfold create_structural_links.link_dashboard.
    destruct (create_structural_links.by_id dashboards !! dashboard_id) as [d|] eqn:Hd;
      [|apply emits_ret].
    apply emits_for_each. intros explore_id acc' Hexplore.
    unfold create_structural_links.link_explore.
    destruct (create_structural_links.by_id explores !! explore_id) as [x|] eqn:Hx;
      [|apply emits_ret].
    apply emits_link.
    eapply emits_weaken; [|apply create_entry_link_asks].
    rewrite link_type_uses.
    intros ev Hev Hhttp. destruct (Hev Hhttp) as (s & t & hex & token & answer & [-> ->] & ->).
    exists dashboard_id, explore_id, hex, token, answer. split; [|done].
    exists explore_ids. repeat split; [done|done|by eapply by_id_known..].
  - unfold create_structural_links.create_explore_to_view_links.
    frame_loop.
    apply emits_for_each. intros [explore_id view_ids] acc Hrow.
    unfold create_structural_links.link_explore_views.
    destruct (create_structural_links.by_id explores !! explore_id) as [d|] eqn:Hd;
      [|apply emits_ret].
    apply emits_for_each. intros view_id acc' Hview.
    unfold create_structural_links.link_view.
    destruct (create_structural_links.by_id views !! view_id) as [x|] eqn:Hx;
      [|apply emits_ret].
    apply emits_link.
    eapply emits_weaken; [|apply create_entry_link_asks].
    rewrite link_type_uses.
    intros ev Hev Hhttp. destruct (Hev Hhttp) as (s & t & hex & token & answer & [-> ->] & ->).
    exists explore_id, view_id, hex, token, answer. split; [|done].
    exists view_ids. repeat split; [done|done|by eapply by_id_known..].
  - unfold create_structural_links.create_view_to_bigquery_links.
    frame_loop.
    apply emits_for_each. intros [view_name table_path] acc Hrow.
    unfold create_structural_links.link_table.
    destruct (create_structural_links.by_id views
                !! create_structural_links.view_id_of cfg view_name) as [d|] eqn:Hd;
      [|apply emits_ret].
    apply emits_link.
    eapply emits_weaken; [|apply create_entry_link_asks].
    rewrite link_type_maps_to.
    intros ev Hev Hhttp. destruct (Hev Hhttp) as (s & t & hex & token & answer & [-> ->] & ->).
    eexists _, _, hex, token, answer. split; [|done].
    exists view_name, table_path. repeat split; [done|by eapply by_id_known].
Qed.

(* ===================================================================== *)
(** * A temporary file that cannot be written *)
(* ===================================================================== *)

(** X23.  The temporary file is made before the [try] of the routine, so
    nothing catches a failure there and nothing cleans up after it.  With
    the entry absent, when the file cannot be created or its text cannot be
    written, the routine raises that exception right after announcing the
    creation: it runs no create command and removes no file.  When the file
    was created and only the writing failed, the unfinished file stays
    where it is. *)
Theorem X23_unwritten_temporary_file_stays {E} `{!Env E} (cfg : Config)
    (entry_fqn entry_type : string) (aspect_data : list (string * json))
    (w : World E) (ex e : exn) :
  let entry_id := ingest_views_only.entry_id_of_fqn entry_fqn in
  let describe := ingest_views_only.describe_args cfg entry_id in
  let run :=
    ingest_views_only.create_dataplex_entry_with_aspects cfg
      entry_fqn entry_type aspect_data w in
  let made := env_tmpname ".json" (snd (env_subprocess describe (env w))) in
  describe_answer cfg entry_fqn w = Raise ex ->
  is_CalledProcessError ex = true ->
  tmpfile_answer cfg entry_fqn w = Raise e ->
  fst run = Raise e
  /\ added w (snd run)
     = [ Subprocess describe (Raise ex);
         Print ("  ➕ Creating entry: " +:+ entry_id +:+ " (FQN: " +:+ entry_fqn +:+ ")") ]
  /\ (env_create_error (fst made) (snd made) = Some e ->
      files (snd run) = files w)
  /\ (env_create_error (fst made) (snd made) = None ->
      files (snd run) = <[fst made := None]> (files w)).
Proof.
  intros entry_id describe run made Hd Hex Hn. subst run made.
  rewrite create_entry_run. unfold describe_answer, tmpfile_answer in *.
  fold entry_id in Hd, Hn |- *. fold describe in Hd, Hn |- *. cbv zeta in *.
  destruct (env_subprocess describe (env w)) as [d e1]. simpl in Hd, Hn |- *. subst d.
  rewrite Hex.
  destruct (env_tmpname ".json" e1) as [n e2]. simpl.
  destruct (env_create_error n e2) as [ex1|].
  - injection Hn as ->. simpl. rewrite <- ?app_assoc, added_app.
    split; [done|]. split; [done|]. split; [done|]. intros [=].
  - destruct (env_dump_error n e2) as [ex1|]; [|discriminate Hn].
    injection Hn as ->. simpl. rewrite <- ?app_assoc, added_app.
    split; [done|]. split; [done|]. split; [intros [=]|done].
Qed.

Lemma X23_witness :
  let w :=
    mkWorld (mock.with_faults (mock.healthy []) None
               (Some (OSError "[Errno 28] No space left on device"))) ∅ [] in
  let run :=
    ingest_views_only.create_dataplex_entry_with_aspects sample_config
      "looker:dashboard:mylooker.retail_banking.branch_overview" "looker-dashboard" [] w in
  fst run = Raise (OSError "[Errno 28] No space left on device")
  /\ files (snd run) !! "/tmp/tmp0.json" = Some None.
Proof.
  intros w run.
  destruct (X23_unwritten_temporary_file_stays sample_config
              "looker:dashboard:mylooker.retail_banking.branch_overview"
              "looker-dashboard" [] w
              (CalledProcessError 1 "ERROR: NOT_FOUND")
              (OSError "[Errno 28] No space left on device"))
    as (Hraise & _ & _ & Hfiles);
    [vm_compute; reflexivity|reflexivity|vm_compute; reflexivity|].
  split; [exact Hraise|].
  unfold run. rewrite Hfiles; [|vm_compute; reflexivity].
  apply lookup_insert_eq.
Defined.
